(** * The KPI job controller of [iotfunctions/pipeline.py]

    A shallow embedding of the scheduling, chunking, auto-merge,
    aggregation-planning and database-writer code of
    [src/iotfunctions/pipeline.py], followed by the properties of that code.

    Conventions of the embedding
    - A Python [datetime] is the number of microseconds since the epoch, a
      [timedelta] a number of microseconds; both are [Z].  Python's [//] on
      integers is floor division, which is [Z.div].  The bounds of
      [datetime] are not modelled.
    - A raised exception is the [Err] branch of [result]; statements are
      sequenced with the bind of that monad.  A loop that may raise is a
      monadic fold.
    - A [dict] or [OrderedDict] is an association list kept in insertion
      order ([odict]); assignment keeps the position of an existing key.
    - A frame is a record of its index and its columns, with the cells
      written out; the operations of [pandas] that the module calls are
      functions on that record.  The two joins are operations of the class
      [Joins], of which the merge uses two facts; a reference
      implementation runs the examples.
    - [pd.to_timedelta] and the current UTC date are parameters of the
      scheduling functions; Python's [str] and [float] on cell values are
      the operations of the class [PyRuntime].
    - The database driver is the list of the calls made to it; a failure
      of the driver is not modelled.
    - Attributes and methods looked up with [getattr] and a default are
      options: [None] is the missing attribute. *)

From Stdlib Require Import ZArith List String Ascii Bool Lia Arith Sorted.
From Stdlib Require Import DecimalString.
Import ListNotations.

Set Implicit Arguments.

(* ===================================================================== *)
(** * Python values, exceptions and dictionaries *)
(* ===================================================================== *)

Module Py.

(** The exception classes the modelled code raises or lets escape. *)
Inductive exn_kind : Type :=
| TypeError
| ValueError
| KeyError
| IndexError
| AttributeError
| ZeroDivisionError
| UnboundLocalError
| OverflowError
| DataWriterException.

Record exn : Type := Raise { kind : exn_kind; message : string }.

Inductive result (A : Type) : Type :=
| Ok (a : A)
| Err (e : exn).

Arguments Ok {A} a.
Arguments Err {A} e.

Definition bind {A B : Type} (m : result A) (k : A -> result B) : result B :=
  match m with
  | Ok a => k a
  | Err e => Err e
  end.

Definition raise {A : Type} (k : exn_kind) (msg : string) : result A :=
  Err (Raise k msg).

(** [for x in l: acc = f(acc, x)] where the body may raise. *)
Fixpoint foldM {A S : Type} (f : S -> A -> result S) (l : list A) (s : S)
  : result S :=
  match l with
  | [] => Ok s
  | x :: l' => bind (f s x) (foldM f l')
  end.

Fixpoint mapM {A B : Type} (f : A -> result B) (l : list A)
  : result (list B) :=
  match l with
  | [] => Ok []
  | x :: l' =>
      bind (f x) (fun y => bind (mapM f l') (fun ys => Ok (y :: ys)))
  end.

(** ** Scalars held by frame cells, constants and stage results *)

(** A Python [float]: only its class (finite, infinite, NaN) is inspected
    by the code; a finite value is kept as a decimal [mant * 10^expo]. *)
Inductive pyfloat : Type :=
| FNum (mant expo : Z)
| FInf (negative : bool)
| FNaN.

Inductive scalar : Type :=
| SNone
| SNaT
| SBool (b : bool)
| SInt (z : Z)
| SFloat (f : pyfloat)
| SStr (s : string)
| STime (t : Z).

Definition pyfloat_eqb (a b : pyfloat) : bool :=
  match a, b with
  | FNum m e, FNum m' e' => Z.eqb m m' && Z.eqb e e'
  | FInf s, FInf s' => Bool.eqb s s'
  | FNaN, FNaN => true
  | _, _ => false
  end.

Definition scalar_eqb (a b : scalar) : bool :=
  match a, b with
  | SNone, SNone => true
  | SNaT, SNaT => true
  | SBool x, SBool y => Bool.eqb x y
  | SInt x, SInt y => Z.eqb x y
  | SFloat x, SFloat y => pyfloat_eqb x y
  | SStr x, SStr y => String.eqb x y
  | STime x, STime y => Z.eqb x y
  | _, _ => false
  end.

(** ** Insertion-ordered dictionaries *)

Section ODict.
Variables K V : Type.
Variable eqb : K -> K -> bool.

Definition odict : Type := list (K * V).

(** [d.get(k)] *)
Fixpoint od_get (d : odict) (k : K) : option V :=
  match d with
  | [] => None
  | (k', v) :: d' => if eqb k' k then Some v else od_get d' k
  end.

(** [d[k] = v]: an existing key keeps its position. *)
Fixpoint od_set (d : odict) (k : K) (v : V) : odict :=
  match d with
  | [] => [(k, v)]
  | (k', v') :: d' =>
      if eqb k' k then (k', v) :: d' else (k', v') :: od_set d' k v
  end.

(** [k in d] *)
Definition od_mem (d : odict) (k : K) : bool :=
  match od_get d k with Some _ => true | None => false end.

Definition od_keys (d : odict) : list K := map fst d.

(** [d[k]], which raises [KeyError] on a missing key. *)
Definition od_item (d : odict) (k : K) : result V :=
  match od_get d k with
  | Some v => Ok v
  | None => raise KeyError ""
  end.
End ODict.

Definition mem_str (x : string) (l : list string) : bool :=
  existsb (String.eqb x) l.

(** [set(a).issubset(b)] on names *)
Definition subset_str (a b : list string) : bool :=
  forallb (fun x => mem_str x b) a.

(** ** The [%] operator on a format that only uses [%s] *)

Fixpoint count_placeholders (fmt : string) : nat :=
  match fmt with
  | String "%" (String "s" rest) => S (count_placeholders rest)
  | String _ rest => count_placeholders rest
  | EmptyString => O
  end.

Fixpoint fill_placeholders (fmt : string) (args : list string) : string :=
  match fmt with
  | String "%" (String "s" rest) =>
      match args with
      | a :: args' => String.append a (fill_placeholders rest args')
      | [] => fill_placeholders rest []
      end
  | String c rest => String c (fill_placeholders rest args)
  | EmptyString => EmptyString
  end.

(** [fmt % args]: too few arguments and too many arguments are both a
    [TypeError], with the interpreter's two messages. *)
Definition format (fmt : string) (args : list string) : result string :=
  let n := count_placeholders fmt in
  if (List.length args <? n)%nat
  then raise TypeError "not enough arguments for format string"
  else if (n <? List.length args)%nat
  then raise TypeError
         "not all arguments converted during string formatting"
  else Ok (fill_placeholders fmt args).

End Py.

Import Py.

Declare Scope py_scope.
Delimit Scope py_scope with py.
Notation "x <- m ;; k" := (Py.bind m (fun x => k))
  (at level 61, m at next level, right associativity) : py_scope.
Notation "' pat <- m ;; k" := (Py.bind m (fun x => match x with pat => k end))
  (at level 61, pat pattern, m at next level, right associativity) : py_scope.
Open Scope string_scope.
Open Scope list_scope.
Open Scope py_scope.
Open Scope Z_scope.

(* ===================================================================== *)
(** * Time *)
(* ===================================================================== *)

Module Datetime.
Definition datetime : Type := Z.
Definition timedelta : Type := Z.

Definition MICROSECOND : timedelta := 1.
Definition MINUTE : timedelta := 60000000.
Definition HOUR : timedelta := 3600000000.
Definition DAY : timedelta := 86400000000.

(** [a // b] on durations. *)
Definition floordiv (a b : Z) : result Z :=
  if b =? 0 then raise ZeroDivisionError "integer division or modulo by zero"
  else Ok (a / b).
End Datetime.

Import Datetime.

(* ===================================================================== *)
(** * Frames: the part of [pandas] the module relies on *)
(* ===================================================================== *)

Module Frames.

(** The kind of an index: a plain [Index] with its name, or a [MultiIndex]
    with the names of its levels. *)
Inductive index_kind : Type :=
| Single (name : option string)
| Multi (names : list (option string)).

(** A [DataFrame]: the kind of its index, one key per row (a key has one
    part per level) and the columns in order, each with one cell per row. *)
Record DataFrame : Type := {
  ikind : index_kind;
  index : list (list scalar);
  columns : odict string (list scalar)
}.

Record Series : Type := {
  s_name : option string;
  s_ikind : index_kind;
  s_index : list (list scalar);
  s_values : list scalar
}.

(** [index.names] *)
Definition names_of (k : index_kind) : list (option string) :=
  match k with
  | Single n => [n]
  | Multi ns => ns
  end.

(** [index.name] *)
Definition name_of (k : index_kind) : option string :=
  match k with
  | Single n => n
  | Multi _ => None
  end.

(** [isinstance(index, pd.MultiIndex)] *)
Definition is_multi_kind (k : index_kind) : bool :=
  match k with
  | Single _ => false
  | Multi _ => true
  end.

Definition index_names (df : DataFrame) : list (option string) :=
  names_of (ikind df).

Definition is_multi (df : DataFrame) : bool := is_multi_kind (ikind df).

(** An object that is neither a mapping, a frame nor a series: [None], a
    scalar, a list or one-dimensional array, a two-dimensional array. *)
Inductive plain : Type :=
| PNone
| PScalar (s : scalar)
| PList (l : list scalar)
| PTable (rows : list (list scalar)).

(** What a stage may return and what [DataMerge.execute] may be given. *)
Inductive pyobj : Type :=
| OPlain (p : plain)
| ODict
| OFrame (df : DataFrame)
| OSeries (s : Series).

(** [pd.DataFrame()] *)
Definition new_frame : DataFrame :=
  {| ikind := Single None; index := []; columns := [] |}.

Definition nrows (df : DataFrame) : nat := List.length (index df).

(** [list(df.columns)] *)
Definition labels (df : DataFrame) : list string := od_keys (columns df).

(** [df.empty]: an axis of length zero. *)
Definition empty (df : DataFrame) : bool :=
  (nrows df =? 0)%nat || (List.length (columns df) =? 0)%nat.

(** [pd.isna] on a scalar *)
Definition isna (s : scalar) : bool :=
  match s with
  | SNone | SNaT | SFloat FNaN => true
  | _ => false
  end.

Definition range_index (n : nat) : list (list scalar) :=
  map (fun i => [SInt (Z.of_nat i)]) (seq 0 n).

(** [df.index.name] *)
Definition index_name (df : DataFrame) : option string := name_of (ikind df).

(** The cells that assigning [p] gives a column of a frame with [n] rows. *)
Definition cells_of (p : plain) (n : nat) : result (list scalar) :=
  match p with
  | PNone => Ok (repeat SNone n)
  | PScalar s => Ok (repeat s n)
  | PList l =>
      if (List.length l =? n)%nat then Ok l
      else raise ValueError "Length of values does not match length of index"
  | PTable rows =>
      if forallb (fun r => (List.length r =? 1)%nat) rows
         && (List.length rows =? n)%nat
      then Ok (List.concat rows)
      else raise ValueError "Wrong number of items passed"
  end.

(** Assigning a non-empty list to a frame without rows first gives the
    frame a range index of the length of the list; the columns it has are
    filled with NaN. *)
Definition ensure_valid_index (df : DataFrame) (p : plain) : DataFrame :=
  match p with
  | PList (x :: l) =>
      if (nrows df =? 0)%nat then
        let n := S (List.length l) in
        {| ikind := Single (index_name df);
           index := range_index n;
           columns := map (fun c => (fst c, repeat (SFloat FNaN) n)) (columns df) |}
      else df
  | _ => df
  end.

(** [df[name] = p] *)
Definition setitem (df : DataFrame) (name : string) (p : plain)
  : result DataFrame :=
  let df := ensure_valid_index df p in
  cells <- cells_of p (nrows df) ;;
  Ok {| ikind := ikind df;
        index := index df;
        columns := od_set String.eqb (columns df) name cells |}.

(** [df.columns = col_names], for as many names as columns. *)
Definition relabel (df : DataFrame) (col_names : list string) : DataFrame :=
  {| ikind := ikind df;
     index := index df;
     columns := combine col_names (map snd (columns df)) |}.

(** [series.to_frame()] for a series named [name]. *)
Definition to_frame (s : Series) (name : string) : DataFrame :=
  {| ikind := s_ikind s; index := s_index s;
     columns := [(name, s_values s)] |}.

Definition key_eqb (a b : list scalar) : bool :=
  (List.length a =? List.length b)%nat
  && forallb (fun xy => scalar_eqb (fst xy) (snd xy)) (combine a b).

(** [a.index.equals(b.index)]: the same keys in the same order. *)
Definition index_equals (a b : DataFrame) : bool :=
  Bool.eqb (is_multi a) (is_multi b)
  && (nrows a =? nrows b)%nat
  && forallb (fun xy => key_eqb (fst xy) (snd xy)) (combine (index a) (index b)).

(** The values of index level [j]. *)
Definition level_values (df : DataFrame) (j : nat) : list scalar :=
  map (fun key => nth j key SNone) (index df).

Fixpoint has_dup (l : list string) : bool :=
  match l with
  | [] => false
  | x :: l' => mem_str x l' || has_dup l'
  end.

Definition string_of_nat (n : nat) : string :=
  DecimalString.NilZero.string_of_uint (Nat.to_uint n).

(** The column labels [reset_index] gives the index levels. *)
Definition reset_names (df : DataFrame) : list string :=
  if is_multi df then
    map (fun ni => match snd ni with
                   | Some s => s
                   | None => String.append "level_" (string_of_nat (fst ni))
                   end)
        (combine (seq 0 (List.length (index_names df))) (index_names df))
  else
    [match index_name df with
     | Some s => s
     | None => if mem_str "index" (labels df) then "level_0" else "index"
     end].

(** [df.reset_index()]: the levels become the first columns; a level whose
    label is already a column cannot be inserted. *)
Definition reset_index (df : DataFrame) : result DataFrame :=
  let names := reset_names df in
  if existsb (fun n => mem_str n (labels df)) names || has_dup names then
    raise ValueError "cannot insert level, already exists"
  else
    Ok {| ikind := Single None;
          index := range_index (nrows df);
          columns :=
            map (fun jn => (snd jn, level_values df (fst jn)))
                (combine (seq 0 (List.length names)) names)
            ++ columns df |}.

Definition column (df : DataFrame) (name : string) : option (list scalar) :=
  od_get String.eqb (columns df) name.

(** [df.set_index(keys)] *)
Definition set_index (df : DataFrame) (keys : list string) : result DataFrame :=
  match keys with
  | [] => raise ValueError "Must pass non-zero number of levels/codes"
  | _ =>
      if negb (forallb (fun k => mem_str k (labels df)) keys) then
        raise KeyError "None of the keys are in the columns"
      else
        Ok {| ikind := match keys with
                       | [k] => Single (Some k)
                       | _ => Multi (map Some keys)
                       end;
              index :=
                map (fun i =>
                       map (fun k => match column df k with
                                     | Some cells => nth i cells SNone
                                     | None => SNone
                                     end) keys)
                    (seq 0 (nrows df));
              columns :=
                filter (fun c => negb (mem_str (fst c) keys)) (columns df) |}
  end.

(** [a.fillna(b)] for two columns of one frame. *)
Definition fillna (a b : list scalar) : list scalar :=
  map (fun xy => if isna (fst xy) then snd xy else fst xy) (combine a b).

(** [df[cols]] for labels that are columns of [df]: the columns whose label
    passes [keep]. *)
Definition select (df : DataFrame) (keep : string -> bool) : DataFrame :=
  {| ikind := ikind df;
     index := index df;
     columns := filter (fun c => keep (fst c)) (columns df) |}.

(** Joins are taken from the tabular library.  Of a join only this much is
    used: every row of the left frame is in the result at least once, and
    the left frame's columns keep their labels (its suffix is empty). *)
Class Joins : Type := {
  (** [left.merge(right, 'outer', left_index=True, right_index=True,
      suffixes=('', suffix))] *)
  merge_outer : DataFrame -> DataFrame -> string -> result DataFrame;
  (** [left.merge(right, 'left', on=key, suffixes=('', suffix))] *)
  merge_left : DataFrame -> DataFrame -> option string -> string
               -> result DataFrame;
  merge_outer_rows : forall l r sfx m,
    merge_outer l r sfx = Ok m -> (nrows l <= nrows m)%nat;
  merge_outer_labels : forall l r sfx m,
    merge_outer l r sfx = Ok m -> incl (labels l) (labels m);
  merge_left_rows : forall l r key sfx m,
    merge_left l r key sfx = Ok m -> (nrows l <= nrows m)%nat;
  merge_left_labels : forall l r key sfx m,
    merge_left l r key sfx = Ok m -> incl (labels l) (labels m)
}.

End Frames.

Import Frames.
(* ===================================================================== *)
(** * DataMerge *)
(* ===================================================================== *)

Module DataMerge.

(** A [DataMerge] object: the frame and the constants. *)
Record t : Type := {
  df : DataFrame;
  constants : odict string plain
}.

Definition r_suffix : string := "_new_".

(** [DataMerge.__init__] *)
Definition init (df : option DataFrame) (constants : option (odict string plain))
  : t :=
  {| df := match df with Some d => d | None => new_frame end;
     constants := match constants with Some c => c | None => [] end |}.

(** [DataMerge.add_constant] *)
Definition add_constant (self : t) (name : string) (value : plain) : result t :=
  let constants := od_set String.eqb (constants self) name value in
  d <- setitem (df self) name value ;;
  Ok {| df := d; constants := constants |}.

(** The loop of [apply_constants] on the frame. *)
Definition apply_constants_to (constants : odict string plain) (d : DataFrame)
  : result DataFrame :=
  foldM (fun d nv => setitem d (fst nv) (snd nv)) constants d.

(** [DataMerge.apply_constants] *)
Definition apply_constants (self : t) : result t :=
  d <- apply_constants_to (constants self) (df self) ;;
  Ok {| df := d; constants := constants self |}.

(** [DataMerge.clear_data] *)
Definition clear_data (self : t) : t :=
  {| df := new_frame; constants := [] |}.

(** One iteration of the loop of [coalesce_cols]: a [KeyError] on the
    suffixed column is passed over. *)
Definition coalesce_step (suffix : string)
  (st : DataFrame * list string) (o : string) : DataFrame * list string :=
  let '(d, altered) := st in
  let drop := String.append o suffix in
  match column d o, column d drop with
  | Some cells, Some dropcells =>
      ({| ikind := ikind d;
          index := index d;
          columns := od_set String.eqb (columns d) o (fillna cells dropcells) |},
       altered ++ [drop])
  | _, _ => (d, altered)
  end.

(** [DataMerge.coalesce_cols] *)
Definition coalesce_cols (d : DataFrame) (suffix : string) : DataFrame :=
  let '(d, altered) := fold_left (coalesce_step suffix) (labels d) (d, []) in
  if (0 <? List.length altered)%nat
  then select d (fun x => negb (mem_str x altered))
  else d.

(** [DataMerge.convert_to_df]: [pd.DataFrame(data=obj, columns=col_names)]
    followed by [df.index = index]. *)
Definition convert_to_df (obj : plain) (col_names : list string)
  (like : DataFrame) : result DataFrame :=
  rows <- match obj with
          | PScalar _ => raise ValueError "DataFrame constructor not properly called!"
          | PNone => Ok []
          | PList l => Ok (map (fun x => [x]) l)
          | PTable rows => Ok rows
          end ;;
  if negb (forallb (fun r => (List.length r =? List.length col_names)%nat) rows)
  then raise ValueError "Shape of passed values does not match the columns"
  else if negb (List.length rows =? nrows like)%nat
  then raise ValueError "Length mismatch"
  else
    Ok {| ikind := ikind like;
          index := index like;
          columns :=
            map (fun jn => (snd jn, map (fun r => nth (fst jn) r SNone) rows))
                (combine (seq 0 (List.length col_names)) col_names) |}.

(** [DataMerge.get_index_names] *)
Definition get_index_names (d : DataFrame) : list string :=
  let df_index_names :=
    match index_name d with
    | Some n => [Some n]
    | None => index_names d
    end in
  flat_map (fun x => match x with Some n => [n] | None => [] end) df_index_names.

(** [DataMerge.get_cols] *)
Definition get_cols (d : DataFrame) : list string :=
  get_index_names d ++ labels d.

Inductive strategy : Type := Skip | Replace | Slice | Outer | Lookup.

(** The first part of [merge_dataframe]: a series becomes a frame and the
    columns take the supplied names. *)
Definition normalize (obj : DataFrame + Series) (col_names : list string)
  : result DataFrame :=
  match obj with
  | inr s =>
      match col_names with
      | c :: _ => Ok (to_frame s c)
      | [] => raise IndexError "list index out of range"
      end
  | inl d =>
      if (List.length col_names =? List.length (columns d))%nat
      then Ok (relabel d col_names)
      else Ok d
  end.

Definition list_str_eqb (a b : list string) : bool :=
  (List.length a =? List.length b)%nat
  && forallb (fun xy => String.eqb (fst xy) (snd xy)) (combine a b).

(** The second part of [merge_dataframe]: the merge strategy, if any. *)
Definition choose_strategy (self : t) (d : DataFrame)
  (col_names : list string) (force_overwrite : bool)
  : result (option strategy) :=
  let obj_index_names := get_index_names d in
  if empty d then Ok (Some Skip)
  else if empty (df self) then Ok (Some Replace)
  else if index_equals d (df self) then
    if subset_str col_names (labels (df self)) && negb force_overwrite
    then Ok (Some Skip) else Ok (Some Slice)
  else if list_str_eqb obj_index_names (get_index_names (df self)) then
    Ok (Some Outer)
  else if (List.length obj_index_names =? 1)%nat then
    let df_valid_names := get_index_names (df self) ++ labels (df self) in
    if negb (subset_str obj_index_names df_valid_names)
    then raise ValueError
           "Function error. Attempting to merge a dataframe that has an invalid name in the index"
    else Ok (Some Lookup)
  else Ok None.

Section WithJoins.
Context {J : Joins}.

(** The third part of [merge_dataframe]: the merge itself. *)
Definition carry_out (self : t) (d : DataFrame) (col_names : list string)
  (merge_strategy : option strategy) : result t :=
  match merge_strategy with
  | Some Skip =>
      let missing_cols :=
        filter (fun x => negb (mem_str x (labels (df self)))) col_names in
      d' <- foldM (fun acc c => setitem acc c PNone) missing_cols (df self) ;;
      Ok {| df := d'; constants := constants self |}
  | Some Replace =>
      apply_constants {| df := d; constants := constants self |}
  | Some Slice =>
      d' <- foldM (fun acc c => setitem acc (fst c) (PList (snd c)))
                  (columns d) (df self) ;;
      Ok {| df := d'; constants := constants self |}
  | Some Outer =>
      m <- merge_outer (df self) d r_suffix ;;
      let m := coalesce_cols m r_suffix in
      apply_constants {| df := m; constants := constants self |}
  | Some Lookup =>
      let df_index_names := get_index_names (df self) in
      r <- reset_index (df self) ;;
      m <- merge_left r d (index_name d) r_suffix ;;
      m <- set_index m df_index_names ;;
      Ok {| df := coalesce_cols m r_suffix; constants := constants self |}
  | None =>
      if (List.length (get_index_names d) =? 0)%nat then
        raise UnboundLocalError
          "local variable 'df_valid_names' referenced before assignment"
      else
        raise ValueError
          "Function error. Auto merge encountered a dataframe that could not be automatically merged."
  end.

(** [DataMerge.merge_dataframe] *)
Definition merge_dataframe (self : t) (obj : DataFrame + Series)
  (col_names : list string) (force_overwrite : bool) : result t :=
  d <- normalize obj col_names ;;
  merge_strategy <- choose_strategy self d col_names force_overwrite ;;
  carry_out self d col_names merge_strategy.

(** [DataMerge.merge_non_dataframe] *)
Definition merge_non_dataframe (self : t) (obj : plain)
  (col_names : list string) : result t :=
  match col_names with
  | [c] =>
      if empty (df self) then add_constant self c obj
      else
        match setitem (df self) c obj with
        | Ok d => Ok {| df := d; constants := constants self |}
        | Err e =>
            match kind e with
            | ValueError =>
                raise ValueError
                  "Auto merge encounterd an object that could not be automatically merged."
            | _ => Err e
            end
        end
  | _ =>
      raise ValueError
        "Auto merge encountered an object that could not be automatically merged. When the object is not a dataframe or numpy array, it should only deliver a single column."
  end.

(** [DataMerge.execute] up to the test of the expected columns. *)
Definition merge_phase (self : t) (obj : pyobj) (col_names : list string)
  (force_overwrite : bool) : result t :=
  match obj with
  | ODict =>
      raise TypeError
        "Function error. A failure occured when attempting to merge a dictionary with a dataframe."
  | OFrame d => merge_dataframe self (inl d) col_names force_overwrite
  | OSeries s => merge_dataframe self (inr s) col_names force_overwrite
  | OPlain p =>
      if (1 <? List.length col_names)%nat
         && negb match p with PNone => true | _ => false end
      then
        d <- convert_to_df p col_names (df self) ;;
        merge_dataframe self (inl d) col_names force_overwrite
      else merge_non_dataframe self p col_names
  end.

Definition postcondition_message : string :=
  "Error in auto merge. Resulting df does not contain the expected output columns that should have been delivered through merge.".

(** [DataMerge.execute] *)
Definition execute (self : t) (obj : pyobj) (col_names : list string)
  (force_overwrite : bool) : result t :=
  self <- merge_phase self obj col_names force_overwrite ;;
  if negb (empty (df self)) && negb (subset_str col_names (get_cols (df self)))
  then raise ValueError postcondition_message
  else Ok self.

End WithJoins.

End DataMerge.

(* ===================================================================== *)
(** * A reference implementation of the joins *)
(* ===================================================================== *)

(** The two joins written out on the frame model, to run the merge on
    examples.  The rows are in the order of the left frame, followed for
    the outer join by the rows of keys that only the right frame has; a
    missing cell is NaN; a right column whose label is also a left column
    takes the suffix. *)
Module RefJoin.

(** A joined row: its key, the cells of the left columns and the cells of
    the right columns. *)
Definition joined : Type := (list scalar * list scalar * list scalar)%type.

Definition row_cells (d : DataFrame) (i : nat) : list scalar :=
  map (fun c => nth i (snd c) SNone) (columns d).

Definition nulls (d : DataFrame) : list scalar :=
  map (fun _ => SFloat FNaN) (columns d).

Definition right_label (l : DataFrame) (sfx : string) (c : string) : string :=
  if mem_str c (labels l) then String.append c sfx else c.

(** The rows of the right frame whose key is [k]. *)
Definition matching (r : DataFrame) (k : list scalar) : list nat :=
  filter (fun j => key_eqb (nth j (index r) []) k) (seq 0 (nrows r)).

(** The rows a left row gives: one per match, or one with empty right
    cells. *)
Definition left_row (l r : DataFrame) (k_of : nat -> list scalar) (i : nat)
  : list joined :=
  match matching r (k_of i) with
  | [] => [(nth i (index l) [], row_cells l i, nulls r)]
  | j :: js =>
      map (fun j => (nth i (index l) [], row_cells l i, row_cells r j)) (j :: js)
  end.

Definition right_only (l r : DataFrame) (j : nat) : list joined :=
  let k := nth j (index r) [] in
  if existsb (fun k' => key_eqb k' k) (index l) then []
  else [(k, nulls l, row_cells r j)].

Definition assemble (kind : index_kind) (keys : list (list scalar))
  (l r : DataFrame) (sfx : string) (rows : list joined) : DataFrame :=
  {| ikind := kind;
     index := keys;
     columns :=
       map (fun jc => (snd jc,
                       map (fun row => nth (fst jc) (snd (fst row)) SNone) rows))
           (combine (seq 0 (List.length (labels l))) (labels l))
       ++
       map (fun jc => (right_label l sfx (snd jc),
                       map (fun row => nth (fst jc) (snd row) SNone) rows))
           (combine (seq 0 (List.length (labels r))) (labels r)) |}.

Definition merge_outer (l r : DataFrame) (sfx : string) : result DataFrame :=
  let rows :=
    flat_map (left_row l r (fun i => nth i (index l) [])) (seq 0 (nrows l))
    ++ flat_map (right_only l r) (seq 0 (nrows r)) in
  Ok (assemble (ikind l) (map (fun row => fst (fst row)) rows) l r sfx rows).

Definition merge_left (l r : DataFrame) (on : option string) (sfx : string)
  : result DataFrame :=
  match on with
  | None => raise ValueError "Must pass the key to merge on"
  | Some key =>
      match column l key with
      | None => raise KeyError key
      | Some vals =>
          let rows :=
            flat_map (left_row l r (fun i => [nth i vals SNone]))
                     (seq 0 (nrows l)) in
          Ok (assemble (Single None) (range_index (List.length rows)) l r sfx rows)
      end
  end.

End RefJoin.
(* ===================================================================== *)
(** * The job log *)
(* ===================================================================== *)

Module JobLog.

(** A row of the [job_log] table. *)
Record record : Type := {
  object_type : string;
  object_name : string;
  schedule : string;
  last_update : datetime;
  trace : option string
}.

Definition t : Type := list record.

Definition matches (payload_class name sched : string) (r : record) : bool :=
  String.eqb (object_type r) payload_class
  && String.eqb (object_name r) name
  && String.eqb (schedule r) sched.

(** SQL [max]: [NULL] over no rows. *)
Fixpoint sql_max (l : list datetime) : option datetime :=
  match l with
  | [] => None
  | x :: l' =>
      match sql_max l' with
      | None => Some x
      | Some m => Some (Z.max x m)
      end
  end.

(** [JobLog.get_last_execution_date] *)
Definition get_last_execution_date
    (log : t) (payload_class name sched : string) : option datetime :=
  sql_max (map last_update (filter (matches payload_class name sched) log)).

(** [JobLog.write] *)
Definition write (log : t) (payload_class name sched : string)
    (timestamp : datetime) (tr : option string) : t :=
  log ++ [ {| object_type := payload_class; object_name := name;
              schedule := sched; last_update := timestamp; trace := tr |} ].

End JobLog.


(* ===================================================================== *)
(** * Stages *)
(* ===================================================================== *)

Module Stage.

(** A stage of the payload: the attributes and methods the job controller
    reads.  An attribute or method the stage does not have is [None].
    [execute] takes the frame and, for the signature with timestamps,
    [Some (start_ts, end_ts)]; a stage without that signature answers it
    with a [TypeError]. *)
Record t : Type := {
  id : nat;
  name : string;
  execute : DataFrame -> option (option datetime * option datetime)
            -> result pyobj;
  _input_set : list string;
  _output_list : list string;
  get_output_list : option (result (list string));
  _allow_empty_df : option bool;
  produces_output_items : option bool;
  _discard_prior_on_merge : option bool;
  _agg_function : option string
}.

(** [s in stages], by identity. *)
Definition mem (s : t) (stages : list t) : bool :=
  existsb (fun x => Nat.eqb (id x) (id s)) stages.

End Stage.

(* ===================================================================== *)
(** * Db2DataWriter *)
(* ===================================================================== *)

Module Db2DataWriter.

Definition DATA_ITEM_TYPE_BOOLEAN : string := "BOOLEAN".
Definition DATA_ITEM_TYPE_NUMBER : string := "NUMBER".
Definition DATA_ITEM_TYPE_LITERAL : string := "LITERAL".
Definition DATA_ITEM_TYPE_TIMESTAMP : string := "TIMESTAMP".

Definition KPI_ENTITY_ID_COLUMN : string := "ENTITY_ID".
Definition KPI_TIMESTAMP_COLUMN : string := "TIMESTAMP".

Definition MAX_NUMBER_OF_ROWS_FOR_SQL : nat := 5000.

(** The metadata dictionary of a data item; [None] is what
    [metadata.get(key)] gives for a key that is absent or null. *)
Record metadata : Type := {
  transient : option scalar;
  sourceTableName : option string;
  columnType : option string
}.

Record grain : Type := {
  entity_id : option string;
  freq : option string;
  dimensions : option (list string)
}.

(** An attribute of a row tuple that is none of its fields (a method,
    [_fields], [__doc__], ...), as far as the writer inspects the object:
    whether [pd.isna] holds of it, its truth value, what [float] makes of
    it, its [str], and what subscripting it gives. *)
Record member : Type := {
  member_isna : bool;
  member_bool : bool;
  member_float : result pyfloat;
  member_str : string;
  member_item : nat -> result scalar
}.

(** What the interpreter and the libraries decide: Python's [str] and
    [float] on the values of cells and [str] on a tuple of them;
    [str.isidentifier] and [keyword.iskeyword]; the number of fields from
    which [itertuples] yields plain tuples instead of named ones ([None]
    for the versions of [pandas] without such a limit); and the attributes
    that the tuple of a frame row has besides its fields. *)
Class PyRuntime : Type := {
  py_str : scalar -> string;
  py_float_of_int : Z -> result pyfloat;
  py_float_of_str : string -> result pyfloat;
  py_str_tuple : list scalar -> string;
  py_isidentifier : string -> bool;
  py_iskeyword : string -> bool;
  py_namedtuple_limit : option nat;
  py_tuple_member : DataFrame -> nat -> string -> option member
}.

(** The attributes of a writer set by [__init__]. *)
Record writer : Type := {
  data_item_metadata : string -> option metadata;
  grains_metadata : string -> option grain;
  schema_name : string
}.

(** [col_props]: item name to [(type, table name)]. *)
Definition col_props_t : Type := odict string (string * string).

(** The entry of [table_props] for a table.  The two statements are kept
    as the table and the dimension columns they are built from. *)
Record table_prop : Type := {
  sql_delete : string;
  sql_insert : string * list string;
  index_pos : option (list nat)
}.

(** What [getattr] finds on the tuple of a frame row, and so what a row of
    the writer may hold: a scalar, the index of the row when it is a tuple
    (the key of a [MultiIndex]), or an attribute that is no field. *)
Inductive value : Type :=
| Scalar (v : scalar)
| Tuple (key : list scalar)
| Attribute (name : string) (m : member).

(** A tuple handed to [execute_many]: the key, the dimensions and the four
    typed values. *)
Definition row : Type := list value.

(** The calls made to the database driver, in order. *)
Inductive db_call : Type :=
| DbDelete (table : string) (start_ts end_ts : option Z)
| DbInsert (table : string) (rows : list row).

(** The state threaded through [_persist_dataframe]. *)
Record persist_state : Type := {
  row_lists : odict string (list row);
  db : list db_call;
  counter : nat
}.

Definition known_type (ty : string) : bool :=
  String.eqb ty DATA_ITEM_TYPE_BOOLEAN
  || String.eqb ty DATA_ITEM_TYPE_NUMBER
  || String.eqb ty DATA_ITEM_TYPE_LITERAL
  || String.eqb ty DATA_ITEM_TYPE_TIMESTAMP.

(** The body of the loop of [_get_active_cols_properties]. *)
Definition active_col (w : writer) (col_props : col_props_t) (col_name : string)
  : col_props_t :=
  match data_item_metadata w col_name with
  | Some md =>
      match transient md with
      | Some (SBool false) =>
          match sourceTableName md, columnType md with
          | None, _ => col_props
          | Some _, None => col_props
          | Some table_name, Some data_item_type =>
              let data_item_type :=
                if negb (known_type data_item_type)
                then DATA_ITEM_TYPE_LITERAL else data_item_type in
              od_set String.eqb col_props col_name (data_item_type, table_name)
          end
      | _ => col_props
      end
  | None => col_props
  end.

(** [Db2DataWriter._get_active_cols_properties] *)
Definition _get_active_cols_properties (w : writer) (d : DataFrame)
  : col_props_t :=
  fold_left (active_col w) (labels d) [].

(** The dimension columns of [create_insert_statement]. *)
Definition insert_dimensions (g : option grain) : list string :=
  match g with
  | None => [KPI_ENTITY_ID_COLUMN; KPI_TIMESTAMP_COLUMN]
  | Some g =>
      (match entity_id g with Some _ => [KPI_ENTITY_ID_COLUMN] | None => [] end)
      ++ (match freq g with Some _ => [KPI_TIMESTAMP_COLUMN] | None => [] end)
      ++ (match dimensions g with Some ds => ds | None => [] end)
  end.

(** [map_index_name_pos[dimension]] for the dictionary
    [{name: pos for pos, name in enumerate(df.index.names)}]. *)
Definition index_name_pos (names : list (option string)) (dimension : string)
  : result nat :=
  match
    filter (fun pn => match snd pn with
                      | Some n => String.eqb n dimension
                      | None => false
                      end)
           (combine (seq 0 (List.length names)) names)
  with
  | [] => raise KeyError dimension
  | p :: ps => Ok (fst (last ps p))
  end.

(** The index positions of a table, for a frame with a [MultiIndex]. *)
Definition index_positions (d : DataFrame) (g : option grain)
  : result (list nat) :=
  match g with
  | None => Ok [0%nat; 1%nat]
  | Some g =>
      let ent := match entity_id g with Some _ => [0%nat] | None => [] end in
      let tim := match freq g with
                 | Some _ =>
                     match entity_id g with Some _ => [1%nat] | None => [0%nat] end
                 | None => []
                 end in
      dims <- match dimensions g with
              | Some ds => mapM (index_name_pos (index_names d)) ds
              | None => Ok []
              end ;;
      Ok (ent ++ tim ++ dims)
  end.

(** [Db2DataWriter._get_table_properties].  For a frame whose index is not
    a [MultiIndex] the positions are [None], and the debug message that
    joins them raises. *)
Definition _get_table_properties (w : writer) (d : DataFrame)
  (col_props : col_props_t) : result (odict string table_prop) :=
  foldM
    (fun (table_props : odict string table_prop) item =>
       let '(item_name, (_, table_name)) := item in
       match od_get String.eqb table_props table_name with
       | Some _ => Ok table_props
       | None =>
           let g := grains_metadata w item_name in
           if negb (is_multi d) then
             raise TypeError "'NoneType' object is not iterable"
           else
             pos <- index_positions d g ;;
             Ok (od_set String.eqb table_props table_name
                   {| sql_delete := table_name;
                      sql_insert := (table_name, insert_dimensions g);
                      index_pos := Some pos |})
       end)
    col_props [].

(** [bool(value)] *)
Definition truthy (v : scalar) : bool :=
  match v with
  | SNone | SNaT => false
  | SBool b => b
  | SInt z => negb (z =? 0)
  | SFloat (FNum m _) => negb (m =? 0)
  | SFloat _ => true
  | SStr s => negb (String.eqb s "")
  | STime _ => true
  end.

(** [np.isfinite] *)
Definition isfinite (f : pyfloat) : bool :=
  match f with
  | FNum _ _ => true
  | _ => false
  end.

Section WithRuntime.
Context {R : PyRuntime}.

(** [float(value)] *)
Definition py_float (v : scalar) : result pyfloat :=
  match v with
  | SBool b => Ok (FNum (if b then 1 else 0) 0)
  | SInt z => py_float_of_int z
  | SFloat f => Ok f
  | SStr s => py_float_of_str s
  | SNone | SNaT | STime _ =>
      raise TypeError "float() argument must be a string or a number"
  end.

(** ** The tuples of [itertuples] *)

(** [name.startswith('_')] *)
Definition starts_with_underscore (name : string) : bool :=
  match name with
  | String c _ => Ascii.eqb c "_"
  | EmptyString => false
  end.

(** The renaming of [collections.namedtuple(..., rename=True)]: a field
    name that is no identifier, is a keyword, starts with an underscore
    or was seen before is replaced by an underscore and its position. *)
Fixpoint rename_fields (index : nat) (seen : list string)
  (field_names : list string) : list string :=
  match field_names with
  | [] => []
  | name :: rest =>
      (if negb (py_isidentifier name) || py_iskeyword name
          || starts_with_underscore name || mem_str name seen
       then String "_" (string_of_nat index)
       else name)
      :: rename_fields (S index) (name :: seen) rest
  end.

(** Whether [itertuples] yields named tuples for the frame: the index and
    the columns are fewer than the limit. *)
Definition named_rows (d : DataFrame) : bool :=
  match py_namedtuple_limit with
  | None => true
  | Some limit => (List.length (columns d) + 1 <? limit)%nat
  end.

(** The fields of the tuple of a row: [Index] and the column labels,
    renamed; a plain tuple has none. *)
Definition tuple_fields (d : DataFrame) : list string :=
  if named_rows d then rename_fields 0 [] ("Index" :: labels d) else [].

(** The position of the field of a name. *)
Fixpoint field_position (name : string) (fields : list string) : option nat :=
  match fields with
  | [] => None
  | f :: rest =>
      if String.eqb f name then Some O
      else option_map S (field_position name rest)
  end.

(** The index of row [i] as [itertuples] yields it: the key as a tuple for
    a [MultiIndex], the label itself otherwise. *)
Definition index_value (d : DataFrame) (i : nat) : value :=
  let key := nth i (index d) [] in
  if is_multi d then Tuple key else Scalar (nth 0 key SNone).

(** [getattr(df_row, name)] for the tuple of row [i]: the field of that
    name (the index, or the cell of the column at the position of the
    field), else another attribute of the tuple, else an
    [AttributeError]. *)
Definition getattr (d : DataFrame) (i : nat) (name : string) : result value :=
  match field_position name (tuple_fields d) with
  | Some O => Ok (index_value d i)
  | Some (S j) =>
      Ok (Scalar (nth i (snd (nth j (columns d) (EmptyString, []))) SNone))
  | None =>
      match py_tuple_member d i name with
      | Some m => Ok (Attribute name m)
      | None => raise AttributeError name
      end
  end.

(** [pd.isna(value)]: none of the tests of [pd.isna] holds of a tuple. *)
Definition isna_value (v : value) : bool :=
  match v with
  | Scalar s => isna s
  | Tuple _ => false
  | Attribute _ m => member_isna m
  end.

(** [bool(value)] *)
Definition bool_value (v : value) : bool :=
  match v with
  | Scalar s => truthy s
  | Tuple key => negb (List.length key =? 0)%nat
  | Attribute _ m => member_bool m
  end.

(** [float(value)] *)
Definition float_value (v : value) : result pyfloat :=
  match v with
  | Scalar s => py_float s
  | Tuple _ =>
      raise TypeError "float() argument must be a string or a number"
  | Attribute _ m => member_float m
  end.

(** [str(value)] *)
Definition str_value (v : value) : string :=
  match v with
  | Scalar s => py_str s
  | Tuple key => py_str_tuple key
  | Attribute _ m => member_str m
  end.

(** [ix[position]] *)
Definition subscript (ix : value) (position : nat) : result scalar :=
  match ix with
  | Tuple key =>
      match nth_error key position with
      | Some v => Ok v
      | None => raise IndexError "tuple index out of range"
      end
  | Scalar (SStr s) =>
      match String.get position s with
      | Some c => Ok (SStr (String c EmptyString))
      | None => raise IndexError "string index out of range"
      end
  | Scalar _ => raise TypeError "object is not subscriptable"
  | Attribute _ m => member_item m position
  end.

(** ** The rows *)

(** The four typed values appended to a row, in the order [VALUE_B],
    [VALUE_N], [VALUE_S], [VALUE_T]. *)
Definition typed_values (item_type : string) (derived_value : value)
  : result (list value) :=
  let value_b :=
    if String.eqb item_type DATA_ITEM_TYPE_BOOLEAN
    then Scalar (SInt (if bool_value derived_value then 1 else 0))
    else Scalar SNone in
  value_n <-
    (if String.eqb item_type DATA_ITEM_TYPE_NUMBER then
       myFloat <- float_value derived_value ;;
       Ok (Scalar (if isfinite myFloat then SFloat myFloat else SNone))
     else Ok (Scalar SNone)) ;;
  let value_s :=
    if String.eqb item_type DATA_ITEM_TYPE_LITERAL
    then Scalar (SStr (str_value derived_value))
    else Scalar SNone in
  let value_t :=
    if String.eqb item_type DATA_ITEM_TYPE_TIMESTAMP
    then derived_value
    else Scalar SNone in
  Ok [value_b; value_n; value_s; value_t].

(** [for position in index_pos: row.append(ix[position])] *)
Definition index_parts (ix : value) (pos : option (list nat))
  : result (list scalar) :=
  match pos with
  | None => raise TypeError "'NoneType' object is not iterable"
  | Some ps => mapM (subscript ix) ps
  end.

(** The row built for a value that is not null. *)
Definition build_row (tp : table_prop) (ix : value)
  (item_name item_type : string) (derived_value : value) : result row :=
  dims <- index_parts ix (index_pos tp) ;;
  vals <- typed_values item_type derived_value ;;
  Ok (Scalar (SStr item_name) :: map Scalar dims ++ vals).

(** [_persist_tuples]: one call of [execute_many]; its result is the number
    of tuples. *)
Definition _persist_tuples (st : persist_state) (table_name : string)
  (row_tuples : list row) : persist_state :=
  {| row_lists := od_set String.eqb (row_lists st) table_name [];
     db := db st ++ [DbInsert table_name row_tuples];
     counter := counter st + List.length row_tuples |}.

(** The end of the inner loop body: the row joins the list of its table,
    which is written and cleared when it reaches the maximum. *)
Definition add_row (st : persist_state) (table_name : string) (r : row)
  : result persist_state :=
  row_list <- od_item String.eqb (row_lists st) table_name ;;
  let row_list := row_list ++ [r] in
  if (MAX_NUMBER_OF_ROWS_FOR_SQL <=? List.length row_list)%nat
  then Ok (_persist_tuples st table_name row_list)
  else Ok {| row_lists := od_set String.eqb (row_lists st) table_name row_list;
             db := db st; counter := counter st |}.

(** The body of the inner loop of [_persist_dataframe], for row [i]. *)
Definition persist_cell (d : DataFrame) (table_props : odict string table_prop)
  (i : nat) (st : persist_state) (item : string * (string * string))
  : result persist_state :=
  let '(item_name, (item_type, table_name)) := item in
  derived_value <- getattr d i item_name ;;
  if isna_value derived_value then Ok st
  else
    tp <- od_item String.eqb table_props table_name ;;
    ix <- getattr d i "Index" ;;
    r <- build_row tp ix item_name item_type derived_value ;;
    add_row st table_name r.

(** The last loop of [_persist_dataframe]: the rows left in each list. *)
Definition flush (st : persist_state) : persist_state :=
  fold_left
    (fun st tr =>
       if (0 <? List.length (snd tr))%nat
       then _persist_tuples st (fst tr) (snd tr)
       else st)
    (row_lists st) st.

(** [Db2DataWriter._persist_dataframe] *)
Definition _persist_dataframe (d : DataFrame) (col_props : col_props_t)
  (table_props : odict string table_prop) (st : persist_state)
  : result persist_state :=
  st <- foldM (fun st i => foldM (persist_cell d table_props i) col_props st)
              (seq 0 (nrows d)) st ;;
  Ok (flush st).

(** [Db2DataWriter._delete_and_prepare]: the column and table properties,
    a delete for each table and an empty row list for each table. *)
Definition _delete_and_prepare (w : writer) (d : DataFrame)
  (start_ts end_ts : option Z)
  : result (col_props_t * odict string table_prop * persist_state) :=
  let col_props := _get_active_cols_properties w d in
  table_props <- _get_table_properties w d col_props ;;
  let st :=
    fold_left
      (fun st tp =>
         {| row_lists := od_set String.eqb (row_lists st) (fst tp) [];
            db := db st ++ [DbDelete (fst tp) start_ts end_ts];
            counter := counter st |})
      table_props {| row_lists := []; db := []; counter := 0 |} in
  Ok (col_props, table_props, st).

(** [Db2DataWriter.execute]: the calls made to the database. *)
Definition execute (w : writer) (d : option DataFrame)
  (start_ts end_ts : option Z) : result (list db_call) :=
  match d with
  | None => raise DataWriterException "The data frame is None."
  | Some d =>
      '(col_props, table_props, st) <- _delete_and_prepare w d start_ts end_ts ;;
      if (0 <? List.length col_props)%nat then
        st <- _persist_dataframe d col_props table_props st ;;
        Ok (db st)
      else Ok (db st)
  end.

(** A loop whose body may raise: the state when the loop ends, and the
    exception that ended it, if any. *)
Fixpoint run_loop {A S : Type} (f : S -> A -> result S) (l : list A) (s : S)
  : S * option exn :=
  match l with
  | [] => (s, None)
  | x :: l' =>
      match f s x with
      | Ok s' => run_loop f l' s'
      | Err e => (s, Some e)
      end
  end.

(** [Db2DataWriter.execute] with the calls that an exception leaves
    behind: the calls made to the database up to the end of the call, and
    the exception that ended it, if any.  [_delete_and_prepare] can only
    raise while it computes the table properties, before its first
    delete; the loops of [_persist_dataframe] run row by row and, for
    each row, item by item. *)
Definition execute_trace (w : writer) (d : option DataFrame)
  (start_ts end_ts : option Z) : list db_call * option exn :=
  match d with
  | None => ([], Some (Raise DataWriterException "The data frame is None."))
  | Some d =>
      match _delete_and_prepare w d start_ts end_ts with
      | Err e => ([], Some e)
      | Ok (col_props, table_props, st) =>
          if (0 <? List.length col_props)%nat then
            match
              run_loop (fun st cell =>
                          persist_cell d table_props (fst cell) st (snd cell))
                       (list_prod (seq 0 (nrows d)) col_props) st
            with
            | (st, Some e) => (db st, Some e)
            | (st, None) => (db (flush st), None)
            end
          else (db st, None)
      end
  end.

End WithRuntime.

Section WithQuoting.

(** The quoting functions of [dbhelper]. *)
Variables quotingSchemaName quotingTableName quotingColumnName
  : string -> string.

Definition insert_format : string :=
  "INSERT INTO %s.%s (KEY%s, VALUE_B, VALUE_N, VALUE_S, VALUE_T, LAST_UPDATE) VALUES (?%s, ?, ?, ?, ?, CURRENT TIMESTAMP)".

(** [Db2DataWriter.create_insert_statement] *)
Definition create_insert_statement (w : writer) (table_name : string)
  (g : option grain) : result string :=
  let dimensions := insert_dimensions g in
  let colExtension :=
    fold_left (fun acc dimension =>
                 String.append acc
                   (String.append ", " (quotingColumnName dimension)))
              dimensions "" in
  let parmExtension :=
    fold_left (fun acc (_ : string) => String.append acc ", ?")
              dimensions "" in
  format insert_format
         [quotingSchemaName (schema_name w); quotingTableName table_name;
          colExtension; parmExtension].

(** [Db2DataWriter.create_delete_statement] *)
Definition create_delete_statement (w : writer) (table_name : string)
  : result string :=
  stmt <- format "DELETE FROM %s.%s"
                 [quotingSchemaName (schema_name w);
                  quotingTableName table_name] ;;
  where1 <- format "%s >= %s" [KPI_TIMESTAMP_COLUMN; " ? "] ;;
  where2 <- format "%s < %s" [KPI_TIMESTAMP_COLUMN; " ? "] ;;
  format "%s WHERE %s AND %s" [stmt; where1; where2].

End WithQuoting.

End Db2DataWriter.
(* ===================================================================== *)
(** * The job controller *)
(* ===================================================================== *)

Module JobController.

(** [(freq, start_hour, start_min, backtrack)] *)
Definition schedule_tuple : Type :=
  (string * option Z * option Z * option string)%type.

Definition freq_of (s : schedule_tuple) : string :=
  match s with (f, _, _, _) => f end.

(** The attributes and methods of the payload the scheduler reads.  An
    absent attribute or method is [None]. *)
Record payload : Type := {
  payload_class : string;
  is_schedule_progressive : option bool;
  chunk_size : option string;
  get_early_timestamp : option (result (option datetime));
  get_adjusted_start_date : option (datetime -> result datetime)
}.

(** The key of [stage_metadata]: the stage type and the name of the
    granularity, if any. *)
Definition stage_key : Type := (string * option string)%type.

Definition stage_key_eqb (a b : stage_key) : bool :=
  String.eqb (fst a) (fst b)
  && match snd a, snd b with
     | Some x, Some y => String.eqb x y
     | None, None => true
     | _, _ => false
     end.

(** The state of a [JobController]. *)
Record controller : Type := {
  the_payload : payload;
  name : string;
  job_log : JobLog.t;
  _schedules : list schedule_tuple;
  stage_metadata : odict stage_key (list Stage.t)
}.

Definition default_schedule : schedule_tuple := ("5min", None, None, None).
Definition default_chunk_size : string := "7d".
Definition default_is_schedule_progressive : bool := true.

(** [get_payload_param] *)
Definition get_payload_param {A : Type} (attr : option A) (default : A) : A :=
  match attr with Some a => a | None => default end.

(** [exec_payload_method]: a missing method, and a [TypeError] or
    [AttributeError] of the call, give the default. *)
Definition exec_payload_method {A : Type}
    (call : option (result A)) (default_output : A) : result A :=
  match call with
  | None => Ok default_output
  | Some (Ok a) => Ok a
  | Some (Err e) =>
      match kind e with
      | TypeError | AttributeError => Ok default_output
      | _ => Err e
      end
  end.

(** The dictionary built for each schedule by [evaluate_schedules]. *)
Record meta : Type := {
  next_date : datetime;
  is_subsumed : bool;
  prev_checkpoint : option datetime;
  is_checkpoint_driven : bool;
  round_hour : option Z;
  round_min : option Z;
  (** [Some (revised, original)] stands for the message about rounding *)
  rounded_start : option (datetime * datetime);
  is_due : bool;
  start_date : option datetime;
  backtrack : option string;
  mark_complete : list string
}.

Definition set_due_subsumed (m : meta) : meta :=
  {| next_date := next_date m; is_subsumed := true;
     prev_checkpoint := prev_checkpoint m;
     is_checkpoint_driven := is_checkpoint_driven m;
     round_hour := round_hour m; round_min := round_min m;
     rounded_start := rounded_start m; is_due := false;
     start_date := start_date m; backtrack := backtrack m;
     mark_complete := mark_complete m |}.

Definition set_mark_complete (m : meta) (l : list string) : meta :=
  {| next_date := next_date m; is_subsumed := is_subsumed m;
     prev_checkpoint := prev_checkpoint m;
     is_checkpoint_driven := is_checkpoint_driven m;
     round_hour := round_hour m; round_min := round_min m;
     rounded_start := rounded_start m; is_due := is_due m;
     start_date := start_date m; backtrack := backtrack m;
     mark_complete := l |}.

(** Insertion sort, standing for [durations.sort()]: the durations are the
    keys of a dictionary, hence distinct, and have one ascending order. *)
Fixpoint insert_sorted (x : Z) (l : list Z) : list Z :=
  match l with
  | [] => [x]
  | y :: l' => if x <=? y then x :: l else y :: insert_sorted x l'
  end.

Fixpoint sort (l : list Z) : list Z :=
  match l with
  | [] => []
  | x :: l' => insert_sorted x (sort l')
  end.

Section WithClock.

(** [pd.to_timedelta] on a frequency string. *)
Variable to_timedelta : string -> result timedelta.

(** Midnight of [utcnow().date()]. *)
Variable today : datetime.

(** [JobController.adjust_to_schedule] *)
Definition adjust_to_schedule (execute_date : datetime)
    (start_hours start_min : option Z) (interval : string)
  : result datetime :=
  match start_hours, start_min with
  | None, None => Ok execute_date
  | _, _ =>
      let start_hours := match start_hours with Some h => h | None => 0 end in
      let start_min := match start_min with Some m => m | None => 0 end in
      let execute_day := today in
      let scheduled := execute_day + start_hours * HOUR + start_min * MINUTE in
      let scheduled :=
        if scheduled >? execute_date then scheduled - DAY else scheduled in
      interval <- to_timedelta interval ;;
      periods <- floordiv (execute_date - scheduled) interval ;;
      Ok (scheduled + periods * interval)
  end.

(** [JobController.build_schedules_list], with the class default
    [default] of the controller. *)
Definition build_schedules_list (default : schedule_tuple)
    (schedules_dict : odict string (option Z * option Z * option string))
  : result (list schedule_tuple) :=
  let '(dfreq, dh, dm, db) := default in
  let schedules_dict :=
    if od_mem String.eqb schedules_dict dfreq then schedules_dict
    else od_set String.eqb schedules_dict dfreq (dh, dm, db) in
  let freq_list := od_keys schedules_dict in
  sort_dict <-
    foldM (fun (sd : odict Z string) f =>
             d <- to_timedelta f ;; Ok (od_set Z.eqb sd d f))
          freq_list [] ;;
  let durations := sort (od_keys sort_dict) in
  mapM (fun duration =>
          freq <- od_item Z.eqb sort_dict duration ;;
          '(start_hour, start_min, backtrack_days) <-
             od_item String.eqb schedules_dict freq ;;
          Ok (freq, start_hour, start_min, backtrack_days))
       durations.

Variable jc : controller.

Definition last_execution (s : string) : option datetime :=
  JobLog.get_last_execution_date
    (job_log jc) (payload_class (the_payload jc)) (name jc) s.

(** [JobController.get_next_execution_date] *)
Definition get_next_execution_date (s : string)
    (current_execution_date : datetime) : result datetime :=
  match last_execution s with
  | None => Ok current_execution_date
  | Some last_execution_date =>
      d <- to_timedelta s ;; Ok (last_execution_date + d)
  end.

(** The state of the first loop of [evaluate_schedules]. *)
Record pass1 : Type := {
  sched : odict string meta;
  last_schedule_due : option string;
  all_due : list string
}.

(** The body of the first loop up to the bookkeeping of due schedules:
    the [meta] dictionary of one schedule. *)
Definition schedule_meta (execute_date : datetime) (tup : schedule_tuple)
  : result meta :=
  let '(s, rh, rm, bt) := tup in
  nd <- get_next_execution_date s execute_date ;;
  rounded <- adjust_to_schedule nd rh rm s ;;
  let '(msg, nd) :=
    if negb (rounded =? nd) then (Some (rounded, nd), rounded)
    else (None, nd) in
  if nd <=? execute_date then
    let is_checkpoint := match bt with
                         | Some b => String.eqb b "checkpoint"
                         | None => false
                         end in
    '(cp_driven, prev, start, bt') <-
      (if is_checkpoint then
         let prev := last_execution s in
         let start := match prev with
                      | Some p => Some (p + MICROSECOND)
                      | None => None
                      end in
         Ok (true, prev, start, None)
       else
         match bt with
         | Some b =>
             d <- to_timedelta b ;;
             Ok (false, None, Some (execute_date - d), Some b)
         | None => Ok (false, None, None, None)
         end) ;;
    Ok {| next_date := nd; is_subsumed := false;
          prev_checkpoint := prev;
          is_checkpoint_driven := cp_driven;
          round_hour := rh; round_min := rm;
          rounded_start := msg; is_due := true;
          start_date := start; backtrack := bt';
          mark_complete := [s] |}
  else
    Ok {| next_date := nd; is_subsumed := false;
          prev_checkpoint := None;
          is_checkpoint_driven := false;
          round_hour := rh; round_min := rm;
          rounded_start := msg; is_due := false;
          start_date := None; backtrack := None;
          mark_complete := [] |}.

(** One iteration of the first loop: [schedule[s] = meta], and a due
    schedule becomes [last_schedule_due] and joins [all_due]. *)
Definition evaluate_one (execute_date : datetime) (st : pass1)
    (tup : schedule_tuple) : result pass1 :=
  m <- schedule_meta execute_date tup ;;
  let s := freq_of tup in
  Ok {| sched := od_set String.eqb (sched st) s m;
        last_schedule_due :=
          if is_due m then Some s else last_schedule_due st;
        all_due := if is_due m then all_due st ++ [s] else all_due st |}.

Definition evaluate_pass1 (execute_date : datetime) : result pass1 :=
  foldM (evaluate_one execute_date) (_schedules jc)
        {| sched := []; last_schedule_due := None; all_due := [] |}.

(** The body of the loop over [schedule.items()] for progressive
    schedules. *)
Definition subsume (last : string) (due : list string)
    (entry : string * meta) : string * meta :=
  let '(s, m) := entry in
  if String.eqb s last then (s, set_mark_complete m due)
  else if is_due m then (s, set_due_subsumed m)
  else (s, m).

(** [JobController.evaluate_schedules] *)
Definition evaluate_schedules (execute_date : datetime)
  : result (odict string meta) :=
  st <- evaluate_pass1 execute_date ;;
  match last_schedule_due st with
  | Some last =>
      if get_payload_param (is_schedule_progressive (the_payload jc))
                           default_is_schedule_progressive
      then Ok (map (subsume last (all_due st)) (sched st))
      else Ok (sched st)
  | None => Ok (sched st)
  end.

(** A chunk is [(chunk_start, chunk_end)]; the start is [None] when no
    start date is known. *)
Definition chunk : Type := (option datetime * datetime)%type.

Definition adjusted_start (d : datetime) : result datetime :=
  exec_payload_method
    (match get_adjusted_start_date (the_payload jc) with
     | Some f => Some (f d)
     | None => None
     end) d.

(** The [while chunk_end < end_date] loop of [get_chunks]; [None] when
    the loop is still running after [fuel] iterations. *)
Fixpoint chunks_loop (fuel : nat) (size : string)
    (end_date chunk_end : datetime) : option (result (list chunk)) :=
  if chunk_end <? end_date then
    match fuel with
    | O => None
    | S fuel' =>
        match adjusted_start (chunk_end + MICROSECOND) with
        | Err e => Some (Err e)
        | Ok chunk_start =>
            match to_timedelta size with
            | Err e => Some (Err e)
            | Ok d =>
                let chunk_end := Z.min (chunk_start + d) end_date in
                match chunks_loop fuel' size end_date chunk_end with
                | None => None
                | Some (Err e) => Some (Err e)
                | Some (Ok l) => Some (Ok ((Some chunk_start, chunk_end) :: l))
                end
            end
        end
    end
  else Some (Ok []).

(** [JobController.get_chunks] *)
Definition get_chunks (fuel : nat) (start_date : option datetime)
    (end_date : datetime) (rh rm : option Z) (schedule : string)
  : option (result (list chunk)) :=
  let size := get_payload_param (chunk_size (the_payload jc))
                                default_chunk_size in
  let early :=
    match start_date with
    | Some d => Ok (Some d)
    | None =>
        exec_payload_method (get_early_timestamp (the_payload jc)) None
    end in
  match early with
  | Err e => Some (Err e)
  | Ok None => Some (Ok [(None, end_date)])
  | Ok (Some start_date) =>
      match adjust_to_schedule start_date rh rm schedule with
      | Err e => Some (Err e)
      | Ok chunk_start =>
          match adjusted_start chunk_start with
          | Err e => Some (Err e)
          | Ok chunk_start =>
              match to_timedelta size with
              | Err e => Some (Err e)
              | Ok d =>
                  let chunk_end := Z.min (chunk_start + d) end_date in
                  match chunks_loop fuel size end_date chunk_end with
                  | None => None
                  | Some (Err e) => Some (Err e)
                  | Some (Ok l) =>
                      Some (Ok ((Some chunk_start, chunk_end) :: l))
                  end
              end
          end
      end
  end.

(** ** Dates with a range *)

(** The dates of Python and of [pandas] have a range, and the sum of a
    date and a duration raises when it leaves the range.  In the two
    definitions below that sum is the parameter [date_add];
    [chunks_loop] and [get_chunks] above are the instance whose sum never
    raises.  The start of the first chunk is rounded as above. *)
Variable date_add : datetime -> timedelta -> result datetime.

Fixpoint chunks_loop_in_range (fuel : nat) (size : string)
    (end_date chunk_end : datetime) : option (result (list chunk)) :=
  if chunk_end <? end_date then
    match fuel with
    | O => None
    | S fuel' =>
        match date_add chunk_end MICROSECOND with
        | Err e => Some (Err e)
        | Ok chunk_start =>
            match adjusted_start chunk_start with
            | Err e => Some (Err e)
            | Ok chunk_start =>
                match to_timedelta size with
                | Err e => Some (Err e)
                | Ok d =>
                    match date_add chunk_start d with
                    | Err e => Some (Err e)
                    | Ok chunk_end =>
                        let chunk_end := Z.min chunk_end end_date in
                        match chunks_loop_in_range fuel' size end_date
                                                   chunk_end with
                        | None => None
                        | Some (Err e) => Some (Err e)
                        | Some (Ok l) =>
                            Some (Ok ((Some chunk_start, chunk_end) :: l))
                        end
                    end
                end
            end
        end
    end
  else Some (Ok []).

Definition get_chunks_in_range (fuel : nat) (start_date : option datetime)
    (end_date : datetime) (rh rm : option Z) (schedule : string)
  : option (result (list chunk)) :=
  let size := get_payload_param (chunk_size (the_payload jc))
                                default_chunk_size in
  let early :=
    match start_date with
    | Some d => Ok (Some d)
    | None =>
        exec_payload_method (get_early_timestamp (the_payload jc)) None
    end in
  match early with
  | Err e => Some (Err e)
  | Ok None => Some (Ok [(None, end_date)])
  | Ok (Some start_date) =>
      match adjust_to_schedule start_date rh rm schedule with
      | Err e => Some (Err e)
      | Ok chunk_start =>
          match adjusted_start chunk_start with
          | Err e => Some (Err e)
          | Ok chunk_start =>
              match to_timedelta size with
              | Err e => Some (Err e)
              | Ok d =>
                  match date_add chunk_start d with
                  | Err e => Some (Err e)
                  | Ok chunk_end =>
                      let chunk_end := Z.min chunk_end end_date in
                      match chunks_loop_in_range fuel size end_date
                                                 chunk_end with
                      | None => None
                      | Some (Err e) => Some (Err e)
                      | Some (Ok l) =>
                          Some (Ok ((Some chunk_start, chunk_end) :: l))
                      end
                  end
              end
          end
      end
  end.

End WithClock.

(** [JobController.log_completion]: one more row in the job log. *)
Definition log_completion (jc : controller) (schedule : string)
    (timestamp : datetime) (backtrack : option string)
    (trace : option string) : controller :=
  {| the_payload := the_payload jc;
     name := name jc;
     job_log := JobLog.write (job_log jc) (payload_class (the_payload jc))
                             (name jc) schedule timestamp trace;
     _schedules := _schedules jc;
     stage_metadata := stage_metadata jc |}.

(** ** Stages *)

(** [get_stage_param] *)
Definition get_stage_param {A : Type} (attr : option A) (default : A) : A :=
match attr with Some a => a | None => default end.

(** [exec_stage_method], here without arguments: a missing method, and a
    [TypeError] or [AttributeError] of the call, give the default. *)
Definition exec_stage_method {A : Type}
  (call : option (result A)) (default_output : A) : result A :=
exec_payload_method call default_output.

(** [a | b] on sets of names kept as lists *)
Definition union_str (a b : list string) : list string :=
fold_left (fun acc x => if mem_str x acc then acc else acc ++ [x]) b a.

(** [a - b] *)
Definition diff_str (a b : list string) : list string :=
filter (fun x => negb (mem_str x b)) a.

(** [JobController.get_stages] *)
Definition get_stages (jc : controller) (stage_type : string)
  (granularity : option string) (available_columns : option (list string))
  (exclude_stages : list Stage.t) : list Stage.t * list string :=
let stages :=
  match od_get stage_key_eqb (stage_metadata jc) (stage_type, granularity) with
  | Some l => l
  | None => []
  end in
fold_left
  (fun (acc : list Stage.t * list string) s =>
     let '(out, cols) := acc in
     if negb (Stage.mem s exclude_stages)
        && match available_columns with
           | None => true
           | Some av =>
               (List.length (diff_str (Stage._input_set s) av) =? 0)%nat
           end
     then
       let new_cols :=
         match available_columns with
         | None => Stage._output_list s
         | Some av => diff_str (Stage._output_list s) av
         end in
       (out ++ [s], union_str cols new_cols)
     else (out, cols))
  stages ([], []).

(** An entry of the aggregation dictionary: the name of a reduction, or
    the [execute] method of a stage. *)
Inductive agg_method : Type :=
| AggFunction (f : string)
| AggExecute (stage : nat).

(** What [collapse_aggregation_stages] returns. *)
Record collapsed : Type := {
  agg_dict : odict string (list agg_method);
  complex_aggregators : list Stage.t;
  all_stages : list Stage.t;
  inputs : list string;
  outputs : list string
}.

Definition input_arity_format : string :=
"A simple aggregator must take a single input item. %s has items: %s".

Definition output_arity_format : string :=
"A simple aggregator must produce a single output  %s has items: %s".

(** The body of the loop over the simple aggregators.  The message of each
    [ValueError] is built with [%] from the stage name alone. *)
Definition collapse_simple
  (acc : odict string (list agg_method) * list string * list string)
  (s : Stage.t)
  : result (odict string (list agg_method) * list string * list string) :=
let '(agg_dict, inputs, outputs) := acc in
match Stage._input_set s with
| [input] =>
    match Stage._output_list s with
    | [output] =>
        let aggregation_method :=
          match Stage._agg_function s with
          | Some f => AggFunction f
          | None => AggExecute (Stage.id s)
          end in
        let agg_dict :=
          match od_get String.eqb agg_dict input with
          | Some l => od_set String.eqb agg_dict input (l ++ [aggregation_method])
          | None => od_set String.eqb agg_dict input [aggregation_method]
          end in
        Ok (agg_dict, union_str inputs [input], outputs ++ [output])
    | _ =>
        msg <- format output_arity_format [Stage.name s] ;;
        raise ValueError msg
    end
| _ =>
    msg <- format input_arity_format [Stage.name s] ;;
    raise ValueError msg
end.

(** [JobController.collapse_aggregation_stages] *)
Definition collapse_aggregation_stages (jc : controller)
  (granularity : option string) (available_columns : option (list string))
  : result collapsed :=
let '(stages, _) :=
  get_stages jc "simple_aggregate" granularity available_columns [] in
'(agg_dict, inputs, outputs) <- foldM collapse_simple stages ([], [], []) ;;
let '(complex_aggregators, _) :=
  get_stages jc "complex_aggregate" granularity available_columns [] in
let '(inputs, outputs) :=
  fold_left (fun (acc : list string * list string) s =>
               (union_str (fst acc) (Stage._input_set s),
                snd acc ++ Stage._output_list s))
            complex_aggregators (inputs, outputs) in
Ok {| agg_dict := agg_dict;
      complex_aggregators := complex_aggregators;
      all_stages := stages ++ complex_aggregators;
      inputs := inputs;
      outputs := outputs |}.

(** [JobController.execute_stage] *)
Definition execute_stage (s : Stage.t) (d : DataFrame)
  (start_ts end_ts : option datetime) : result pyobj :=
res <- match Stage.execute s d (Some (start_ts, end_ts)) with
       | Ok r => Ok r
       | Err e =>
           match kind e with
           | TypeError => Stage.execute s d None
           | _ => Err e
           end
       end ;;
match res with
| OPlain (PScalar (SBool true)) => Ok (OFrame new_frame)
| _ => Ok res
end.

Section WithJoins.
Context {J : Joins}.

(** The loop of [execute_stages] on the [DataMerge] object; the boolean is
    [can_proceed]. *)
Fixpoint run_stages (stages : list Stage.t) (merge : DataMerge.t)
  (start_ts end_ts : option datetime) : result (DataMerge.t * bool) :=
match stages with
| [] => Ok (merge, true)
| s :: rest =>
    if negb (get_stage_param (Stage._allow_empty_df s) true)
       && empty (DataMerge.df merge)
    then Ok (merge, false)
    else
      res <- execute_stage s (DataMerge.df merge) start_ts end_ts ;;
      new_cols <- exec_stage_method (option_map (fun r => c <- r ;; Ok (Some c))
                                               (Stage.get_output_list s)) None ;;
      let produces_output :=
        get_stage_param (Stage.produces_output_items s) true in
      let discard_prior_data :=
        get_stage_param (Stage._discard_prior_on_merge s) false in
      let merge := if discard_prior_data then DataMerge.clear_data merge
                   else merge in
      merge <-
        (if produces_output then
           match new_cols with
           | None | Some [] =>
               raise AttributeError
                 "Stage did not provide a list of columns produced when the get_output_list() method was called"
           | Some cols => DataMerge.execute merge res cols false
           end
         else Ok merge) ;;
      run_stages rest merge start_ts end_ts
end.

(** [JobController.execute_stages] *)
Definition execute_stages (stages : list Stage.t) (d : option DataFrame)
  (start_ts end_ts : option datetime) (constants : option (odict string plain))
  : result (DataFrame * bool) :=
r <- run_stages stages (DataMerge.init d constants) start_ts end_ts ;;
Ok (DataMerge.df (fst r), snd r).

End WithJoins.


(** A parser for the duration strings used in the examples: an optional
    sign, decimal digits and one of the units [us], [ms], [s], [min], [h],
    [d], as [pd.to_timedelta] reads them. *)
Definition digit_of (c : ascii) : option Z :=
  let n := Z.of_nat (nat_of_ascii c) in
  if (48 <=? n) && (n <=? 57) then Some (n - 48) else None.

Fixpoint read_digits (acc : Z) (s : string) : Z * string :=
  match s with
  | String c rest =>
      match digit_of c with
      | Some d => read_digits (10 * acc + d) rest
      | None => (acc, s)
      end
  | EmptyString => (acc, s)
  end.

Definition unit_of (u : string) : option Z :=
  if String.eqb u "us" then Some MICROSECOND
  else if String.eqb u "ms" then Some 1000
  else if String.eqb u "s" then Some 1000000
  else if String.eqb u "min" then Some MINUTE
  else if String.eqb u "h" then Some HOUR
  else if String.eqb u "d" then Some DAY
  else None.

Definition parse_unsigned (s : string) : result timedelta :=
  match s with
  | String c _ =>
      match digit_of c with
      | Some _ =>
          let '(n, rest) := read_digits 0 s in
          match unit_of rest with
          | Some u => Ok (n * u)
          | None => raise ValueError "invalid unit abbreviation"
          end
      | None => raise ValueError "unit abbreviation w/o a number"
      end
  | EmptyString => raise ValueError "unit abbreviation w/o a number"
  end.

Definition parse_timedelta (s : string) : result timedelta :=
  match s with
  | String "-" rest => d <- parse_unsigned rest ;; Ok (- d)
  | _ => parse_unsigned s
  end.

End JobController.

(* ===================================================================== *)
(** * Building the job specification *)
(* ===================================================================== *)

Module JobSpec.
Import JobController.

(** The attributes of a stage that the build of a job specification reads
    or sets, next to those of [Stage.t].  [set_entity_type] is the outcome
    of calling that method with the payload; the call is taken to leave
    the attributes read here as they are. *)
Record attributes : Type := {
  schedule : option string;
  _metadata_params : option (odict string plain);
  is_data_source : option bool;
  is_custom_calendar : option bool;
  set_entity_type : option (result unit)
}.

(** An assignment to an attribute of the payload. *)
Inductive payload_set : Type :=
| SetParam (key : string) (value : plain)
| SetCustomCalendar (stage : nat).

(** Stages are objects shared between the stage metadata and the
    specifications built from it: their attributes are kept by identity of
    the stage, and the assignments to the payload in the order they are
    made. *)
Record env : Type := {
  attrs : nat -> attributes;
  payload_sets : list payload_set
}.

(** [x == y] on stages, which is identity. *)
Definition same_stage (a b : Stage.t) : bool :=
  Nat.eqb (Stage.id a) (Stage.id b).

(** [set_stage_param(stage, 'schedule', value)] *)
Definition set_schedule (e : env) (s : Stage.t) (value : string) : env :=
  {| attrs := fun i =>
       if Nat.eqb i (Stage.id s)
       then {| schedule := Some value;
               _metadata_params := _metadata_params (attrs e i);
               is_data_source := is_data_source (attrs e i);
               is_custom_calendar := is_custom_calendar (attrs e i);
               set_entity_type := set_entity_type (attrs e i) |}
       else attrs e i;
     payload_sets := payload_sets e |}.

(** [JobController.set_payload_params], given its keyword arguments as a
    dictionary. *)
Definition set_payload_params (e : env) (params : odict string plain) : env :=
  {| attrs := attrs e;
     payload_sets :=
       payload_sets e ++ map (fun kv => SetParam (fst kv) (snd kv)) params |}.

(** [set_payload_param('_custom_calendar', stage)] *)
Definition set_custom_calendar (e : env) (s : Stage.t) : env :=
  {| attrs := attrs e;
     payload_sets := payload_sets e ++ [SetCustomCalendar (Stage.id s)] |}.

(** What [gather_available_stages] returns: the stages, the new columns,
    the required inputs and the projection lists of the data sources. *)
Record gathered : Type := {
  stages : list Stage.t;
  new_cols : list string;
  required_input_set : list string;
  projection_list : odict Stage.t (list string)
}.

Section WithController.
Variable jc : controller.

(** [self.default_schedule[0]] *)
Variable default_freq : string.

(** The body of the first loop of [gather_available_stages]: the payload
    is attached to the stage, and a stage without schedule gets the
    default one. *)
Definition attach (e : env) (s : Stage.t) : result env :=
  _ <- exec_stage_method (set_entity_type (attrs e (Stage.id s))) tt ;;
  match schedule (attrs e (Stage.id s)) with
  | None => Ok (set_schedule e s default_freq)
  | Some _ => Ok e
  end.

(** [s.schedule in schedules] *)
Definition on_schedule (e : env) (schedules : list string) (s : Stage.t)
  : bool :=
  match schedule (attrs e (Stage.id s)) with
  | Some f => mem_str f schedules
  | None => false
  end.

(** The body of the second loop of [gather_available_stages]. *)
Definition gather_stage (acc : env * gathered) (s : Stage.t) : env * gathered :=
  let '(e, g) := acc in
  let added_cols := union_str [] (Stage._output_list s) in
  let e :=
    match _metadata_params (attrs e (Stage.id s)) with
    | Some payload_params =>
        if negb (List.length payload_params =? 0)%nat
        then set_payload_params e payload_params else e
    | None => e
    end in
  let projection :=
    if get_stage_param (is_data_source (attrs e (Stage.id s))) false
    then od_set same_stage (projection_list g) s added_cols
    else projection_list g in
  let e :=
    if get_stage_param (is_custom_calendar (attrs e (Stage.id s))) false
    then set_custom_calendar e s else e in
  (e, {| stages := stages g;
         new_cols := union_str (new_cols g) added_cols;
         required_input_set :=
           union_str (required_input_set g) (Stage._input_set s);
         projection_list := projection |}).

(** [JobController.gather_available_stages] *)
Definition gather_available_stages (e : env) (stage_type : string)
  (schedule : string) (subsumed : list string)
  (available_columns : list string) (prev_stages : list Stage.t)
  (granularity : option string) : result (env * gathered) :=
  let schedules := union_str [schedule] subsumed in
  let '(candidate_stages, _) :=
    get_stages jc stage_type granularity (Some available_columns)
               prev_stages in
  e <- foldM attach candidate_stages e ;;
  let stages := filter (on_schedule e schedules) candidate_stages in
  let '(e, g) :=
    fold_left gather_stage stages
      (e, {| stages := stages; new_cols := []; required_input_set := [];
             projection_list := [] |}) in
  Ok (e, {| stages := stages;
            new_cols := diff_str (new_cols g) available_columns;
            required_input_set := required_input_set g;
            projection_list := projection_list g |}).

(** The dictionary [meta] of [build_stages_of_type]. *)
Record build_metadata : Type := {
  spec : list Stage.t;
  meta_schedule : string;
  subsumed : list string;
  available_columns : list string;
  required_inputs : list string;
  data_source_projection_list : odict Stage.t (list string)
}.

Definition recursion_limit : nat := 99.

(** The last loop of an iteration of [build_stages_of_type]: the columns
    of each data source join those kept for it. *)
Definition keep_projection (m : build_metadata)
  (data_source_col_list : odict Stage.t (list string)) : build_metadata :=
  fold_left
    (fun m sc =>
       let existing_cols :=
         match od_get same_stage (data_source_projection_list m) (fst sc) with
         | Some c => c
         | None => []
         end in
       {| spec := spec m; meta_schedule := meta_schedule m;
          subsumed := subsumed m;
          available_columns := available_columns m;
          required_inputs := required_inputs m;
          data_source_projection_list :=
            od_set same_stage (data_source_projection_list m) (fst sc)
                   (union_str (snd sc) existing_cols) |})
    data_source_col_list m.

(** The loop [for i in range(n)] of [build_stages_of_type]. *)
Fixpoint build_loop (n : nat) (stage_type : string)
  (granularity : option string) (e : env) (m : build_metadata)
  : result (env * build_metadata) :=
  match n with
  | O => Ok (e, m)
  | S n' =>
      r <- gather_available_stages e stage_type (meta_schedule m) (subsumed m)
             (available_columns m) (spec m) granularity ;;
      let '(e, g) := r in
      let m :=
        {| spec := spec m ++ stages g;
           meta_schedule := meta_schedule m;
           subsumed := subsumed m;
           available_columns := union_str (available_columns m) (new_cols g);
           required_inputs :=
             union_str (required_inputs m) (required_input_set g);
           data_source_projection_list := data_source_projection_list m |} in
      if (List.length (stages g) =? 0)%nat then Ok (e, m)
      else build_loop n' stage_type granularity e
                      (keep_projection m (projection_list g))
  end.

(** [JobController.build_stages_of_type]; the message it logs at the end
    is left out. *)
Definition build_stages_of_type (stage_type : string)
  (granularity : option string) (e : env) (m : build_metadata)
  : result (env * build_metadata) :=
  build_loop recursion_limit stage_type granularity e m.

End WithController.

(** [JobController.remove_stage] *)
Definition remove_stage (job_spec : odict string (list Stage.t))
  (stage : Stage.t) : odict string (list Stage.t) :=
  fold_left
    (fun js kv =>
       od_set String.eqb js (fst kv)
              (filter (fun x => negb (same_stage x stage)) (snd kv)))
    job_spec job_spec.

End JobSpec.

(* ===================================================================== *)
(** * Notions used to state the properties *)
(* ===================================================================== *)

Import JobController.

Module ChunkSpec.

(** The chunks that follow a chunk ending at [prev]: each starts one
    microsecond after the end before it and ends at
    [min (start + size, end_date)]; the sequence stops at [end_date]. *)
Fixpoint chained (size end_date prev : Z) (l : list chunk) : Prop :=
  match l with
  | [] => prev = end_date
  | (Some a, b) :: l' =>
      prev < end_date /\ a = prev + MICROSECOND /\
      b = Z.min (a + size) end_date /\ chained size end_date b l'
  | (None, _) :: _ => False
  end.

Definition covers (l : list chunk) (t : Z) : Prop :=
  exists a b, In (Some a, b) l /\ a <= t <= b.

(** Every chunk lies strictly after the chunks before it. *)
Fixpoint separated (prev : Z) (l : list chunk) : Prop :=
  match l with
  | [] => True
  | (Some a, b) :: l' => prev < a /\ a <= b /\ separated b l'
  | (None, _) :: _ => False
  end.

Definition last_end (l : list chunk) (default : Z) : Z :=
  snd (last l (None, default)).

End ChunkSpec.


(** The arithmetic of the rounding branch of [adjust_to_schedule], for the
    anchor [a] of today. *)
Definition round_from (a t d : Z) : Z :=
  let s := if a >? t then a - DAY else a in
  s + (t - s) / d * d.

(** The last element of a list, as [last_schedule_due] tracks it. *)
Definition last_opt {A : Type} (l : list A) : option A :=
  match rev l with
  | x :: _ => Some x
  | [] => None
  end.

(** Two frequencies in ascending order of duration. *)
Definition shorter (to_timedelta : string -> result timedelta)
  (f1 f2 : string) : Prop :=
  exists d1 d2, to_timedelta f1 = Ok d1 /\ to_timedelta f2 = Ok d2 /\ d1 < d2.

Definition empty_pass1 : pass1 :=
  {| sched := []; last_schedule_due := None; all_due := [] |}.

(** The entry of the schedule dictionary made for a schedule tuple. *)
Definition entry_of (to_timedelta : string -> result timedelta)
  (today : datetime) (jc : controller) (T : datetime)
  (tup : schedule_tuple) (e : string * meta) : Prop :=
  fst e = freq_of tup /\ schedule_meta to_timedelta today jc T tup = Ok (snd e).

Definition due_entry (e : string * meta) : bool := is_due (snd e).

(** The metadata of schedule [s] after the progressive pass. *)
Definition subsume_meta (last : string) (due : list string) (s : string)
  (m : meta) : meta :=
  snd (subsume last due (s, m)).

Module WriterSpec.
Import Db2DataWriter.





Section WithRuntime.
Context {R : PyRuntime}.









End WithRuntime.

(** Calls that are all inserts, each to a table of [tables], with at
    least one row and at most the maximum, and with rows that satisfy
    [P]. *)
Definition inserts_ok (P : string -> row -> Prop) (tables : list string)
  (calls : list db_call) : Prop :=
  forall c, In c calls ->
    exists t rows,
      c = DbInsert t rows /\ In t tables /\
      (1 <= List.length rows <= MAX_NUMBER_OF_ROWS_FOR_SQL)%nat /\
      forall r, In r rows -> P t r.

(** The state of [_persist_dataframe] between two cells: one list per
    table, each shorter than the maximum, and after the deletes [deletes]
    nothing but inserts. *)
Definition state_ok (P : string -> row -> Prop) (tables : list string)
  (deletes : list db_call) (st : persist_state) : Prop :=
  NoDup (od_keys (row_lists st)) /\
  od_keys (row_lists st) = tables /\
  (forall t l, In (t, l) (row_lists st) ->
     (List.length l < MAX_NUMBER_OF_ROWS_FOR_SQL)%nat /\
     forall r, In r l -> P t r) /\
  exists ins, db st = deletes ++ ins /\ inserts_ok P tables ins.

(** A row has the length its table asks for: the key, one value per
    dimension of the insert statement, and the four typed values. *)
Definition row_fits (table_props : odict string table_prop) (t : string)
  (r : row) : Prop :=
  exists tp, od_get String.eqb table_props t = Some tp /\
             List.length r = (5 + List.length (snd (sql_insert tp)))%nat.

(** The selection of a column as the code makes it: its type and table,
    when the metadata has [transient] equal to [False] and names a table and
    a type. *)
Definition selection (w : writer) (col_name : string) : option (string * string) :=
  match data_item_metadata w col_name with
  | Some md =>
      match transient md, sourceTableName md, columnType md with
      | Some (SBool false), Some table_name, Some ty =>
          Some (if known_type ty then ty else DATA_ITEM_TYPE_LITERAL, table_name)
      | _, _, _ => None
      end
  | None => None
  end.

End WriterSpec.

(** The keys of the schedule dictionary once [build_schedules_list] has
    added the default frequency to it. *)
Definition schedule_keys (default : schedule_tuple)
  (schedules_dict : odict string (option Z * option Z * option string))
  : list string :=
  if od_mem String.eqb schedules_dict (freq_of default)
  then od_keys schedules_dict
  else od_keys schedules_dict ++ [freq_of default].

(** The stages the payload holds for a stage type and a granularity. *)
Definition stages_of (jc : controller) (stage_type : string)
  (granularity : option string) : list Stage.t :=
  match od_get stage_key_eqb (stage_metadata jc) (stage_type, granularity) with
  | Some l => l
  | None => []
  end.

(** The test [get_stages] makes on a stage. *)
Definition eligible (available_columns : option (list string))
  (exclude_stages : list Stage.t) (s : Stage.t) : bool :=
  negb (Stage.mem s exclude_stages)
  && match available_columns with
     | None => true
     | Some av => (List.length (diff_str (Stage._input_set s) av) =? 0)%nat
     end.

(** The stages of a type and granularity that a specification does not
    hold yet. *)
Definition remaining (jc : controller) (stage_type : string)
  (granularity : option string) (spec : list Stage.t) : list Stage.t :=
  filter (fun s => negb (Stage.mem s spec)) (stages_of jc stage_type granularity).

(** Stages in an order in which each finds its inputs: among the columns
    [avail] or among the outputs of the stages before it. *)
Fixpoint ordered (avail : list string) (l : list Stage.t) : Prop :=
  match l with
  | [] => True
  | s :: l' =>
      incl (Stage._input_set s) avail /\
      ordered (avail ++ Stage._output_list s) l'
  end.

(** The number of occurrences of a character, as of the parameter marker
    of an SQL statement. *)
Fixpoint count_char (c : ascii) (s : string) : nat :=
  match s with
  | EmptyString => O
  | String x rest =>
      ((if Ascii.eqb x c then 1 else 0) + count_char c rest)%nat
  end.

Definition parameter_markers (stmt : string) : nat := count_char "?" stmt.

(** A schedule whose frequency parses to a duration that is not zero and
    whose backtrack, if it is not "checkpoint", parses. *)
Definition schedule_ok (to_timedelta : string -> result timedelta)
  (tup : schedule_tuple) : Prop :=
  (exists d, to_timedelta (freq_of tup) = Ok d /\ d <> 0) /\
  (forall b, snd tup = Some b -> String.eqb b "checkpoint" = false ->
             exists d, to_timedelta b = Ok d).

(** The exception of a [%] with too few arguments. *)
Definition format_error : exn :=
  Raise TypeError "not enough arguments for format string".

(* ===================================================================== *)
(** * Example data *)
(* ===================================================================== *)

Module Examples.
Import Db2DataWriter.

(** ** Scheduling *)

Definition payload0 : payload :=
  {| payload_class := "EntityType";
     is_schedule_progressive := None;
     chunk_size := None;
     get_early_timestamp := None;
     get_adjusted_start_date := None |}.

Definition log_row (sched : string) (t : datetime) : JobLog.record :=
  {| JobLog.object_type := "EntityType"; JobLog.object_name := "job";
     JobLog.schedule := sched; JobLog.last_update := t; JobLog.trace := None |}.

(** Schedules "5min" and "1h" (backtrack one day), last executed at 09:55
    and 09:00. *)
Definition dict0 : odict string (option Z * option Z * option string) :=
  [("1h", (None, None, Some "1d"))].

Definition jc0 : controller :=
  {| the_payload := payload0;
     name := "job";
     job_log := [log_row "5min" (595 * MINUTE); log_row "1h" (540 * MINUTE)];
     _schedules := [("5min", None, None, None); ("1h", None, None, Some "1d")];
     stage_metadata := [] |}.

(** The evaluation time 10:05. *)
Definition T0 : datetime := 605 * MINUTE.

Definition pass1_0 : pass1 :=
  Eval vm_compute in
    match evaluate_pass1 parse_timedelta 0 jc0 T0 with
    | Ok st => st
    | Err _ => {| sched := []; last_schedule_due := None; all_due := [] |}
    end.

(** A schedule "15min" driven by checkpoint, last executed at 10:00, next
    to the default schedule. *)
Definition jc1 : controller :=
  {| the_payload := payload0;
     name := "job";
     job_log := [log_row "15min" (600 * MINUTE)];
     _schedules := [("5min", None, None, None);
                    ("15min", None, None, Some "checkpoint")];
     stage_metadata := [] |}.

Definition T1 : datetime := 620 * MINUTE.

Definition meta1 : meta :=
  Eval vm_compute in
    match schedule_meta parse_timedelta 0 jc1 T1
                        ("15min", None, None, Some "checkpoint") with
    | Ok m => m
    | Err _ => {| next_date := 0; is_subsumed := false; prev_checkpoint := None;
                  is_checkpoint_driven := false; round_hour := None;
                  round_min := None; rounded_start := None; is_due := false;
                  start_date := None; backtrack := None; mark_complete := [] |}
    end.

Definition schedules1 : odict string meta :=
  Eval vm_compute in
    match evaluate_schedules parse_timedelta 0 jc1 T1 with
    | Ok res => res
    | Err _ => []
    end.

(** ** Merging *)

(** A frame indexed by [(id, ts)] with one row, and an object with another
    row of the same index. *)
Definition frame_x : DataFrame :=
  {| ikind := Multi [Some "id"; Some "ts"];
     index := [[SStr "A"; STime 0]];
     columns := [("x", [SInt 1])] |}.

Definition frame_y : DataFrame :=
  {| ikind := Multi [Some "id"; Some "ts"];
     index := [[SStr "B"; STime 1]];
     columns := [("y", [SInt 2])] |}.

Definition merge_x : DataMerge.t :=
  {| DataMerge.df := frame_x;
     DataMerge.constants := [("k", PScalar (SStr "v"))] |}.

(** What the outer merge of the two leaves. *)
Definition merged_xy : DataMerge.t :=
  {| DataMerge.df :=
       {| ikind := Multi [Some "id"; Some "ts"];
          index := [[SStr "A"; STime 0]; [SStr "B"; STime 1]];
          columns := [("x", [SInt 1; SFloat FNaN]);
                      ("y", [SFloat FNaN; SInt 2]);
                      ("k", [SStr "v"; SStr "v"])] |};
     DataMerge.constants := [("k", PScalar (SStr "v"))] |}.

(** ** Stages *)

Definition stage_returning (n : nat) (nm : string) (out : string) (r : pyobj)
  : Stage.t :=
  {| Stage.id := n;
     Stage.name := nm;
     Stage.execute := fun _ _ => Ok r;
     Stage._input_set := [];
     Stage._output_list := [out];
     Stage.get_output_list := Some (Ok [out]);
     Stage._allow_empty_df := None;
     Stage.produces_output_items := None;
     Stage._discard_prior_on_merge := None;
     Stage._agg_function := None |}.

(** A stage that returns [False] and a stage that returns 7. *)
Definition stage_false : Stage.t :=
  stage_returning 1 "gate" "flag" (OPlain (PScalar (SBool false))).

Definition stage_seven : Stage.t :=
  stage_returning 2 "seven" "seven" (OPlain (PScalar (SInt 7))).

(** A simple aggregator that declares two input items. *)
Definition stage_two_inputs : Stage.t :=
  {| Stage.id := 3;
     Stage.name := "mean_of_two";
     Stage.execute := fun _ _ => Ok (OPlain PNone);
     Stage._input_set := ["x"; "y"];
     Stage._output_list := ["m"];
     Stage.get_output_list := Some (Ok ["m"]);
     Stage._allow_empty_df := None;
     Stage.produces_output_items := None;
     Stage._discard_prior_on_merge := None;
     Stage._agg_function := Some "mean" |}.

Definition jc_agg : controller :=
  {| the_payload := payload0;
     name := "job";
     job_log := [];
     _schedules := [default_schedule];
     stage_metadata := [(("simple_aggregate", Some "daily"), [stage_two_inputs])] |}.

(** ** Writing *)

(** Python's [str] and [float] on the values the examples use: strings,
    booleans, integers and [None]; the examples convert no other value and
    take no [str] of a tuple. *)
Definition example_str (v : scalar) : string :=
  match v with
  | SStr s => s
  | SBool true => "True"
  | SBool false => "False"
  | SInt z => DecimalString.NilZero.string_of_int (Z.to_int z)
  | SNone => "None"
  | _ => ""
  end.

(** [str.isidentifier] on names written in ASCII: a letter or an
    underscore, then letters, digits and underscores. *)
Definition ascii_letter (c : ascii) : bool :=
  let n := nat_of_ascii c in
  ((65 <=? n) && (n <=? 90) || (97 <=? n) && (n <=? 122) || (n =? 95))%nat.

Definition ascii_digit (c : ascii) : bool :=
  let n := nat_of_ascii c in ((48 <=? n) && (n <=? 57))%nat.

Fixpoint all_chars (p : ascii -> bool) (s : string) : bool :=
  match s with
  | EmptyString => true
  | String c rest => p c && all_chars p rest
  end.

Definition example_isidentifier (s : string) : bool :=
  match s with
  | EmptyString => false
  | String c rest =>
      ascii_letter c && all_chars (fun x => ascii_letter x || ascii_digit x) rest
  end.

(** [keyword.kwlist] *)
Definition example_iskeyword (s : string) : bool :=
  mem_str s ["False"; "None"; "True"; "and"; "as"; "assert"; "async"; "await";
             "break"; "class"; "continue"; "def"; "del"; "elif"; "else";
             "except"; "finally"; "for"; "from"; "global"; "if"; "import";
             "in"; "is"; "lambda"; "nonlocal"; "not"; "or"; "pass"; "raise";
             "return"; "try"; "while"; "with"; "yield"].

(** A runtime for the examples: named tuples whatever the number of
    columns; the examples read no attribute of a tuple other than its
    fields. *)
#[export] Instance example_runtime : PyRuntime :=
  {| py_str := example_str;
     py_float_of_int := fun z => Ok (FNum z 0);
     py_float_of_str := fun _ =>
       raise ValueError "could not convert string to float";
     py_str_tuple := fun _ => "()";
     py_isidentifier := example_isidentifier;
     py_iskeyword := example_iskeyword;
     py_namedtuple_limit := None;
     py_tuple_member := fun _ _ _ => None |}.

Definition item (tr : option scalar) (ty : string) : metadata :=
  {| transient := tr; sourceTableName := Some "T"; columnType := Some ty |}.

(** Items [temp] (NUMBER) and [alarm] (BOOLEAN) of table [T]; [speed] has
    no [transient] key. *)
Definition writer0 : writer :=
  {| data_item_metadata := fun c =>
       if String.eqb c "temp" then Some (item (Some (SBool false)) "NUMBER")
       else if String.eqb c "alarm" then Some (item (Some (SBool false)) "BOOLEAN")
       else if String.eqb c "speed" then Some (item None "NUMBER")
       else None;
     grains_metadata := fun _ => None;
     schema_name := "S" |}.

Definition frame_w : DataFrame :=
  {| ikind := Multi [Some "id"; Some "ts"];
     index := [[SStr "A"; STime 0]; [SStr "A"; STime 1]];
     columns := [("temp", [SFloat (FNum 37 (-1)); SFloat (FInf false)]);
                 ("alarm", [SBool true; SNone]);
                 ("speed", [SInt 3; SInt 4])] |}.


(** The calls of the writer for [frame_w] and the interval from 0 to 10. *)
Definition calls_w : list db_call :=
  Eval vm_compute in
    match Db2DataWriter.execute writer0 (Some frame_w) (Some 0) (Some 10) with
    | Ok calls => calls
    | Err _ => []
    end.

(** An item whose label, [max temp], is no identifier. *)
Definition writer_spaced : writer :=
  {| data_item_metadata := fun c =>
       if String.eqb c "max temp"
       then Some (item (Some (SBool false)) "NUMBER")
       else None;
     grains_metadata := fun _ => None;
     schema_name := "S" |}.

Definition frame_spaced : DataFrame :=
  {| ikind := Multi [Some "id"; Some "ts"];
     index := [[SStr "A"; STime 0]];
     columns := [("max temp", [SInt 21])] |}.

(** An item whose label, [_2], starts with an underscore, in a frame whose
    second column is [max temp]. *)
Definition writer_shadow : writer :=
  {| data_item_metadata := fun c =>
       if String.eqb c "_2"
       then Some (item (Some (SBool false)) "NUMBER")
       else None;
     grains_metadata := fun _ => None;
     schema_name := "S" |}.

Definition frame_shadow : DataFrame :=
  {| ikind := Multi [Some "id"; Some "ts"];
     index := [[SStr "A"; STime 0]];
     columns := [("_2", [SInt 1]); ("max temp", [SInt 21])] |}.

End Examples.

(* ===================================================================== *)
(** * More example data *)
(* ===================================================================== *)

Module MoreExamples.
Import Db2DataWriter Examples.

(** ** Scheduling *)

(** Two keys of the same duration, "60min" before "1h". *)
Definition dict_same : odict string (option Z * option Z * option string) :=
  [("60min", (None, None, None)); ("1h", (None, None, Some "1d"))].

Definition schedules_same : list schedule_tuple :=
  Eval vm_compute in
    match build_schedules_list parse_timedelta default_schedule dict_same with
    | Ok l => l
    | Err _ => []
    end.

(** The schedules of [jc0] at 10:05. *)
Definition schedules0 : odict string meta :=
  Eval vm_compute in
    match evaluate_schedules parse_timedelta 0 jc0 T0 with
    | Ok res => res
    | Err _ => []
    end.

Definition meta_hourly : meta :=
  Eval vm_compute in
    match od_get String.eqb schedules0 "1h" with
    | Some m => m
    | None => meta1
    end.

Definition meta_5min : meta :=
  Eval vm_compute in
    match od_get String.eqb schedules0 "5min" with
    | Some m => m
    | None => meta1
    end.

(** The schedules of [jc0] at 10:05, once the completion of "5min" has
    been logged at that time. *)
Definition schedules_completed : odict string meta :=
  Eval vm_compute in
    match evaluate_schedules parse_timedelta 0
                             (log_completion jc0 "5min" T0 None None) T0 with
    | Ok res => res
    | Err _ => []
    end.

(** The job of [jc0] for a payload whose schedules are not progressive. *)
Definition payload_flat : payload :=
  {| payload_class := "EntityType";
     is_schedule_progressive := Some false;
     chunk_size := None;
     get_early_timestamp := None;
     get_adjusted_start_date := None |}.

Definition jc_flat : controller :=
  {| the_payload := payload_flat;
     name := "job";
     job_log := job_log jc0;
     _schedules := _schedules jc0;
     stage_metadata := [] |}.

Definition schedules_flat : odict string meta :=
  Eval vm_compute in
    match evaluate_schedules parse_timedelta 0 jc_flat T0 with
    | Ok res => res
    | Err _ => []
    end.

(** A payload whose chunk size is minus one hour. *)
Definition payload_back : payload :=
  {| payload_class := "EntityType";
     is_schedule_progressive := None;
     chunk_size := Some "-1h";
     get_early_timestamp := None;
     get_adjusted_start_date := None |}.

Definition jc_back : controller :=
  {| the_payload := payload_back;
     name := "job";
     job_log := [];
     _schedules := [default_schedule];
     stage_metadata := [] |}.

(** The sum of a date and a duration within the range of Python's
    [datetime], from the year 1 to the year 9999, in microseconds since
    1970. *)
Definition datetime_add (t : datetime) (delta : timedelta) : result datetime :=
  if (-62135596800000000 <=? t + delta) && (t + delta <=? 253402300799999999)
  then Ok (t + delta)
  else raise OverflowError "date value out of range".

(** ** Building a specification *)

Definition stage_from (n : nat) (nm : string) (inputs outputs : list string)
  : Stage.t :=
  {| Stage.id := n;
     Stage.name := nm;
     Stage.execute := fun _ _ => Ok (OPlain PNone);
     Stage._input_set := inputs;
     Stage._output_list := outputs;
     Stage.get_output_list := Some (Ok outputs);
     Stage._allow_empty_df := None;
     Stage.produces_output_items := None;
     Stage._discard_prior_on_merge := None;
     Stage._agg_function := None |}.

(** Four transforms: [double] needs the output of [scale], which needs the
    column [x] of the source; [orphan] needs a column nobody delivers, and
    [hourly] is on the schedule "1h". *)
Definition stage_double : Stage.t := stage_from 11 "double" ["a"] ["b"].
Definition stage_scale : Stage.t := stage_from 10 "scale" ["x"] ["a"].
Definition stage_orphan : Stage.t := stage_from 12 "orphan" ["zz"] ["c"].
Definition stage_hourly : Stage.t := stage_from 13 "hourly" ["x"] ["d"].

Definition jc_build : controller :=
  {| the_payload := payload0;
     name := "job";
     job_log := [];
     _schedules := [default_schedule; ("1h", None, None, None)];
     stage_metadata :=
       [(("transform", None),
         [stage_double; stage_scale; stage_orphan; stage_hourly])] |}.

Definition env0 : JobSpec.env :=
  {| JobSpec.attrs := fun i =>
       {| JobSpec.schedule := if Nat.eqb i 13 then Some "1h" else None;
          JobSpec._metadata_params := None;
          JobSpec.is_data_source := None;
          JobSpec.is_custom_calendar := None;
          JobSpec.set_entity_type := Some (Ok tt) |};
     JobSpec.payload_sets := [] |}.

Definition build0 : JobSpec.build_metadata :=
  {| JobSpec.spec := [];
     JobSpec.meta_schedule := "5min";
     JobSpec.subsumed := [];
     JobSpec.available_columns := ["x"];
     JobSpec.required_inputs := [];
     JobSpec.data_source_projection_list := [] |}.

(** What the build makes of them for the schedule "5min". *)
Definition built0 : JobSpec.env * JobSpec.build_metadata :=
  match JobSpec.build_stages_of_type jc_build "5min" "transform" None
                                     env0 build0 with
  | Ok r => r
  | Err _ => (env0, build0)
  end.

(** A job specification that holds [stage_double] under two keys. *)
Definition job_spec0 : odict string (list Stage.t) :=
  [("input_level", [stage_scale; stage_double]); ("daily", [stage_double])].

(** ** Merging *)

(** Frames with the index of [frame_x]: one brings the column [x] again,
    the other one a column [z]. *)
Definition frame_x_again : DataFrame :=
  {| ikind := Multi [Some "id"; Some "ts"];
     index := [[SStr "A"; STime 0]];
     columns := [("x", [SInt 9])] |}.

Definition frame_z : DataFrame :=
  {| ikind := Multi [Some "id"; Some "ts"];
     index := [[SStr "A"; STime 0]];
     columns := [("z", [SInt 5])] |}.

(** A frame without rows that promises a column [q]. *)
Definition frame_q : DataFrame :=
  {| ikind := Multi [Some "id"; Some "ts"];
     index := [];
     columns := [("q", [])] |}.

(** A frame with a default index. *)
Definition frame_unnamed : DataFrame :=
  {| ikind := Single None;
     index := [[SInt 0]];
     columns := [("u", [SInt 3])] |}.

(** A [DataMerge] that has constants and no data yet. *)
Definition merge_k : DataMerge.t :=
  {| DataMerge.df := new_frame;
     DataMerge.constants := [("k", PScalar (SStr "v"))] |}.

(** What the merges of [frame_z] into [merge_x], of [frame_x] into
    [merge_k] and of [frame_q] into [merge_x] leave. *)
Definition merged_xz : DataMerge.t :=
  {| DataMerge.df :=
       {| ikind := Multi [Some "id"; Some "ts"];
          index := [[SStr "A"; STime 0]];
          columns := [("x", [SInt 1]); ("z", [SInt 5])] |};
     DataMerge.constants := [("k", PScalar (SStr "v"))] |}.

Definition merged_kx : DataMerge.t :=
  {| DataMerge.df :=
       {| ikind := Multi [Some "id"; Some "ts"];
          index := [[SStr "A"; STime 0]];
          columns := [("x", [SInt 1]); ("k", [SStr "v"])] |};
     DataMerge.constants := [("k", PScalar (SStr "v"))] |}.

(** The scalar 7 merged as [seven] into a new [DataMerge], and the frame
    [frame_w] merged after it. *)
Definition merge_seven : DataMerge.t :=
  {| DataMerge.df :=
       {| ikind := Single None; index := []; columns := [("seven", [])] |};
     DataMerge.constants := [("seven", PScalar (SInt 7))] |}.

Definition merge_seven_w : DataMerge.t :=
  {| DataMerge.df :=
       {| ikind := Multi [Some "id"; Some "ts"];
          index := [[SStr "A"; STime 0]; [SStr "A"; STime 1]];
          columns := [("temp", [SFloat (FNum 37 (-1)); SFloat (FInf false)]);
                      ("alarm", [SBool true; SNone]);
                      ("speed", [SInt 3; SInt 4]);
                      ("seven", [SInt 7; SInt 7])] |};
     DataMerge.constants := [("seven", PScalar (SInt 7))] |}.

(** ** Stages *)

(** A stage that does not accept an empty frame. *)
Definition stage_strict : Stage.t :=
  {| Stage.id := 4;
     Stage.name := "strict";
     Stage.execute := fun _ _ => Ok (OPlain (PScalar (SInt 1)));
     Stage._input_set := [];
     Stage._output_list := ["one"];
     Stage.get_output_list := Some (Ok ["one"]);
     Stage._allow_empty_df := Some false;
     Stage.produces_output_items := None;
     Stage._discard_prior_on_merge := None;
     Stage._agg_function := None |}.

(** ** Writing *)

(** The frame [frame_nan] with a plain index. *)
Definition frame_single : DataFrame :=
  {| ikind := Single (Some "id");
     index := [[SStr "A"]];
     columns := [("temp", [SInt 1])] |}.

(** A writer whose item [temp] has a grain with the entity, no frequency
    and the dimension [site]. *)
Definition writer_site : writer :=
  {| data_item_metadata := fun c =>
       if String.eqb c "temp" then Some (item (Some (SBool false)) "NUMBER")
       else None;
     grains_metadata := fun c =>
       if String.eqb c "temp"
       then Some {| entity_id := Some "id"; freq := None;
                    dimensions := Some ["site"] |}
       else None;
     schema_name := "S" |}.

Definition frame_site : DataFrame :=
  {| ikind := Multi [Some "id"; Some "site"];
     index := [[SStr "A"; SStr "north"]; [SStr "B"; SStr "south"]];
     columns := [("temp", [SInt 20; SInt 21])] |}.

Definition calls_site : list db_call :=
  Eval vm_compute in
    match Db2DataWriter.execute writer_site (Some frame_site) None None with
    | Ok calls => calls
    | Err _ => []
    end.

Definition rows_w : list row :=
  Eval vm_compute in
    match calls_w with
    | [_; DbInsert _ rows] => rows
    | _ => []
    end.

Definition rows_site : list row :=
  Eval vm_compute in
    match calls_site with
    | [_; DbInsert _ rows] => rows
    | _ => []
    end.

(** Quoting of an identifier as the database helper does it: between
    double quotes.  The examples quote no name that holds a double quote. *)
Definition quoted (s : string) : string :=
  String "034" (String.append s (String "034" EmptyString)).

End MoreExamples.

(* ===================================================================== *)
(** * Properties *)
(* ===================================================================== *)

Unset Implicit Arguments.

Section MonadFacts.
Context {A B : Type}.

Lemma bind_ok (m : result A) (k : A -> result B) (b : B) :
  Py.bind m k = Ok b -> exists a, m = Ok a /\ k a = Ok b.
Proof.
  destruct m as [a|e]; simpl; intros H; [exists a; auto | discriminate].
Qed.

Lemma foldM_app (f : B -> A -> result B) (l1 l2 : list A) (s : B) :
  foldM f (l1 ++ l2) s = Py.bind (foldM f l1 s) (foldM f l2).
Proof.
  revert s; induction l1 as [|x l1 IH]; intros s; simpl; [reflexivity|].
  destruct (f s x); simpl; auto.
Qed.

Lemma foldM_snoc (f : B -> A -> result B) (l : list A) (x : A) (s : B) :
  foldM f (l ++ [x]) s = Py.bind (foldM f l s) (fun s' => f s' x).
Proof.
  rewrite foldM_app. destruct (foldM f l s); simpl; [|reflexivity].
  destruct (f a x); reflexivity.
Qed.
End MonadFacts.

Ltac inv_bind H :=
  let a := fresh "a" in
  let Ha := fresh "Hbind" in
  apply bind_ok in H; destruct H as (a & Ha & H).


Section ODictFacts.
Variables K V : Type.
Variable eqb : K -> K -> bool.
Hypothesis eqb_spec : forall x y, eqb x y = true <-> x = y.

Lemma eqb_refl' (x : K) : eqb x x = true.
Proof. apply eqb_spec. reflexivity. Qed.

Lemma eqb_neq' (x y : K) : x <> y -> eqb x y = false.
Proof.
  intros H. destruct (eqb x y) eqn:E; [|reflexivity].
  apply eqb_spec in E. contradiction.
Qed.

Lemma od_get_In (d : odict K V) (k : K) (v : V) :
  od_get eqb d k = Some v -> In (k, v) d.
Proof.
  induction d as [|[k' v'] d IH]; simpl; [discriminate|].
  destruct (eqb k' k) eqn:E.
  - apply eqb_spec in E. intros [= ->]. left. congruence.
  - intros H. right. auto.
Qed.

Lemma od_get_None (d : odict K V) (k : K) :
  od_get eqb d k = None <-> ~ In k (od_keys d).
Proof.
  induction d as [|[k' v'] d IH]; simpl.
  - split; auto.
  - destruct (eqb k' k) eqn:E.
    + apply eqb_spec in E. split; [discriminate | intros H; exfalso; auto].
    + rewrite IH. split.
      * intros H [Hk|Hin]; [|auto]. subst. rewrite eqb_refl' in E. discriminate.
      * intros H Hin. auto.
Qed.

Lemma In_od_get (d : odict K V) (k : K) (v : V) :
  NoDup (od_keys d) -> In (k, v) d -> od_get eqb d k = Some v.
Proof.
  induction d as [|[k' v'] d IH]; simpl; [contradiction|].
  intros Hnd [Heq|Hin].
  - injection Heq as -> ->. rewrite eqb_refl'. reflexivity.
  - inversion Hnd as [|? ? Hnotin Hnd']; subst.
    destruct (eqb k' k) eqn:E.
    + apply eqb_spec in E. subst. exfalso. apply Hnotin.
      change k with (fst (k, v)). apply in_map. exact Hin.
    + auto.
Qed.

Lemma od_get_set_eq (d : odict K V) (k : K) (v : V) :
  od_get eqb (od_set eqb d k v) k = Some v.
Proof.
  induction d as [|[k' v'] d IH]; simpl.
  - rewrite eqb_refl'. reflexivity.
  - destruct (eqb k' k) eqn:E; simpl; rewrite E; [reflexivity | exact IH].
Qed.

Lemma od_get_set_neq (d : odict K V) (k k' : K) (v : V) :
  k <> k' -> od_get eqb (od_set eqb d k v) k' = od_get eqb d k'.
Proof.
  intros Hne. induction d as [|[k0 v0] d IH]; simpl.
  - rewrite eqb_neq' by exact Hne. reflexivity.
  - destruct (eqb k0 k) eqn:E; simpl.
    + apply eqb_spec in E. subst. rewrite eqb_neq' by exact Hne. reflexivity.
    + destruct (eqb k0 k'); [reflexivity | exact IH].
Qed.

Lemma od_set_new (d : odict K V) (k : K) (v : V) :
  ~ In k (od_keys d) -> od_set eqb d k v = d ++ [(k, v)].
Proof.
  induction d as [|[k' v'] d IH]; simpl; intros H; [reflexivity|].
  rewrite eqb_neq' by (intros ->; auto). rewrite IH by auto. reflexivity.
Qed.

Lemma od_keys_set (d : odict K V) (k : K) (v : V) :
  od_keys (od_set eqb d k v) =
  if od_mem eqb d k then od_keys d else od_keys d ++ [k].
Proof.
  unfold od_mem. induction d as [|[k' v'] d IH]; simpl; [reflexivity|].
  destruct (eqb k' k) eqn:E; simpl; [reflexivity|].
  rewrite IH. destruct (od_get eqb d k); reflexivity.
Qed.

Lemma od_set_NoDup (d : odict K V) (k : K) (v : V) :
  NoDup (od_keys d) -> NoDup (od_keys (od_set eqb d k v)).
Proof.
  intros H. rewrite od_keys_set. unfold od_mem.
  destruct (od_get eqb d k) eqn:E; [exact H|].
  apply od_get_None in E.
  apply NoDup_app; [exact H | repeat constructor; simpl; tauto |].
  intros x Hin [Hx|[]]. subst. contradiction.
Qed.

Lemma od_set_In (d : odict K V) (k : K) (v : V) (k' : K) (v' : V) :
  In (k', v') (od_set eqb d k v) -> (k' = k /\ v' = v) \/ In (k', v') d.
Proof.
  induction d as [|[k0 v0] d IH]; simpl.
  - intros [[= <- <-]|[]]. auto.
  - destruct (eqb k0 k) eqn:E; simpl.
    + apply eqb_spec in E. subst.
      intros [[= <- <-]|Hin]; auto.
    + intros [Heq|Hin]; [auto|]. destruct (IH Hin); auto.
Qed.

Lemma od_get_map (f : K -> V -> V) (d : odict K V) (k : K) :
  od_get eqb (map (fun e => (fst e, f (fst e) (snd e))) d) k =
  match od_get eqb d k with Some v => Some (f k v) | None => None end.
Proof.
  induction d as [|[k' v'] d IH]; simpl; [reflexivity|].
  destruct (eqb k' k) eqn:E; [|exact IH].
  apply eqb_spec in E. subst. reflexivity.
Qed.
End ODictFacts.

Lemma string_eqb_spec (x y : string) : String.eqb x y = true <-> x = y.
Proof. apply String.eqb_eq. Qed.

Lemma Z_eqb_spec (x y : Z) : Z.eqb x y = true <-> x = y.
Proof. apply Z.eqb_eq. Qed.

Section ListFacts.
Context {A B : Type}.

Lemma mapM_Forall2 (f : A -> result B) (l : list A) (ys : list B) :
  mapM f l = Ok ys -> Forall2 (fun x y => f x = Ok y) l ys.
Proof.
  revert ys. induction l as [|x l IH]; simpl; intros ys H.
  - injection H as <-. constructor.
  - inv_bind H. inv_bind H. injection H as <-. constructor; auto.
Qed.

Lemma Forall2_In_l (R : A -> B -> Prop) (l : list A) (l' : list B) (x : A) :
  Forall2 R l l' -> In x l -> exists y, In y l' /\ R x y.
Proof.
  induction 1 as [|a b l l' Hab _ IH]; simpl; [contradiction|].
  intros [<-|Hin]; [eauto|]. destruct (IH Hin) as (y & Hy & Hr). eauto.
Qed.

Lemma Forall2_In_r (R : A -> B -> Prop) (l : list A) (l' : list B) (y : B) :
  Forall2 R l l' -> In y l' -> exists x, In x l /\ R x y.
Proof.
  induction 1 as [|a b l l' Hab _ IH]; simpl; [contradiction|].
  intros [<-|Hin]; [eauto|]. destruct (IH Hin) as (x & Hx & Hr). eauto.
Qed.

Lemma StronglySorted_filter (R : A -> A -> Prop) (p : A -> bool) (l : list A) :
  StronglySorted R l -> StronglySorted R (filter p l).
Proof.
  induction 1 as [|x l Hs IH Hall]; simpl; [constructor|].
  destruct (p x); [|exact IH].
  constructor; [exact IH|].
  rewrite Forall_forall in *. intros y Hy. apply filter_In in Hy. apply Hall, Hy.
Qed.

Lemma StronglySorted_map_filter (R : B -> B -> Prop) (f : A -> B)
      (p : A -> bool) (l : list A) :
  StronglySorted R (map f l) -> StronglySorted R (map f (filter p l)).
Proof.
  induction l as [|x l IH]; simpl; intros H; [constructor|].
  inversion H as [|? ? Hs Hall]; subst.
  destruct (p x); simpl; [|auto].
  constructor; [auto|].
  rewrite Forall_forall in *. intros y Hy. apply in_map_iff in Hy.
  destruct Hy as (z & <- & Hz). apply filter_In in Hz.
  apply Hall. apply in_map. apply Hz.
Qed.

Lemma StronglySorted_snoc (R : A -> A -> Prop) (l : list A) (x y : A) :
  StronglySorted R (l ++ [x]) -> In y l -> R y x.
Proof.
  induction l as [|z l IH]; simpl; [contradiction|].
  intros H Hin. inversion H as [|? ? Hs Hall]; subst.
  destruct Hin as [->|Hin]; [|auto].
  rewrite Forall_forall in Hall. apply Hall. apply in_or_app. right. left. reflexivity.
Qed.
End ListFacts.

Lemma last_opt_snoc {A : Type} (l : list A) (x : A) : last_opt (l ++ [x]) = Some x.
Proof. unfold last_opt. rewrite rev_app_distr. reflexivity. Qed.

Lemma last_opt_Some {A : Type} (l : list A) (x : A) :
  last_opt l = Some x -> exists front, l = front ++ [x].
Proof.
  unfold last_opt. destruct (rev l) as [|y r] eqn:E; [discriminate|].
  intros [= ->]. exists (rev r).
  rewrite <- (rev_involutive l), E. reflexivity.
Qed.

Lemma last_opt_None {A : Type} (l : list A) : last_opt l = None -> l = [].
Proof.
  unfold last_opt. destruct (rev l) eqn:E; [|discriminate].
  intros _. rewrite <- (rev_involutive l), E. reflexivity.
Qed.

Section SortFacts.
Lemma insert_sorted_In (x : Z) (l : list Z) (y : Z) :
  In y (insert_sorted x l) <-> y = x \/ In y l.
Proof.
  induction l as [|z l IH]; simpl.
  - intuition.
  - destruct (x <=? z); simpl; [intuition|]. rewrite IH. intuition.
Qed.

Lemma sort_In (l : list Z) (y : Z) : In y (sort l) <-> In y l.
Proof.
  induction l as [|x l IH]; simpl; [tauto|].
  rewrite insert_sorted_In, IH. intuition.
Qed.

Lemma insert_sorted_strict (x : Z) (l : list Z) :
  StronglySorted Z.lt l -> ~ In x l ->
  StronglySorted Z.lt (insert_sorted x l).
Proof.
  induction 1 as [|z l Hs IH Hall]; simpl; intros Hnotin.
  - repeat constructor.
  - rewrite Forall_forall in Hall.
    destruct (Z.leb_spec x z) as [Hle|Hgt].
    + assert (x <> z) by (intros ->; apply Hnotin; left; reflexivity).
      assert (x < z) by lia.
      constructor; [constructor; [exact Hs | rewrite Forall_forall; exact Hall]|].
      rewrite Forall_forall. intros y [<-|Hy]; [assumption|].
      specialize (Hall y Hy). lia.
    + constructor; [apply IH; intros Hin; apply Hnotin; right; exact Hin|].
      rewrite Forall_forall. intros y Hy. apply insert_sorted_In in Hy.
      destruct Hy as [->|Hy]; [lia | auto].
Qed.

Lemma sort_strict (l : list Z) : NoDup l -> StronglySorted Z.lt (sort l).
Proof.
  induction 1 as [|x l Hnotin Hnd IH]; simpl; [constructor|].
  apply insert_sorted_strict; [exact IH|]. rewrite sort_In. exact Hnotin.
Qed.
End SortFacts.

Section RoundingFacts.
Variable to_timedelta : string -> result timedelta.
Variable today : datetime.

Lemma adjust_rounding (t : datetime) (rh rm : option Z) (interval : string)
      (d : timedelta) :
  to_timedelta interval = Ok d -> d <> 0 ->
  (rh <> None \/ rm <> None) ->
  adjust_to_schedule to_timedelta today t rh rm interval =
  Ok (round_from
        (today + match rh with Some h => h | None => 0 end * HOUR
               + match rm with Some m => m | None => 0 end * MINUTE) t d).
Proof.
  intros Hd Hnz Hset. unfold adjust_to_schedule, round_from, floordiv.
  destruct rh as [h|], rm as [m|]; try (destruct Hset; congruence);
    rewrite Hd; simpl; apply Z.eqb_neq in Hnz; rewrite Hnz; reflexivity.
Qed.

Lemma round_from_le (a t d : Z) : 0 < d -> round_from a t d <= t.
Proof.
  intros Hd. unfold round_from.
  set (s := if a >? t then a - DAY else a).
  pose proof (Z.mul_div_le (t - s) d Hd). lia.
Qed.

Lemma round_from_idem (a t d : Z) :
  0 < d -> round_from a (round_from a t d) d = round_from a t d.
Proof.
  intros Hd. pose proof (round_from_le a t d Hd) as Hle.
  unfold round_from in *.
  destruct (a >? t) eqn:Hat.
  - apply Z.gtb_lt in Hat.
    set (s := a - DAY) in *.
    assert (Hgt : (a >? s + (t - s) / d * d) = true) by (apply Z.gtb_lt; lia).
    rewrite Hgt. fold s.
    replace (s + (t - s) / d * d - s) with ((t - s) / d * d) by lia.
    rewrite Z.div_mul by lia. reflexivity.
  - assert (Hta : a <= t) by (destruct (Z.gtb_spec a t); [discriminate | lia]).
    assert (0 <= (t - a) / d) by (apply Z.div_pos; lia).
    assert (Hgt : (a >? a + (t - a) / d * d) = false).
    { destruct (Z.gtb_spec a (a + (t - a) / d * d)); [nia | reflexivity]. }
    rewrite Hgt.
    replace (a + (t - a) / d * d - a) with ((t - a) / d * d) by lia.
    rewrite Z.div_mul by lia. reflexivity.
Qed.

(** C10.  Rounding idempotence: under a fixed current UTC date, for every
    execution date, every round-hour and round-minute setting and every
    interval that parses to a positive duration, [adjust_to_schedule]
    returns, and applying it to its own result returns that result
    again. *)
Theorem adjust_to_schedule_idempotent
    (t : datetime) (rh rm : option Z) (interval : string) (d : timedelta) :
  to_timedelta interval = Ok d -> 0 < d ->
  exists t1,
    adjust_to_schedule to_timedelta today t rh rm interval = Ok t1 /\
    adjust_to_schedule to_timedelta today t1 rh rm interval = Ok t1.
Proof.
  intros Hd Hpos.
  assert (Hcases : (rh = None /\ rm = None) \/ (rh <> None \/ rm <> None)).
  { destruct rh, rm; auto; right; solve [left; discriminate | right; discriminate]. }
  destruct Hcases as [[-> ->] | Hset].
  - exists t. split; reflexivity.
  - eexists. split.
    + apply adjust_rounding; [exact Hd | lia | exact Hset].
    + rewrite (adjust_rounding _ rh rm interval d Hd) by (lia || exact Hset).
      rewrite round_from_idem by assumption. reflexivity.
Qed.
End RoundingFacts.

Section ChunkFacts.
Import ChunkSpec.
Variable to_timedelta : string -> result timedelta.
Variable today : datetime.
Variable jc : controller.

Local Abbreviation loop := (chunks_loop to_timedelta jc).

Lemma chunks_loop_S (fuel : nat) (size : string) (end_date ce : Z) :
  loop (S fuel) size end_date ce =
  if ce <? end_date then
    match adjusted_start jc (ce + MICROSECOND) with
    | Err e => Some (Err e)
    | Ok chunk_start =>
        match to_timedelta size with
        | Err e => Some (Err e)
        | Ok d =>
            match loop fuel size end_date (Z.min (chunk_start + d) end_date) with
            | None => None
            | Some (Err e) => Some (Err e)
            | Some (Ok l) =>
                Some (Ok ((Some chunk_start, Z.min (chunk_start + d) end_date) :: l))
            end
        end
    end
  else Some (Ok []).
Proof. reflexivity. Qed.

Lemma chunks_loop_more_fuel (size : string) (end_date : Z) :
  forall fuel ce r,
    loop fuel size end_date ce = Some r ->
    loop (S fuel) size end_date ce = Some r.
Proof.
  induction fuel as [|fuel IH]; intros ce r H.
  - simpl in *. destruct (ce <? end_date); [discriminate | exact H].
  - rewrite chunks_loop_S in H. rewrite chunks_loop_S.
    destruct (ce <? end_date); [|exact H].
    destruct (adjusted_start jc (ce + MICROSECOND)) as [cs|e]; [|exact H].
    destruct (to_timedelta size) as [d|e]; [|exact H].
    destruct (loop fuel size end_date (Z.min (cs + d) end_date)) as [r'|] eqn:E;
      [|discriminate].
    rewrite (IH _ _ E). exact H.
Qed.

Lemma chunks_loop_fuel_le (size : string) (end_date : Z) (fuel fuel' : nat) ce r :
  (fuel <= fuel')%nat ->
  loop fuel size end_date ce = Some r ->
  loop fuel' size end_date ce = Some r.
Proof.
  induction 1 as [|n Hle IH]; intros Hr; [exact Hr|].
  apply chunks_loop_more_fuel; auto.
Qed.

Hypothesis no_override : get_adjusted_start_date (the_payload jc) = None.

Lemma adjusted_start_id (d : datetime) : adjusted_start jc d = Ok d.
Proof. unfold adjusted_start. rewrite no_override. reflexivity. Qed.

Lemma chunks_loop_chained (size : string) (d end_date : Z) :
  to_timedelta size = Ok d -> 0 <= d ->
  forall fuel ce,
    ce <= end_date -> (Z.to_nat (end_date - ce) <= fuel)%nat ->
    exists l, loop fuel size end_date ce = Some (Ok l) /\
              chained d end_date ce l.
Proof.
  intros Hsize Hd. induction fuel as [|fuel IH]; intros ce Hle Hfuel.
  - assert (ce = end_date) by lia. subst ce. exists []. simpl.
    rewrite Z.ltb_irrefl. split; reflexivity.
  - simpl. destruct (Z.ltb_spec ce end_date) as [Hlt|Hge].
    + rewrite adjusted_start_id, Hsize.
      destruct (IH (Z.min (ce + MICROSECOND + d) end_date)) as (l & Hl & Hch).
      * lia.
      * unfold MICROSECOND. lia.
      * rewrite Hl. eexists. split; [reflexivity|].
        simpl. repeat split; auto.
    + assert (ce = end_date) by lia. subst ce. exists []. split; reflexivity.
Qed.

Lemma chained_separated (d end_date : Z) :
  0 <= d -> forall l prev, chained d end_date prev l -> separated prev l.
Proof.
  intros Hd. induction l as [|[[a|] b] l IH]; intros prev H; simpl in *; auto.
  destruct H as (Hlt & Ha & Hb & Hrest). unfold MICROSECOND in *.
  repeat split; [lia | lia | apply IH; exact Hrest].
Qed.

Lemma chained_covers (d end_date : Z) :
  0 <= d -> forall l prev t,
    chained d end_date prev l -> prev < t <= end_date -> covers l t.
Proof.
  intros Hd. induction l as [|[[a|] b] l IH]; intros prev t H Ht; simpl in H.
  - lia.
  - destruct H as (Hlt & Ha & Hb & Hrest). unfold MICROSECOND in *.
    destruct (Z_le_gt_dec t b) as [Htb|Htb].
    + exists a, b. split; [left; reflexivity | lia].
    + destruct (IH b t Hrest) as (a' & b' & Hin & Hab); [lia|].
      exists a', b'. split; [right; exact Hin | exact Hab].
  - contradiction.
Qed.

Lemma chained_last_end (d end_date : Z) :
  forall l prev c, chained d end_date prev l ->
                   snd c = prev -> last_end (c :: l) end_date = end_date.
Proof.
  unfold last_end.
  induction l as [|[[a|] b] l IH]; intros prev c H Hc; simpl in H.
  - destruct c as [c1 c2]. simpl in *. congruence.
  - destruct H as (_ & _ & _ & Hrest).
    change (last (c :: (Some a, b) :: l) (None, end_date))
      with (last ((Some a, b) :: l) (None, end_date)).
    apply (IH b); auto.
  - contradiction.
Qed.

(** C2 (as amended).  Chunk coverage: for every start date not after the
    end date, when the payload has no [get_adjusted_start_date] override,
    the chunk size is positive and, if a rounding hour or minute is set,
    the schedule's frequency is a positive duration, [get_chunks] returns
    (with any fuel above a bound) a list of chunks whose first chunk starts
    at the schedule-adjusted start date; every later chunk starts one
    microsecond after the end before it; every chunk ends at
    [min (start + size, end_date)]; the last chunk ends at [end_date]; the
    chunks do not overlap; and every instant of [[start_date, end_date]]
    is in a chunk. *)
Theorem get_chunks_coverage
    (start_date end_date : datetime) (rh rm : option Z) (schedule : string)
    (d : timedelta) :
  start_date <= end_date ->
  to_timedelta (get_payload_param (chunk_size (the_payload jc))
                                  default_chunk_size) = Ok d ->
  0 < d ->
  ((rh = None /\ rm = None) \/
   exists i, to_timedelta schedule = Ok i /\ 0 < i) ->
  exists (fuel0 : nat) (cs0 : datetime) (rest : list chunk),
    let chunks := (Some cs0, Z.min (cs0 + d) end_date) :: rest in
    adjust_to_schedule to_timedelta today start_date rh rm schedule = Ok cs0 /\
    (forall fuel, (fuel0 <= fuel)%nat ->
       get_chunks to_timedelta today jc fuel (Some start_date) end_date
                  rh rm schedule = Some (Ok chunks)) /\
    chained d end_date (Z.min (cs0 + d) end_date) rest /\
    last_end chunks end_date = end_date /\
    separated (cs0 - 1) chunks /\
    (forall t, start_date <= t <= end_date -> covers chunks t).
Proof.
  intros Hse Hsize Hd Hround.
  assert (Hadj : exists cs0,
             adjust_to_schedule to_timedelta today start_date rh rm schedule
             = Ok cs0 /\ cs0 <= start_date).
  { destruct Hround as [[-> ->] | (i & Hi & Hipos)].
    - exists start_date. split; [reflexivity | lia].
    - destruct rh as [h|] eqn:Erh, rm as [m|] eqn:Erm.
      4: { exists start_date. split; [reflexivity | lia]. }
      all: eexists; split;
        [ apply adjust_rounding;
          [exact Hi | lia | solve [left; discriminate | right; discriminate]]
        | apply round_from_le; exact Hipos ]. }
  destruct Hadj as (cs0 & Hcs0 & Hle).
  set (ce0 := Z.min (cs0 + d) end_date).
  destruct (chunks_loop_chained _ d end_date Hsize ltac:(lia)
              (Z.to_nat (end_date - ce0)) ce0) as (rest & Hloop & Hch).
  { unfold ce0. lia. }
  { lia. }
  exists (Z.to_nat (end_date - ce0)), cs0, rest. cbv zeta. fold ce0.
  split; [exact Hcs0|]. split; [|split; [exact Hch|split; [|split]]].
  - intros fuel Hfuel. unfold get_chunks. rewrite Hcs0.
    rewrite adjusted_start_id, Hsize. fold ce0.
    rewrite (chunks_loop_fuel_le _ _ _ _ _ _ Hfuel Hloop). reflexivity.
  - apply chained_last_end with (d := d) (prev := ce0); [exact Hch | reflexivity].
  - simpl. split; [lia|]. split; [unfold ce0; lia|].
    apply (chained_separated d end_date); [lia | exact Hch].
  - intros t Ht. destruct (Z_le_gt_dec t ce0) as [Htc|Htc].
    + exists cs0, ce0. split; [left; reflexivity | lia].
    + destruct (chained_covers d end_date ltac:(lia) rest ce0 t Hch)
        as (a & b & Hin & Hab); [lia|].
      exists a, b. split; [right; exact Hin | exact Hab].
Qed.
End ChunkFacts.

Section EvaluateFacts.
Variable to_timedelta : string -> result timedelta.
Variable today : datetime.

Lemma shorter_irrefl (f : string) : ~ shorter to_timedelta f f.
Proof. intros (d1 & d2 & H1 & H2 & Hlt). rewrite H1 in H2. injection H2 as ->. lia. Qed.

Lemma StronglySorted_shorter_NoDup (l : list string) :
  StronglySorted (shorter to_timedelta) l -> NoDup l.
Proof.
  induction 1 as [|x l Hs IH Hall]; constructor; [|exact IH].
  intros Hin. rewrite Forall_forall in Hall.
  apply (shorter_irrefl _ (Hall x Hin)).
Qed.

Lemma sort_dict_entries (l : list string) :
  forall (sd0 sd : odict Z string),
    foldM (fun (sd : odict Z string) f =>
             d <- to_timedelta f ;; Ok (od_set Z.eqb sd d f)) l sd0 = Ok sd ->
    NoDup (od_keys sd0) ->
    (forall d f, In (d, f) sd0 -> to_timedelta f = Ok d) ->
    NoDup (od_keys sd) /\
    (forall d f, In (d, f) sd -> to_timedelta f = Ok d).
Proof.
  induction l as [|f l IH]; simpl; intros sd0 sd H Hnd Hent.
  - injection H as <-. auto.
  - inv_bind H. inv_bind Hbind. injection Hbind as <-.
    apply (IH _ _ H).
    + apply (od_set_NoDup _ _ _ Z_eqb_spec); exact Hnd.
    + intros d' f' Hin. apply (od_set_In _ _ _ Z_eqb_spec) in Hin.
      destruct Hin as [[-> ->]|Hin]; auto.
Qed.

(** [build_schedules_list] returns the schedules in strictly ascending
    order of duration. *)
Lemma build_schedules_list_sorted (default : schedule_tuple)
      (dict : odict string (option Z * option Z * option string))
      (l : list schedule_tuple) :
  build_schedules_list to_timedelta default dict = Ok l ->
  StronglySorted (shorter to_timedelta) (map freq_of l).
Proof.
  unfold build_schedules_list. destruct default as [[[dfreq dh] dm] db].
  intros H. inv_bind H. rename a into sd.
  destruct (sort_dict_entries _ [] sd Hbind) as (Hnd & Hent);
    [constructor | intros ? ? [] |].
  apply mapM_Forall2 in H.
  pose proof (sort_strict _ Hnd) as Hsorted.
  assert (Hdur : Forall2 (fun d tup => to_timedelta (freq_of tup) = Ok d)
                         (sort (od_keys sd)) l).
  { eapply Forall2_impl; [|exact H]. simpl. intros d tup Hstep.
    inv_bind Hstep. inv_bind Hstep. destruct a0 as [[sh sm] bt].
    injection Hstep as <-. simpl.
    unfold od_item in Hbind0. destruct (od_get Z.eqb sd d) eqn:E; [|discriminate].
    injection Hbind0 as ->. apply Hent. apply (od_get_In _ _ _ Z_eqb_spec). exact E. }
  clear H. induction Hdur as [|d tup ds l Hd Hrest IH]; simpl; [constructor|].
  inversion Hsorted as [|? ? Hs Hall]; subst.
  constructor; [apply IH; exact Hs|].
  rewrite Forall_forall in *. intros f Hf. apply in_map_iff in Hf.
  destruct Hf as (tup' & <- & Hin).
  destruct (Forall2_In_r _ _ _ _ Hrest Hin) as (d' & Hd'in & Hd').
  exists d, d'. repeat split; auto.
Qed.

(** The frequencies of the list [build_schedules_list] returns are
    distinct. *)
Lemma build_schedules_list_NoDup (default : schedule_tuple)
      (dict : odict string (option Z * option Z * option string))
      (l : list schedule_tuple) :
  build_schedules_list to_timedelta default dict = Ok l ->
  NoDup (map freq_of l).
Proof.
  intros H. apply StronglySorted_shorter_NoDup.
  apply (build_schedules_list_sorted _ _ _ H).
Qed.

Variable jc : controller.

Local Abbreviation meta_of := (schedule_meta to_timedelta today jc).
Local Abbreviation entry_at := (entry_of to_timedelta today jc).
Local Abbreviation step := (evaluate_one to_timedelta today jc).

Lemma entries_keys (T : datetime) (l : list schedule_tuple) (d : odict string meta) :
  Forall2 (entry_at T) l d -> od_keys d = map freq_of l.
Proof.
  induction 1 as [|tup e l d [He _] _ IH]; simpl; [reflexivity|].
  rewrite He. f_equal. exact IH.
Qed.

(** The state after the first loop: one entry per schedule, in order;
    [all_due] lists the due ones in order; [last_schedule_due] is the last
    of them. *)
Lemma pass1_shape (T : datetime) (l : list schedule_tuple) :
  forall st,
    NoDup (map freq_of l) ->
    foldM (step T) l empty_pass1 = Ok st ->
    Forall2 (entry_at T) l (sched st) /\
    all_due st = map fst (filter due_entry (sched st)) /\
    last_schedule_due st = last_opt (all_due st).
Proof.
  induction l as [|tup l IH] using rev_ind; intros st Hnd H.
  - simpl in H. injection H as <-. simpl. repeat split. constructor.
  - rewrite foldM_snoc in H. inv_bind H. rename a into st'.
    rewrite map_app in Hnd. simpl in Hnd.
    apply NoDup_remove in Hnd. rewrite app_nil_r in Hnd.
    destruct Hnd as [Hnd Hnew].
    destruct (IH st' Hnd Hbind) as (Hent & Hdue & Hlast).
    unfold evaluate_one in H. inv_bind H. rename a into m.
    injection H as <-. simpl.
    rewrite (od_set_new _ _ _ string_eqb_spec)
      by (rewrite (entries_keys _ _ _ Hent); exact Hnew).
    split; [|split].
    + apply Forall2_app; [exact Hent|]. constructor; [|constructor].
      split; [reflexivity | exact Hbind0].
    + rewrite filter_app, map_app. simpl. unfold due_entry at 2. simpl.
      destruct (is_due m); simpl; rewrite Hdue; [reflexivity|].
      rewrite app_nil_r. reflexivity.
    + destruct (is_due m) eqn:Edue.
      * rewrite last_opt_snoc. reflexivity.
      * exact Hlast.
Qed.

Lemma entries_lookup (T : datetime) (l : list schedule_tuple) (d : odict string meta)
      (tup : schedule_tuple) (m0 : meta) :
  NoDup (map freq_of l) -> Forall2 (entry_at T) l d ->
  In tup l -> meta_of T tup = Ok m0 ->
  od_get String.eqb d (freq_of tup) = Some m0.
Proof.
  intros Hnd Hent Hin Hm.
  destruct (Forall2_In_l _ _ _ _ Hent Hin) as ([s m] & He & Hfst & Hsnd).
  simpl in *. rewrite Hm in Hsnd. injection Hsnd as <-. subst s.
  apply (In_od_get _ _ _ string_eqb_spec); [|exact He].
  rewrite (entries_keys _ _ _ Hent). exact Hnd.
Qed.

Lemma map_subsume (last : string) (due : list string) (d : odict string meta) :
  map (subsume last due) d =
  map (fun e => (fst e, subsume_meta last due (fst e) (snd e))) d.
Proof.
  apply map_ext. intros [s m]. unfold subsume_meta, subsume. simpl.
  destruct (String.eqb s last); [reflexivity|]. destruct (is_due m); reflexivity.
Qed.

Lemma od_get_subsume (last : string) (due : list string) (d : odict string meta)
      (s : string) :
  od_get String.eqb (map (subsume last due) d) s =
  match od_get String.eqb d s with
  | Some m => Some (subsume_meta last due s m)
  | None => None
  end.
Proof. rewrite map_subsume. apply (od_get_map _ _ _ string_eqb_spec). Qed.

(** What [evaluate_schedules] returns, in terms of the first loop. *)
Lemma evaluate_schedules_lookup (T : datetime) (res : odict string meta) :
  NoDup (map freq_of (_schedules jc)) ->
  evaluate_schedules to_timedelta today jc T = Ok res ->
  forall tup m0,
    In tup (_schedules jc) -> meta_of T tup = Ok m0 ->
    exists m, od_get String.eqb res (freq_of tup) = Some m /\
              (m = m0 \/ exists last due, m = subsume_meta last due (freq_of tup) m0).
Proof.
  intros Hnd H tup m0 Hin Hm. unfold evaluate_schedules in H.
  inv_bind H. rename a into st.
  destruct (pass1_shape _ _ _ Hnd Hbind) as (Hent & _ & _).
  pose proof (entries_lookup _ _ _ _ _ Hnd Hent Hin Hm) as Hget.
  destruct (last_schedule_due st) as [last|].
  - destruct (get_payload_param _ _); injection H as <-.
    + rewrite od_get_subsume, Hget. eexists. split; [reflexivity|]. right. eauto.
    + eauto.
  - injection H as <-. eauto.
Qed.

(** [evaluate_schedules] returns for schedules that parse. *)
Lemma schedule_meta_returns (T : datetime) (tup : schedule_tuple) :
  schedule_ok to_timedelta tup -> exists m, meta_of T tup = Ok m.
Proof.
  destruct tup as [[[s rh] rm] bt]. intros [(d & Hd & Hnz) Hbt].
  simpl in Hd, Hbt. unfold schedule_meta, get_next_execution_date.
  assert (Hadj : forall t, exists r,
             adjust_to_schedule to_timedelta today t rh rm s = Ok r).
  { intros t. destruct rh as [h|] eqn:Eh, rm as [m|] eqn:Em.
    4: { exists t. reflexivity. }
    all: eexists; apply adjust_rounding;
      [exact Hd | exact Hnz | solve [left; discriminate | right; discriminate]]. }
  destruct (last_execution jc s) as [L|].
  - rewrite Hd. simpl. destruct (Hadj (L + d)) as (r & ->). simpl.
    destruct (negb (r =? L + d)); simpl.
    + destruct (r <=? T); [|eauto].
      destruct bt as [b|]; [|simpl; eauto].
      destruct (String.eqb b "checkpoint") eqn:E; [simpl; eauto|].
      destruct (Hbt b eq_refl E) as (db & ->). simpl. eauto.
    + destruct (L + d <=? T); [|eauto].
      destruct bt as [b|]; [|simpl; eauto].
      destruct (String.eqb b "checkpoint") eqn:E; [simpl; eauto|].
      destruct (Hbt b eq_refl E) as (db & ->). simpl. eauto.
  - simpl. destruct (Hadj T) as (r & ->). simpl.
    destruct (negb (r =? T)); simpl.
    + destruct (r <=? T); [|eauto].
      destruct bt as [b|]; [|simpl; eauto].
      destruct (String.eqb b "checkpoint") eqn:E; [simpl; eauto|].
      destruct (Hbt b eq_refl E) as (db & ->). simpl. eauto.
    + destruct (T <=? T); [|eauto].
      destruct bt as [b|]; [|simpl; eauto].
      destruct (String.eqb b "checkpoint") eqn:E; [simpl; eauto|].
      destruct (Hbt b eq_refl E) as (db & ->). simpl. eauto.
Qed.

Lemma evaluate_pass1_returns (T : datetime) (l : list schedule_tuple) :
  Forall (schedule_ok to_timedelta) l ->
  forall st0, exists st, foldM (step T) l st0 = Ok st.
Proof.
  induction 1 as [|tup l Hok _ IH]; intros st0; simpl.
  - eauto.
  - unfold evaluate_one at 1.
    destruct (schedule_meta_returns T tup Hok) as (m & ->). simpl. apply IH.
Qed.

Lemma evaluate_schedules_returns (T : datetime) :
  Forall (schedule_ok to_timedelta) (_schedules jc) ->
  exists res, evaluate_schedules to_timedelta today jc T = Ok res.
Proof.
  intros Hok. unfold evaluate_schedules, evaluate_pass1.
  destruct (evaluate_pass1_returns T _ Hok
              {| sched := []; last_schedule_due := None; all_due := [] |})
    as (st & ->).
  simpl. destruct (last_schedule_due st); [|eauto].
  destruct (get_payload_param _ _); eauto.
Qed.

Lemma schedule_meta_checkpoint (T : datetime) (s : string) (rh rm : option Z)
      (m0 : meta) :
  meta_of T (s, rh, rm, Some "checkpoint") = Ok m0 ->
  is_due m0 = true ->
  prev_checkpoint m0 = last_execution jc s /\
  start_date m0 =
    match last_execution jc s with
    | Some L => Some (L + MICROSECOND)
    | None => None
    end /\
  backtrack m0 = None.
Proof.
  unfold schedule_meta. intros H Hdue. inv_bind H. inv_bind H.
  destruct (negb (a0 =? a)); simpl in H.
  - destruct (a0 <=? T); simpl in H; injection H as <-; simpl in *;
      [auto | discriminate].
  - destruct (a <=? T); simpl in H; injection H as <-; simpl in *;
      [auto | discriminate].
Qed.

Lemma sql_max_ge (l : list datetime) (L x : datetime) :
  JobLog.sql_max l = Some L -> In x l -> x <= L.
Proof.
  revert L. induction l as [|y l IH]; simpl; intros L H Hin; [contradiction|].
  destruct (JobLog.sql_max l) as [m|] eqn:E.
  - injection H as <-. destruct Hin as [->|Hin]; [lia|].
    specialize (IH m eq_refl Hin). lia.
  - injection H as <-. destruct Hin as [->|Hin]; [lia|].
    destruct l; [contradiction|]. simpl in E.
    destruct (JobLog.sql_max l); discriminate.
Qed.

Lemma sql_max_In (l : list datetime) (x : datetime) :
  In x l -> exists L, JobLog.sql_max l = Some L.
Proof.
  destruct l as [|y l]; simpl; [contradiction|]. intros _.
  destruct (JobLog.sql_max l); eauto.
Qed.

(** C8.  Checkpoint start date: for every schedule due at the evaluation
    time whose backtrack is the literal "checkpoint", the metadata
    returned by [evaluate_schedules] has [prev_checkpoint] equal to the
    job log's last execution time [L], [start_date = L + 1us] ([None]
    when the log has no execution), and [backtrack = None]; the start
    date is strictly after every completion the job log records for the
    schedule.  The frequencies of the schedule list are distinct, as they
    are in every list that [build_schedules_list] returns
    ([build_schedules_list_NoDup]). *)
Theorem checkpoint_start_date
    (T : datetime) (res : odict string meta)
    (s : string) (rh rm : option Z) (m0 : meta) :
  NoDup (map freq_of (_schedules jc)) ->
  evaluate_schedules to_timedelta today jc T = Ok res ->
  In (s, rh, rm, Some "checkpoint") (_schedules jc) ->
  meta_of T (s, rh, rm, Some "checkpoint") = Ok m0 ->
  is_due m0 = true ->
  exists m,
    od_get String.eqb res s = Some m /\
    prev_checkpoint m = last_execution jc s /\
    start_date m =
      match last_execution jc s with
      | Some L => Some (L + MICROSECOND)
      | None => None
      end /\
    backtrack m = None /\
    (forall L, last_execution jc s = Some L ->
               exists sd, start_date m = Some sd /\ L < sd) /\
    (forall r, In r (job_log jc) ->
               JobLog.matches (payload_class (the_payload jc)) (name jc) s r = true ->
               exists sd, start_date m = Some sd /\ JobLog.last_update r < sd).
Proof.
  intros Hnd Hres Hin Hm Hdue.
  destruct (schedule_meta_checkpoint _ _ _ _ _ Hm Hdue) as (Hprev & Hstart & Hbt).
  destruct (evaluate_schedules_lookup _ _ Hnd Hres _ _ Hin Hm) as (m & Hget & Hrel).
  assert (Hsame : prev_checkpoint m = prev_checkpoint m0 /\
                  start_date m = start_date m0 /\ backtrack m = backtrack m0).
  { destruct Hrel as [->|(last & due & ->)]; [auto|].
    unfold subsume_meta, subsume. simpl.
    destruct (String.eqb s last); [simpl; auto|].
    destruct (is_due m0); simpl; auto. }
  destruct Hsame as (E1 & E2 & E3).
  exists m. simpl in Hget. split; [exact Hget|].
  rewrite E1, E2, E3, Hprev, Hstart, Hbt.
  repeat split; auto.
  - intros L HL. rewrite HL. eexists. split; [reflexivity|].
    unfold MICROSECOND. lia.
  - intros r Hr Hmatch.
    assert (Hinl : In (JobLog.last_update r)
                      (map JobLog.last_update
                         (filter (JobLog.matches (payload_class (the_payload jc))
                                                 (name jc) s) (job_log jc)))).
    { apply in_map. apply filter_In. auto. }
    destruct (sql_max_In _ _ Hinl) as (L & HL).
    unfold last_execution, JobLog.get_last_execution_date. rewrite HL.
    eexists. split; [reflexivity|].
    pose proof (sql_max_ge _ _ _ HL Hinl). unfold MICROSECOND. lia.
Qed.

Lemma subsume_meta_last (last : string) (due : list string) (m : meta) :
  subsume_meta last due last m = set_mark_complete m due.
Proof. unfold subsume_meta, subsume. rewrite String.eqb_refl. reflexivity. Qed.

Lemma subsume_meta_other (last : string) (due : list string) (s : string) (m : meta) :
  s <> last ->
  subsume_meta last due s m = if is_due m then set_due_subsumed m else m.
Proof.
  intros Hne. unfold subsume_meta, subsume.
  rewrite (proj2 (String.eqb_neq s last) Hne). destruct (is_due m); reflexivity.
Qed.

Lemma subsume_keys (last : string) (due : list string) (d : odict string meta) :
  od_keys (map (subsume last due) d) = od_keys d.
Proof.
  unfold od_keys. rewrite map_map. apply map_ext. intros [s m]. simpl.
  destruct (String.eqb s last); [reflexivity|]. destruct (is_due m); reflexivity.
Qed.

(** C1.  Progressive subsumption: for the schedule list built by
    [build_schedules_list], when the payload's [is_schedule_progressive]
    flag is true (or absent) and the first loop of [evaluate_schedules]
    finds at least one due schedule, [evaluate_schedules] returns metadata
    with one entry per schedule in which exactly one schedule has
    [is_due = true]: the last due schedule [L] in ascending order of
    duration, of longer period than every other due schedule; its
    [mark_complete] is the list of all originally due schedules; and every
    other originally due schedule ends with [is_due = false] and
    [is_subsumed = true]. *)
Theorem progressive_subsumption
    (default : schedule_tuple)
    (dict : odict string (option Z * option Z * option string))
    (T : datetime) (st : pass1) :
  build_schedules_list to_timedelta default dict = Ok (_schedules jc) ->
  get_payload_param (is_schedule_progressive (the_payload jc))
                    default_is_schedule_progressive = true ->
  evaluate_pass1 to_timedelta today jc T = Ok st ->
  all_due st <> [] ->
  exists (res : odict string meta) (L : string) (mL : meta)
         (front : list string),
    evaluate_schedules to_timedelta today jc T = Ok res /\
    od_keys res = map freq_of (_schedules jc) /\
    (forall s, In s (all_due st) <->
               exists m0, od_get String.eqb (sched st) s = Some m0 /\
                          is_due m0 = true) /\
    all_due st = front ++ [L] /\
    (forall s, In s front -> shorter to_timedelta s L) /\
    od_get String.eqb res L = Some mL /\
    is_due mL = true /\
    mark_complete mL = all_due st /\
    (forall s m, od_get String.eqb res s = Some m -> is_due m = true -> s = L) /\
    (forall s, In s (all_due st) -> s <> L ->
               exists m, od_get String.eqb res s = Some m /\
                         is_due m = false /\ is_subsumed m = true).
Proof.
  intros Hbuild Hprog Hpass Hsome.
  pose proof (build_schedules_list_sorted _ _ _ Hbuild) as Hsorted.
  pose proof (StronglySorted_shorter_NoDup _ Hsorted) as Hnd.
  destruct (pass1_shape _ _ _ Hnd Hpass) as (Hent & Hdue & Hlast).
  pose proof (entries_keys _ _ _ Hent) as Hkeys.
  assert (HndK : NoDup (od_keys (sched st))) by (rewrite Hkeys; exact Hnd).
  destruct (last_opt (all_due st)) as [L|] eqn:EL;
    [|apply last_opt_None in EL; contradiction].
  destruct (last_opt_Some _ _ EL) as (front & Hfront).
  assert (Hdue_iff : forall s, In s (all_due st) <->
             exists m0, od_get String.eqb (sched st) s = Some m0 /\
                        is_due m0 = true).
  { intros s. rewrite Hdue. rewrite in_map_iff. split.
    - intros ([s' m0] & <- & Hin). apply filter_In in Hin.
      destruct Hin as [Hin Hd]. exists m0. split; [|exact Hd].
      apply (In_od_get _ _ _ string_eqb_spec); assumption.
    - intros (m0 & Hget & Hd). exists (s, m0). split; [reflexivity|].
      apply filter_In. split; [|exact Hd].
      apply (od_get_In _ _ _ string_eqb_spec). exact Hget. }
  assert (HL : In L (all_due st)).
  { rewrite Hfront. apply in_or_app. right. left. reflexivity. }
  destruct (proj1 (Hdue_iff L) HL) as (mL0 & HgetL & HdueL).
  exists (map (subsume L (all_due st)) (sched st)), L,
         (subsume_meta L (all_due st) L mL0), front.
  split; [|split; [|split; [exact Hdue_iff|split; [exact Hfront|split]]]].
  - unfold evaluate_schedules.
    rewrite Hpass. simpl. rewrite Hlast, Hprog. reflexivity.
  - rewrite subsume_keys. exact Hkeys.
  - intros s Hs. apply (StronglySorted_snoc _ front L s); [|exact Hs].
    rewrite <- Hfront, Hdue. apply StronglySorted_map_filter.
    fold (od_keys (sched st)). rewrite Hkeys. exact Hsorted.
  - rewrite od_get_subsume, HgetL, subsume_meta_last.
    split; [reflexivity|]. split; [exact HdueL|]. split; [reflexivity|].
    split.
    + intros s m Hget Hd. rewrite od_get_subsume in Hget.
      destruct (od_get String.eqb (sched st) s) as [m0|]; [|discriminate].
      injection Hget as <-.
      destruct (String.eqb s L) eqn:E; [apply String.eqb_eq; exact E|].
      apply String.eqb_neq in E. rewrite (subsume_meta_other _ _ _ _ E) in Hd.
      destruct (is_due m0) eqn:E0; simpl in Hd; congruence.
    + intros s Hs Hne. destruct (proj1 (Hdue_iff s) Hs) as (m0 & Hget & Hd).
      rewrite od_get_subsume, Hget. eexists. split; [reflexivity|].
      rewrite (subsume_meta_other _ _ _ _ Hne), Hd. simpl. auto.
Qed.
End EvaluateFacts.

Section NameFacts.

Lemma mem_str_In (x : string) (l : list string) :
  mem_str x l = true <-> In x l.
Proof.
  unfold mem_str. rewrite existsb_exists. split.
  - intros (y & Hy & E). apply String.eqb_eq in E. subst. exact Hy.
  - intros H. exists x. split; [exact H | apply String.eqb_refl].
Qed.

Lemma mem_str_false (x : string) (l : list string) :
  mem_str x l = false <-> ~ In x l.
Proof.
  rewrite <- mem_str_In. destruct (mem_str x l); split; congruence.
Qed.

Lemma subset_str_incl (a b : list string) :
  subset_str a b = true <-> incl a b.
Proof.
  unfold subset_str, incl. rewrite forallb_forall.
  split; intros H x Hx; apply mem_str_In; auto.
Qed.

Lemma od_mem_In {V : Type} (d : odict string V) (k : string) :
  od_mem String.eqb d k = true <-> In k (od_keys d).
Proof.
  unfold od_mem. destruct (od_get String.eqb d k) eqn:E.
  - split; [|reflexivity]. intros _.
    apply (od_get_In _ _ _ string_eqb_spec) in E.
    change k with (fst (k, v)). apply in_map. exact E.
  - apply (od_get_None _ _ _ string_eqb_spec) in E. split; [discriminate | contradiction].
Qed.

Lemma od_set_keys_incl {V : Type} (d : odict string V) (k : string) (v : V) :
  incl (od_keys d) (od_keys (od_set String.eqb d k v)) /\
  In k (od_keys (od_set String.eqb d k v)).
Proof.
  rewrite od_keys_set. destruct (od_mem String.eqb d k) eqn:E.
  - split; [apply incl_refl | apply od_mem_In; exact E].
  - split; [apply incl_appl, incl_refl | apply in_or_app; right; left; reflexivity].
Qed.

Lemma od_set_keys_only {V : Type} (d : odict string V) (k : string) (v : V) (x : string) :
  In x (od_keys (od_set String.eqb d k v)) -> x = k \/ In x (od_keys d).
Proof.
  rewrite od_keys_set. destruct (od_mem String.eqb d k); [auto|].
  intros H. apply in_app_or in H. destruct H as [H|[H|[]]]; auto.
Qed.

End NameFacts.

Section FrameFacts.

Lemma nrows_pos_not_zero (d : DataFrame) :
  (0 < nrows d)%nat -> (nrows d =? 0)%nat = false.
Proof. intros H. apply Nat.eqb_neq. lia. Qed.

Lemma ensure_valid_index_rows (d : DataFrame) (p : plain) :
  (0 < nrows d)%nat -> ensure_valid_index d p = d.
Proof.
  intros H. unfold ensure_valid_index. destruct p as [| |[|x l]|]; try reflexivity.
  rewrite nrows_pos_not_zero by exact H. reflexivity.
Qed.

Lemma ensure_valid_index_labels (d : DataFrame) (p : plain) :
  labels (ensure_valid_index d p) = labels d.
Proof.
  unfold ensure_valid_index. destruct p as [| |[|x l]|]; try reflexivity.
  destruct (nrows d =? 0)%nat; [|reflexivity].
  unfold labels, od_keys. simpl. rewrite map_map. reflexivity.
Qed.

(** After [df[name] = p] the frame has the column and keeps its labels. *)
Lemma setitem_labels (d d' : DataFrame) (name : string) (p : plain) :
  setitem d name p = Ok d' ->
  incl (labels d) (labels d') /\ In name (labels d').
Proof.
  unfold setitem. intros H. inv_bind H. injection H as <-.
  unfold labels at 2 3. simpl.
  rewrite <- (ensure_valid_index_labels d p). apply od_set_keys_incl.
Qed.

Lemma setitem_labels_only (d d' : DataFrame) (name : string) (p : plain) (x : string) :
  setitem d name p = Ok d' -> In x (labels d') -> x = name \/ In x (labels d).
Proof.
  unfold setitem. intros H. inv_bind H. injection H as <-.
  unfold labels at 1. simpl. intros Hx.
  rewrite <- (ensure_valid_index_labels d p). apply od_set_keys_only in Hx. exact Hx.
Qed.

(** On a frame with rows, [df[name] = p] keeps the index and the other
    columns, and gives the column the cells of [p]. *)
Lemma setitem_rows (d d' : DataFrame) (name : string) (p : plain) :
  (0 < nrows d)%nat ->
  setitem d name p = Ok d' ->
  index d' = index d /\
  (exists cells, cells_of p (nrows d') = Ok cells /\ column d' name = Some cells) /\
  (forall other, other <> name -> column d' other = column d other).
Proof.
  intros Hrows. unfold setitem. rewrite ensure_valid_index_rows by exact Hrows.
  intros H. inv_bind H. injection H as <-. unfold column, nrows. simpl.
  split; [reflexivity|]. split.
  - exists a. split; [exact Hbind|]. apply (od_get_set_eq _ _ _ string_eqb_spec).
  - intros other Hne. apply (od_get_set_neq _ _ _ string_eqb_spec). congruence.
Qed.

Lemma setitem_not_empty (d d' : DataFrame) (name : string) (p : plain) :
  (0 < nrows d)%nat -> setitem d name p = Ok d' -> empty d' = false.
Proof.
  intros Hrows H. destruct (setitem_rows _ _ _ _ Hrows H) as (Hidx & _ & _).
  destruct (setitem_labels _ _ _ _ H) as (_ & Hin).
  unfold empty, nrows. rewrite Hidx. fold (nrows d).
  rewrite nrows_pos_not_zero by exact Hrows. simpl.
  unfold labels, od_keys in Hin. destruct (columns d'); [contradiction | reflexivity].
Qed.

End FrameFacts.

Import DataMerge.

Section AssignFacts.
Context {A : Type}.
Variable nm : A -> string.
Variable vl : A -> plain.

Local Abbreviation assign := (fun (acc : DataFrame) (x : A) => setitem acc (nm x) (vl x)).

Lemma fold_setitem_labels (l : list A) :
  forall d d', foldM assign l d = Ok d' ->
    incl (labels d) (labels d') /\ (forall x, In x l -> In (nm x) (labels d')).
Proof.
  induction l as [|x l IH]; simpl; intros d d' H.
  - injection H as <-. split; [apply incl_refl | contradiction].
  - inv_bind H. destruct (setitem_labels _ _ _ _ Hbind) as (Hincl & Hin).
    destruct (IH _ _ H) as (Hincl' & Hall). split.
    + eapply incl_tran; eassumption.
    + intros y [<-|Hy]; [apply Hincl', Hin | apply Hall, Hy].
Qed.

Lemma fold_setitem_index (l : list A) :
  forall d d', (0 < nrows d)%nat -> foldM assign l d = Ok d' ->
    index d' = index d.
Proof.
  induction l as [|x l IH]; simpl; intros d d' Hrows H.
  - injection H as <-. reflexivity.
  - inv_bind H. destruct (setitem_rows _ _ _ _ Hrows Hbind) as (Hidx & _ & _).
    rewrite (IH _ _ ltac:(unfold nrows; rewrite Hidx; exact Hrows) H). exact Hidx.
Qed.

Lemma fold_setitem_other (l : list A) (k : string) :
  forall d d', (0 < nrows d)%nat -> ~ In k (map nm l) ->
    foldM assign l d = Ok d' -> column d' k = column d k.
Proof.
  induction l as [|x l IH]; simpl; intros d d' Hrows Hk H.
  - injection H as <-. reflexivity.
  - inv_bind H. destruct (setitem_rows _ _ _ _ Hrows Hbind) as (Hidx & _ & Hother).
    rewrite (IH a d'); [apply Hother| | |exact H].
    + intros ->. apply Hk. left. reflexivity.
    + unfold nrows. rewrite Hidx. exact Hrows.
    + intros Hin. apply Hk. right. exact Hin.
Qed.

(** After a run of assignments with distinct names on a frame with rows,
    each named column holds the cells of its value. *)
Lemma fold_setitem_columns (l : list A) :
  forall d d', (0 < nrows d)%nat -> NoDup (map nm l) ->
    foldM assign l d = Ok d' ->
    forall x, In x l ->
      exists cells, cells_of (vl x) (nrows d') = Ok cells /\
                    column d' (nm x) = Some cells.
Proof.
  induction l as [|x l IH]; simpl; intros d d' Hrows Hnd H y Hy; [contradiction|].
  inv_bind H. inversion Hnd as [|? ? Hnotin Hnd']; subst.
  destruct (setitem_rows _ _ _ _ Hrows Hbind) as (Hidx & (cells & Hcells & Hcol) & _).
  assert (Hrows' : (0 < nrows a)%nat) by (unfold nrows; rewrite Hidx; exact Hrows).
  destruct Hy as [<-|Hy].
  - exists cells. split.
    + unfold nrows. rewrite (fold_setitem_index _ _ _ Hrows' H). exact Hcells.
    + rewrite (fold_setitem_other _ _ _ _ Hrows' Hnotin H). exact Hcol.
  - apply (IH a d' Hrows' Hnd' H y Hy).
Qed.

Lemma fold_setitem_not_empty (l : list A) (d d' : DataFrame) :
  empty d = false -> foldM assign l d = Ok d' -> empty d' = false.
Proof.
  intros He H. unfold empty in *. apply orb_false_iff in He. destruct He as [Hr Hc].
  apply Nat.eqb_neq in Hr. apply Nat.eqb_neq in Hc.
  assert (Hrows : (0 < nrows d)%nat) by lia.
  unfold nrows at 1. rewrite (fold_setitem_index _ _ _ Hrows H). fold (nrows d).
  rewrite nrows_pos_not_zero by exact Hrows. simpl.
  destruct (fold_setitem_labels _ _ _ H) as (Hincl & _).
  apply Nat.eqb_neq. unfold labels, od_keys in Hincl.
  destruct (columns d) as [|c cs]; [simpl in Hc; lia|].
  destruct (columns d'); [|simpl; lia].
  exfalso. apply (Hincl (fst c)). left. reflexivity.
Qed.

End AssignFacts.

Section StringFacts.

Lemma append_length (a b : string) :
  String.length (String.append a b) = (String.length a + String.length b)%nat.
Proof. induction a as [|c a IH]; simpl; [reflexivity | rewrite IH; reflexivity]. Qed.

Lemma exists_shortest (l : list string) :
  l <> [] ->
  exists m, In m l /\ forall x, In x l -> (String.length m <= String.length x)%nat.
Proof.
  induction l as [|y l IH]; [congruence|]. intros _.
  destruct l as [|z l].
  - exists y. split; [left; reflexivity|]. intros x [<-|[]]. lia.
  - destruct (IH ltac:(discriminate)) as (m & Hm & Hmin).
    destruct (le_lt_dec (String.length y) (String.length m)) as [Hle|Hlt].
    + exists y. split; [left; reflexivity|].
      intros x [<-|Hx]; [lia|]. specialize (Hmin x Hx). lia.
    + exists m. split; [right; exact Hm|].
      intros x [<-|Hx]; [lia | apply Hmin, Hx].
Qed.

Lemma In_combine_seq {A : Type} (l : list A) (x : A) :
  forall a, In x l -> exists i, In (i, x) (combine (seq a (List.length l)) l).
Proof.
  induction l as [|y l IH]; simpl; intros a H; [contradiction|].
  destruct H as [<-|H].
  - exists a. left. reflexivity.
  - destruct (IH (S a) H) as (i & Hi). exists i. right. exact Hi.
Qed.

Lemma map_fst_filter {K V : Type} (f : K -> bool) (l : list (K * V)) :
  map fst (filter (fun c => f (fst c)) l) = filter f (map fst l).
Proof.
  induction l as [|[k v] l IH]; simpl; [reflexivity|].
  destruct (f k); simpl; rewrite IH; reflexivity.
Qed.

Lemma map_snd_combine_seq {A : Type} (l : list A) :
  forall a, map snd (combine (seq a (List.length l)) l) = l.
Proof.
  induction l as [|y l IH]; simpl; intros a; [reflexivity|]. rewrite IH. reflexivity.
Qed.

End StringFacts.

Section CoalesceFacts.

Lemma select_labels (d : DataFrame) (keep : string -> bool) :
  labels (select d keep) = filter keep (labels d).
Proof.
  unfold labels, od_keys, select. simpl.
  induction (columns d) as [|[k v] cs IH]; simpl; [reflexivity|].
  destruct (keep k); simpl; rewrite IH; reflexivity.
Qed.

Lemma column_Some_label (d : DataFrame) (o : string) (cells : list scalar) :
  column d o = Some cells -> In o (labels d).
Proof.
  unfold column, labels. intros H.
  apply (od_get_In _ _ _ string_eqb_spec) in H.
  change o with (fst (o, cells)). apply in_map. exact H.
Qed.

Lemma coalesce_step_inv (sfx : string) (d : DataFrame) (alt : list string) (o : string)
      (d1 : DataFrame) (alt1 : list string) :
  coalesce_step sfx (d, alt) o = (d1, alt1) ->
  index d1 = index d /\ labels d1 = labels d /\
  (forall a, In a alt1 ->
     In a alt \/ exists o', In o' (labels d) /\ a = String.append o' sfx).
Proof.
  unfold coalesce_step.
  destruct (column d o) as [cells|] eqn:Eo;
    [destruct (column d (String.append o sfx)) as [dropcells|] eqn:Ed|];
    intros [= <- <-]; try (repeat split; auto; fail).
  split; [reflexivity|]. split.
  - unfold labels. simpl. rewrite od_keys_set.
    assert (Hmem : od_mem String.eqb (columns d) o = true).
    { unfold od_mem. unfold column in Eo. rewrite Eo. reflexivity. }
    rewrite Hmem. reflexivity.
  - intros a Ha. apply in_app_or in Ha. destruct Ha as [Ha|[<-|[]]]; [auto|].
    right. exists o. split; [|reflexivity].
    apply (column_Some_label _ _ _ Eo).
Qed.

Lemma coalesce_fold_inv (sfx : string) (ls : list string) :
  forall d alt d1 alt1,
    fold_left (coalesce_step sfx) ls (d, alt) = (d1, alt1) ->
    index d1 = index d /\ labels d1 = labels d /\
    (forall a, In a alt1 ->
       In a alt \/ exists o', In o' (labels d) /\ a = String.append o' sfx).
Proof.
  induction ls as [|o ls IH]; intros d alt d1 alt1 H; cbn [fold_left] in H.
  - injection H as <- <-. auto.
  - destruct (coalesce_step sfx (d, alt) o) as [d2 alt2] eqn:E.
    apply coalesce_step_inv in E. destruct E as (Hi & Hl & Ha).
    destruct (IH _ _ _ _ H) as (Hi' & Hl' & Ha').
    split; [congruence|]. split; [congruence|].
    intros a Hin. destruct (Ha' a Hin) as [Hin2|(o' & Ho' & ->)].
    + apply Ha, Hin2.
    + right. exists o'. split; [rewrite <- Hl; exact Ho' | reflexivity].
Qed.

Lemma coalesce_cols_index (d : DataFrame) (sfx : string) :
  index (coalesce_cols d sfx) = index d.
Proof.
  unfold coalesce_cols.
  destruct (fold_left (coalesce_step sfx) (labels d) (d, [])) as [d1 alt1] eqn:E.
  apply coalesce_fold_inv in E. destruct E as (Hi & _ & _).
  destruct (0 <? List.length alt1)%nat; simpl; exact Hi.
Qed.

(** A label of [d] that is not another label followed by the suffix stays
    after [coalesce_cols]. *)
Lemma coalesce_cols_keeps (d : DataFrame) (sfx : string) (c : string) :
  In c (labels d) ->
  (forall o, In o (labels d) -> c <> String.append o sfx) ->
  In c (labels (coalesce_cols d sfx)).
Proof.
  intros Hc Hno. unfold coalesce_cols.
  destruct (fold_left (coalesce_step sfx) (labels d) (d, [])) as [d1 alt1] eqn:E.
  apply coalesce_fold_inv in E. destruct E as (_ & Hl & Ha).
  destruct (0 <? List.length alt1)%nat; [|rewrite Hl; exact Hc].
  rewrite select_labels, Hl. apply filter_In. split; [exact Hc|].
  apply negb_true_iff. apply mem_str_false. intros Hin.
  destruct (Ha c Hin) as [[]|(o & Ho & Heq)]. apply (Hno o Ho Heq).
Qed.

Lemma coalesce_cols_not_empty (d : DataFrame) (sfx : string) :
  (0 < String.length sfx)%nat ->
  empty d = false -> empty (coalesce_cols d sfx) = false.
Proof.
  intros Hsfx He. unfold empty in *. apply orb_false_iff in He.
  destruct He as [Hr Hc]. apply orb_false_iff. split.
  - unfold nrows. rewrite coalesce_cols_index. exact Hr.
  - apply Nat.eqb_neq in Hc. apply Nat.eqb_neq.
    assert (Hne : labels d <> []).
    { unfold labels, od_keys. destruct (columns d); [simpl in Hc; lia | discriminate]. }
    destruct (exists_shortest _ Hne) as (m & Hm & Hmin).
    assert (Hin : In m (labels (coalesce_cols d sfx))).
    { apply coalesce_cols_keeps; [exact Hm|]. intros o Ho Heq.
      specialize (Hmin o Ho). rewrite Heq, append_length in Hmin. lia. }
    unfold labels, od_keys in Hin.
    destruct (columns (coalesce_cols d sfx)); [contradiction | simpl; lia].
Qed.

End CoalesceFacts.

Section IndexFacts.

Lemma range_index_length (n : nat) : List.length (range_index n) = n.
Proof. unfold range_index. rewrite length_map, length_seq. reflexivity. Qed.

Lemma reset_index_inv (d r : DataFrame) :
  reset_index d = Ok r ->
  nrows r = nrows d /\
  labels r = reset_names d ++ labels d /\
  (forall n, In n (reset_names d) -> ~ In n (labels d)).
Proof.
  unfold reset_index.
  destruct (existsb (fun n => mem_str n (labels d)) (reset_names d)) eqn:Ex;
    [simpl; discriminate|].
  destruct (has_dup (reset_names d)); [simpl; discriminate|]. simpl.
  intros [= <-]. split; [|split].
  - unfold nrows. simpl. apply range_index_length.
  - unfold labels at 1, od_keys. simpl. rewrite map_app, map_map. simpl.
    rewrite map_snd_combine_seq. reflexivity.
  - intros n Hn Hin.
    assert (Ht : existsb (fun n => mem_str n (labels d)) (reset_names d) = true).
    { apply existsb_exists. exists n. split; [exact Hn | apply mem_str_In; exact Hin]. }
    congruence.
Qed.

Lemma get_index_names_reset (d : DataFrame) (n : string) :
  In n (get_index_names d) -> In n (reset_names d).
Proof.
  unfold get_index_names, reset_names, index_name, index_names, is_multi.
  destruct (ikind d) as [[s|]|ns]; simpl.
  - intros [<-|[]]. left. reflexivity.
  - intros [].
  - intros H. apply in_flat_map in H. destruct H as ([s|] & Hs & Hin); [|contradiction].
    destruct Hin as [<-|[]].
    destruct (In_combine_seq ns (Some s) 0 Hs) as (i & Hi).
    apply in_map_iff. exists (i, Some s). split; [reflexivity | exact Hi].
Qed.

Lemma set_index_inv (m m2 : DataFrame) (keys : list string) :
  set_index m keys = Ok m2 ->
  nrows m2 = nrows m /\
  labels m2 = filter (fun c => negb (mem_str c keys)) (labels m).
Proof.
  unfold set_index. destruct keys as [|k keys]; [discriminate|].
  destruct (negb (forallb (fun k0 => mem_str k0 (labels m)) (k :: keys)));
    [discriminate|].
  intros [= <-]. split.
  - unfold nrows at 1. simpl. rewrite length_map, length_seq. reflexivity.
  - unfold labels, od_keys. cbn [columns].
    apply (map_fst_filter (fun c => negb (mem_str c (k :: keys)))).
Qed.

End IndexFacts.

Section MergeFacts.
Context {J : Joins}.

Lemma not_empty_intro (d : DataFrame) (c : string) :
  (0 < nrows d)%nat -> In c (labels d) -> empty d = false.
Proof.
  intros Hr Hc. unfold empty. rewrite nrows_pos_not_zero by exact Hr. simpl.
  unfold labels, od_keys in Hc. destruct (columns d); [contradiction | reflexivity].
Qed.

Lemma not_empty_elim (d : DataFrame) :
  empty d = false -> (0 < nrows d)%nat /\ exists c, In c (labels d).
Proof.
  unfold empty. intros H. apply orb_false_iff in H. destruct H as [Hr Hc].
  apply Nat.eqb_neq in Hr. apply Nat.eqb_neq in Hc. split; [lia|].
  unfold labels, od_keys. destruct (columns d) as [|[k v] cs]; [simpl in Hc; lia|].
  exists k. left. reflexivity.
Qed.

Lemma choose_strategy_inv (self : t) (d : DataFrame) (cols : list string)
      (force : bool) (s : strategy) :
  choose_strategy self d cols force = Ok (Some s) ->
  match s with
  | Skip => True
  | Replace => empty d = false
  | Slice | Outer | Lookup => empty d = false /\ empty (df self) = false
  end.
Proof.
  unfold choose_strategy.
  destruct (empty d); [intros [= <-]; exact I|].
  destruct (empty (df self)); [intros [= <-]; reflexivity|].
  destruct (index_equals d (df self)).
  { destruct (subset_str cols (labels (df self)) && negb force);
      intros [= <-]; [exact I | auto]. }
  destruct (list_str_eqb (get_index_names d) (get_index_names (df self)));
    [intros [= <-]; auto|].
  destruct (List.length (get_index_names d) =? 1)%nat; [|discriminate].
  destruct (negb (subset_str (get_index_names d)
                             (get_index_names (df self) ++ labels (df self))));
    [discriminate|].
  intros [= <-]. auto.
Qed.

Lemma apply_constants_inv (c : odict string plain) (d : DataFrame) (self' : t) :
  apply_constants {| df := d; constants := c |} = Ok self' ->
  apply_constants_to c d = Ok (df self') /\ constants self' = c.
Proof.
  unfold apply_constants. simpl. intros H. inv_bind H. injection H as <-.
  simpl. auto.
Qed.

Lemma apply_constants_not_empty (c : odict string plain) (d : DataFrame) (self' : t) :
  empty d = false ->
  apply_constants {| df := d; constants := c |} = Ok self' ->
  empty (df self') = false.
Proof.
  intros He H. apply apply_constants_inv in H. destruct H as [H _].
  unfold apply_constants_to in H.
  apply (fold_setitem_not_empty fst snd _ _ _ He H).
Qed.

Lemma r_suffix_length : (0 < String.length r_suffix)%nat.
Proof. unfold r_suffix. simpl. lia. Qed.

(** Whatever the strategy, a merge leaves a frame that is not empty or has
    every promised column. *)
Lemma carry_out_post (self : t) (d : DataFrame) (cols : list string)
      (s : strategy) (self' : t) :
  match s with
  | Skip => True
  | Replace => empty d = false
  | Slice | Outer | Lookup => empty d = false /\ empty (df self) = false
  end ->
  carry_out self d cols (Some s) = Ok self' ->
  empty (df self') = false \/ incl cols (labels (df self')).
Proof.
  intros Hpre H. destruct s; simpl in H.
  - (* skip *)
    right. inv_bind H. injection H as <-. simpl.
    destruct (fold_setitem_labels (fun c : string => c) (fun _ => PNone) _ _ _ Hbind)
      as (Hincl & Hall).
    intros c Hc. destruct (mem_str c (labels (df self))) eqn:E.
    + apply Hincl. apply mem_str_In. exact E.
    + apply Hall. apply filter_In. split; [exact Hc|]. rewrite E. reflexivity.
  - (* replace *)
    left. apply (apply_constants_not_empty _ _ _ Hpre H).
  - (* slice *)
    left. destruct Hpre as [_ Hself]. inv_bind H. injection H as <-. simpl.
    apply (fold_setitem_not_empty fst (fun c => PList (snd c)) _ _ _ Hself Hbind).
  - (* outer *)
    left. destruct Hpre as [_ Hself]. inv_bind H.
    destruct (not_empty_elim _ Hself) as (Hrows & c & Hc).
    apply (apply_constants_not_empty _ _ _) in H; [exact H|].
    apply coalesce_cols_not_empty; [exact r_suffix_length|].
    apply (not_empty_intro _ c).
    + pose proof (merge_outer_rows _ _ _ Hbind). lia.
    + apply (merge_outer_labels _ _ _ Hbind). exact Hc.
  - (* lookup *)
    left. destruct Hpre as [_ Hself]. inv_bind H. inv_bind H. inv_bind H.
    injection H as <-. simpl.
    destruct (not_empty_elim _ Hself) as (Hrows & c & Hc).
    destruct (reset_index_inv _ _ Hbind) as (Hr1 & Hl1 & Hfresh).
    destruct (set_index_inv _ _ _ Hbind1) as (Hr2 & Hl2).
    apply coalesce_cols_not_empty; [exact r_suffix_length|].
    apply (not_empty_intro _ c).
    + rewrite Hr2. pose proof (merge_left_rows _ _ _ _ Hbind0). lia.
    + rewrite Hl2. apply filter_In. split.
      * apply (merge_left_labels _ _ _ _ Hbind0). rewrite Hl1.
        apply in_or_app. right. exact Hc.
      * apply negb_true_iff. apply mem_str_false. intros Hkey.
        apply (Hfresh c); [|exact Hc]. apply get_index_names_reset. exact Hkey.
Qed.

Lemma merge_dataframe_post (self : t) (obj : DataFrame + Series)
      (cols : list string) (force : bool) (self' : t) :
  merge_dataframe self obj cols force = Ok self' ->
  empty (df self') = false \/ incl cols (labels (df self')).
Proof.
  unfold merge_dataframe. intros H. inv_bind H. inv_bind H.
  destruct a0 as [s|].
  - apply (carry_out_post self a cols s); [|exact H].
    apply (choose_strategy_inv _ _ _ _ _ Hbind0).
  - simpl in H. destruct (List.length (get_index_names a) =? 0)%nat; discriminate.
Qed.

Lemma merge_non_dataframe_post (self : t) (obj : plain) (cols : list string)
      (self' : t) :
  merge_non_dataframe self obj cols = Ok self' -> incl cols (labels (df self')).
Proof.
  unfold merge_non_dataframe. destruct cols as [|c [|c' cols]]; try discriminate.
  intros H. assert (Hc : In c (labels (df self'))).
  { destruct (empty (df self)).
    - unfold add_constant in H. inv_bind H. injection H as <-. simpl.
      apply (setitem_labels _ _ _ _ Hbind).
    - destruct (setitem (df self) c obj) as [d|e] eqn:E.
      + injection H as <-. simpl. apply (setitem_labels _ _ _ _ E).
      + destruct (kind e); discriminate. }
  intros x [<-|[]]. exact Hc.
Qed.

Lemma merge_phase_post (self : t) (obj : pyobj) (cols : list string)
      (force : bool) (self' : t) :
  merge_phase self obj cols force = Ok self' ->
  empty (df self') = false \/ incl cols (labels (df self')).
Proof.
  unfold merge_phase. destruct obj as [p| |d|s].
  - destruct ((1 <? List.length cols)%nat
              && negb match p with PNone => true | _ => false end).
    + intros H. inv_bind H. apply (merge_dataframe_post _ _ _ _ _ H).
    + intros H. right. apply (merge_non_dataframe_post _ _ _ _ H).
  - discriminate.
  - apply merge_dataframe_post.
  - apply merge_dataframe_post.
Qed.

(** C3.  Merge postcondition: when [DataMerge.execute] returns, every name
    of [col_names] is a column or an index name of the resulting frame;
    and when the merge itself succeeds but leaves out a promised name, the
    call fails with the [ValueError] of the postcondition.  This holds for
    the strategies skip, replace, slice, outer and lookup and for an object
    that is not a frame. *)
Theorem merge_postcondition
    (self : t) (obj : pyobj) (col_names : list string) (force_overwrite : bool) :
  (forall self',
     execute self obj col_names force_overwrite = Ok self' ->
     incl col_names (get_cols (df self'))) /\
  (forall merged,
     merge_phase self obj col_names force_overwrite = Ok merged ->
     ~ incl col_names (get_cols (df merged)) ->
     execute self obj col_names force_overwrite =
     Err (Raise ValueError postcondition_message)).
Proof.
  assert (Hlabels : forall d, incl col_names (labels d) ->
                              incl col_names (get_cols d)).
  { intros d H x Hx. unfold get_cols. apply in_or_app. right. apply H, Hx. }
  split.
  - intros self' H. unfold execute in H. inv_bind H.
    destruct (empty (df a)) eqn:Ee; simpl in H.
    + injection H as <-.
      destruct (merge_phase_post _ _ _ _ _ Hbind) as [Hne|Hin];
        [congruence | apply Hlabels, Hin].
    + destruct (subset_str col_names (get_cols (df a))) eqn:Es; simpl in H;
        [|discriminate].
      injection H as <-. apply subset_str_incl. exact Es.
  - intros merged Hm Hmissing. unfold execute. rewrite Hm. simpl.
    destruct (merge_phase_post _ _ _ _ _ Hm) as [Hne|Hin];
      [|exfalso; apply Hmissing, Hlabels, Hin].
    rewrite Hne. simpl.
    destruct (subset_str col_names (get_cols (df merged))) eqn:Es; [|reflexivity].
    exfalso. apply Hmissing. apply subset_str_incl. exact Es.
Qed.

(** C4.  Outer merge preserves constants: when [merge_dataframe] selects the
    outer strategy and completes, the constants are unchanged and, for
    every pair [(k, v)] of the constants, column [k] of the frame holds in
    all rows (those the join introduced included) the cells that assigning
    [v] gives; for a scalar [v] that is [v] in every row.  The keys of the
    constants are distinct, as the keys of a dictionary are. *)
Theorem outer_merge_preserves_constants
    (self : t) (obj : DataFrame + Series) (col_names : list string)
    (force_overwrite : bool) (d : DataFrame) (self' : t) :
  NoDup (od_keys (constants self)) ->
  normalize obj col_names = Ok d ->
  choose_strategy self d col_names force_overwrite = Ok (Some Outer) ->
  merge_dataframe self obj col_names force_overwrite = Ok self' ->
  constants self' = constants self /\
  forall k v,
    od_get String.eqb (constants self) k = Some v ->
    exists cells,
      column (df self') k = Some cells /\
      cells_of v (nrows (df self')) = Ok cells /\
      (forall s, v = PScalar s -> cells = repeat s (nrows (df self'))).
Proof.
  intros Hnd Hnorm Hchoose H. unfold merge_dataframe in H.
  rewrite Hnorm in H. simpl in H. rewrite Hchoose in H. simpl in H.
  inv_bind H. rename a into m.
  destruct (choose_strategy_inv _ _ _ _ _ Hchoose) as [_ Hself].
  destruct (not_empty_elim _ Hself) as (Hrows & _).
  apply apply_constants_inv in H. destruct H as [Happly Hconst].
  split; [exact Hconst|]. intros k v Hget.
  assert (Hrows' : (0 < nrows (coalesce_cols m r_suffix))%nat).
  { unfold nrows. rewrite coalesce_cols_index. fold (nrows m).
    pose proof (merge_outer_rows _ _ _ Hbind). lia. }
  apply (od_get_In _ _ _ string_eqb_spec) in Hget.
  destruct (fold_setitem_columns fst snd _ _ _ Hrows' Hnd Happly (k, v) Hget)
    as (cells & Hcells & Hcol).
  exists cells. split; [exact Hcol|]. split; [exact Hcells|].
  intros s ->. simpl in Hcells. congruence.
Qed.

End MergeFacts.

Section RefJoinFacts.
Import RefJoin.

Lemma left_row_length (l r : DataFrame) (k_of : nat -> list scalar) (i : nat) :
  (1 <= List.length (left_row l r k_of i))%nat.
Proof.
  unfold left_row. destruct (matching r (k_of i)); simpl; lia.
Qed.

Lemma flat_map_length_ge {A B : Type} (f : A -> list B) (l : list A) :
  (forall x, 1 <= List.length (f x))%nat ->
  (List.length l <= List.length (flat_map f l))%nat.
Proof.
  intros Hf. induction l as [|x l IH]; simpl; [lia|].
  rewrite length_app. specialize (Hf x). lia.
Qed.

Lemma assemble_labels (kind : index_kind) (keys : list (list scalar))
      (l r : DataFrame) (sfx : string) (rows : list joined) :
  incl (labels l) (labels (assemble kind keys l r sfx rows)).
Proof.
  unfold labels at 2, od_keys, assemble. simpl.
  rewrite map_app, map_map. simpl. rewrite map_snd_combine_seq.
  apply incl_appl, incl_refl.
Qed.

Lemma ref_merge_outer_rows (l r : DataFrame) (sfx : string) (m : DataFrame) :
  RefJoin.merge_outer l r sfx = Ok m -> (nrows l <= nrows m)%nat.
Proof.
  unfold RefJoin.merge_outer. intros [= <-]. unfold nrows at 2. simpl.
  rewrite length_map, length_app.
  pose proof (flat_map_length_ge
                (left_row l r (fun i => nth i (index l) [])) (seq 0 (nrows l))
                (left_row_length l r _)) as H.
  rewrite length_seq in H. lia.
Qed.

Lemma ref_merge_outer_labels (l r : DataFrame) (sfx : string) (m : DataFrame) :
  RefJoin.merge_outer l r sfx = Ok m -> incl (labels l) (labels m).
Proof.
  unfold RefJoin.merge_outer. intros [= <-]. apply assemble_labels.
Qed.

Lemma ref_merge_left_rows (l r : DataFrame) (key : option string) (sfx : string)
      (m : DataFrame) :
  RefJoin.merge_left l r key sfx = Ok m -> (nrows l <= nrows m)%nat.
Proof.
  unfold RefJoin.merge_left. destruct key as [key|]; [|discriminate].
  destruct (column l key) as [vals|]; [|discriminate].
  intros [= <-]. unfold nrows at 2. simpl. rewrite range_index_length.
  pose proof (flat_map_length_ge
                (left_row l r (fun i => [nth i vals SNone])) (seq 0 (nrows l))
                (left_row_length l r _)) as H.
  rewrite length_seq in H. exact H.
Qed.

Lemma ref_merge_left_labels (l r : DataFrame) (key : option string) (sfx : string)
      (m : DataFrame) :
  RefJoin.merge_left l r key sfx = Ok m -> incl (labels l) (labels m).
Proof.
  unfold RefJoin.merge_left. destruct key as [key|]; [|discriminate].
  destruct (column l key) as [vals|]; [|discriminate].
  intros [= <-]. apply assemble_labels.
Qed.

End RefJoinFacts.

(** The reference joins satisfy what the merge relies on. *)
#[local] Instance ref_joins : Joins :=
{| Frames.merge_outer := RefJoin.merge_outer;
   Frames.merge_left := RefJoin.merge_left;
   merge_outer_rows := ref_merge_outer_rows;
   merge_outer_labels := ref_merge_outer_labels;
   merge_left_rows := ref_merge_left_rows;
   merge_left_labels := ref_merge_left_labels |}.

Section SelectionFacts.
Import Db2DataWriter WriterSpec.

Lemma active_col_selection (w : writer) (cp : col_props_t) (c : string) :
  active_col w cp c =
  match selection w c with
  | Some sel => od_set String.eqb cp c sel
  | None => cp
  end.
Proof.
  unfold active_col, selection.
  destruct (data_item_metadata w c) as [md|]; [|reflexivity].
  destruct (transient md) as [[| |[|]| | | |]|]; try reflexivity.
  destruct (sourceTableName md) as [t|]; [|reflexivity].
  destruct (columnType md) as [ty|]; [|reflexivity].
  destruct (known_type ty); reflexivity.
Qed.

Lemma active_cols_fold (w : writer) (ls : list string) :
  forall (cp : col_props_t) (c : string),
    od_get String.eqb (fold_left (active_col w) ls cp) c =
    if mem_str c ls
    then match selection w c with
         | Some sel => Some sel
         | None => od_get String.eqb cp c
         end
    else od_get String.eqb cp c.
Proof.
  induction ls as [|x ls IH]; intros cp c; simpl; [reflexivity|].
  rewrite IH, active_col_selection.
  destruct (String.eqb c x) eqn:E; simpl.
  - apply String.eqb_eq in E. subst x.
    destruct (selection w c) as [sel|] eqn:Es.
    + rewrite (od_get_set_eq _ _ _ string_eqb_spec).
      destruct (mem_str c ls); reflexivity.
    + destruct (mem_str c ls); reflexivity.
  - apply String.eqb_neq in E.
    destruct (selection w x) as [sel|]; [|reflexivity].
    rewrite (od_get_set_neq _ _ _ string_eqb_spec) by congruence. reflexivity.
Qed.

(** C6 (as amended).  Writer column selection: a frame column is left out
    of [col_props] exactly when its metadata is absent, or [transient] is
    not the boolean false (it is true, another value, or missing), or
    [sourceTableName] or [columnType] is missing; every other column is
    selected with its table and its type, a type that is not one of
    BOOLEAN, NUMBER, LITERAL, TIMESTAMP being replaced by LITERAL. *)
Theorem active_cols_selection (w : writer) (d : DataFrame) (c : string) :
  In c (labels d) ->
  (od_get String.eqb (_get_active_cols_properties w d) c = None <->
   (data_item_metadata w c = None \/
    exists md, data_item_metadata w c = Some md /\
               (transient md <> Some (SBool false) \/
                sourceTableName md = None \/ columnType md = None))) /\
  (forall md table_name ty,
     data_item_metadata w c = Some md ->
     transient md = Some (SBool false) ->
     sourceTableName md = Some table_name ->
     columnType md = Some ty ->
     od_get String.eqb (_get_active_cols_properties w d) c =
     Some (if known_type ty then ty else DATA_ITEM_TYPE_LITERAL, table_name)).
Proof.
  intros Hc. unfold _get_active_cols_properties.
  rewrite active_cols_fold. apply mem_str_In in Hc. rewrite Hc. simpl.
  unfold selection. split.
  - destruct (data_item_metadata w c) as [md|] eqn:Emd; [|split; auto].
    split.
    + intros H. right. exists md. split; [reflexivity|].
      destruct (transient md) as [[| |[|]| | | |]|]; try (left; discriminate).
      destruct (sourceTableName md); [|right; left; reflexivity].
      destruct (columnType md); [discriminate H | right; right; reflexivity].
    + intros [H|(md' & Hmd & H)]; [discriminate|]. injection Hmd as <-.
      destruct H as [H|[H|H]].
      * destruct (transient md) as [[| |[|]| | | |]|]; try reflexivity. congruence.
      * rewrite H. destruct (transient md) as [[| |[|]| | | |]|]; reflexivity.
      * rewrite H. destruct (transient md) as [[| |[|]| | | |]|];
          destruct (sourceTableName md); reflexivity.
  - intros md t ty Hmd Ht Htb Hty. rewrite Hmd, Ht, Htb, Hty. reflexivity.
Qed.

End SelectionFacts.

Section PersistFacts.
Import Db2DataWriter WriterSpec.
Context {R : PyRuntime}.

(** ** The fields of a row tuple *)






(** ** The rows of a cell *)
















End PersistFacts.

Section AggregationFacts.

Lemma format_input_arity (nm : string) :
  format input_arity_format [nm] = Err format_error.
Proof. reflexivity. Qed.

Lemma format_output_arity (nm : string) :
  format output_arity_format [nm] = Err format_error.
Proof. reflexivity. Qed.

Lemma collapse_simple_cases
      (acc : odict string (list agg_method) * list string * list string)
      (s : Stage.t) :
  (exists acc', collapse_simple acc s = Ok acc' /\
                exists i o, Stage._input_set s = [i] /\ Stage._output_list s = [o]) \/
  (collapse_simple acc s = Err format_error /\
   (List.length (Stage._input_set s) <> 1%nat \/
    List.length (Stage._output_list s) <> 1%nat)).
Proof.
  unfold collapse_simple. destruct acc as [[ad ins] outs].
  destruct (Stage._input_set s) as [|i [|i' irest]].
  - right. rewrite format_input_arity. simpl. split; [reflexivity | left; discriminate].
  - destruct (Stage._output_list s) as [|o [|o' orest]].
    + right. rewrite format_output_arity. simpl. split; [reflexivity | right; discriminate].
    + left. eexists. split; [reflexivity|]. eauto.
    + right. rewrite format_output_arity. simpl. split; [reflexivity | right; discriminate].
  - right. rewrite format_input_arity. simpl. split; [reflexivity | left; discriminate].
Qed.

(** A simple aggregator of the wrong arity makes the build fail, with the
    [TypeError] of the [%] that was to build the message. *)
Lemma collapse_simple_fold_error (stages : list Stage.t) :
  forall acc s,
    In s stages ->
    (List.length (Stage._input_set s) <> 1%nat \/
     List.length (Stage._output_list s) <> 1%nat) ->
    foldM collapse_simple stages acc = Err format_error.
Proof.
  induction stages as [|x stages IH]; intros acc s Hin Hbad; [contradiction|].
  simpl. destruct (collapse_simple_cases acc x)
    as [(acc' & Hok & i & o & Hi & Ho) | (Herr & _)].
  - rewrite Hok. simpl. destruct Hin as [->|Hin].
    + rewrite Hi, Ho in Hbad. simpl in Hbad. destruct Hbad; congruence.
    + apply (IH acc' s Hin Hbad).
  - rewrite Herr. reflexivity.
Qed.

Lemma collapse_bad_arity (jc : controller) (granularity : option string)
      (available_columns : option (list string)) (s : Stage.t) :
  In s (fst (get_stages jc "simple_aggregate" granularity available_columns [])) ->
  (List.length (Stage._input_set s) <> 1%nat \/
   List.length (Stage._output_list s) <> 1%nat) ->
  collapse_aggregation_stages jc granularity available_columns = Err format_error.
Proof.
  intros Hin Hbad. unfold collapse_aggregation_stages.
  destruct (get_stages jc "simple_aggregate" granularity available_columns [])
    as [stages cols]. simpl in Hin.
  rewrite (collapse_simple_fold_error stages _ s Hin Hbad). reflexivity.
Qed.

(** With every simple aggregator of one input and one output the build
    succeeds, and the aggregation dictionary has, under the input of each
    stage, the aggregation function of the stage. *)
Lemma collapse_simple_fold_ok (stages : list Stage.t) :
  forall acc,
    (forall s, In s stages ->
       exists i o, Stage._input_set s = [i] /\ Stage._output_list s = [o]) ->
    exists acc',
      foldM collapse_simple stages acc = Ok acc' /\
      (forall i l, od_get String.eqb (fst (fst acc)) i = Some l ->
         exists l', od_get String.eqb (fst (fst acc')) i = Some (l ++ l')) /\
      (forall s i, In s stages -> Stage._input_set s = [i] ->
         exists l, od_get String.eqb (fst (fst acc')) i = Some l /\
                   In (match Stage._agg_function s with
                       | Some f => AggFunction f
                       | None => AggExecute (Stage.id s)
                       end) l).
Proof.
  induction stages as [|x stages IH]; intros acc Hall.
  - exists acc. split; [reflexivity|]. split.
    + intros i l H. exists []. rewrite app_nil_r. exact H.
    + intros s i [].
  - destruct (Hall x (or_introl eq_refl)) as (ix & ox & Hix & Hox).
    destruct acc as [[ad ins] outs].
    set (m := match Stage._agg_function x with
              | Some f => AggFunction f
              | None => AggExecute (Stage.id x)
              end).
    set (ad1 := match od_get String.eqb ad ix with
                | Some l => od_set String.eqb ad ix (l ++ [m])
                | None => od_set String.eqb ad ix [m]
                end).
    assert (Hstep : collapse_simple (ad, ins, outs) x =
                    Ok (ad1, union_str ins [ix], outs ++ [ox])).
    { unfold collapse_simple. rewrite Hix, Hox. reflexivity. }
    destruct (IH (ad1, union_str ins [ix], outs ++ [ox])
                 (fun s Hs => Hall s (or_intror Hs)))
      as (acc' & Hfold & Hgrow & Hhas).
    exists acc'. cbn [foldM]. rewrite Hstep. cbn [Py.bind]. split; [exact Hfold|].
    assert (Hix1 : exists l, od_get String.eqb ad1 ix = Some l /\ In m l /\
                    forall l0, od_get String.eqb ad ix = Some l0 ->
                               exists l', l = l0 ++ l').
    { unfold ad1. destruct (od_get String.eqb ad ix) as [l0|] eqn:E.
      - exists (l0 ++ [m]). rewrite (od_get_set_eq _ _ _ string_eqb_spec).
        split; [reflexivity|]. split; [apply in_or_app; right; left; reflexivity|].
        intros l1 [= <-]. eauto.
      - exists [m]. rewrite (od_get_set_eq _ _ _ string_eqb_spec).
        split; [reflexivity|]. split; [left; reflexivity|]. discriminate. }
    assert (Hother : forall i, i <> ix ->
                       od_get String.eqb ad1 i = od_get String.eqb ad i).
    { intros i Hne. unfold ad1.
      destruct (od_get String.eqb ad ix);
        apply (od_get_set_neq _ _ _ string_eqb_spec); congruence. }
    split.
    + intros i l Hget. simpl in Hget, Hgrow.
      destruct (string_dec i ix) as [->|Hne].
      * destruct Hix1 as (l1 & Hl1 & _ & Hext).
        destruct (Hext l Hget) as (l' & ->).
        destruct (Hgrow ix _ Hl1) as (l'' & Hl'').
        exists (l' ++ l''). rewrite Hl'', app_assoc. reflexivity.
      * apply Hgrow. rewrite Hother by exact Hne. exact Hget.
    + intros s i [<-|Hs] Hi.
      * rewrite Hix in Hi. injection Hi as <-.
        destruct Hix1 as (l1 & Hl1 & Hm & _).
        destruct (Hgrow ix _ Hl1) as (l'' & Hl'').
        exists (l1 ++ l''). split; [exact Hl''|].
        apply in_or_app. left. exact Hm.
      * apply (Hhas s i Hs Hi).
Qed.

Lemma collapse_good_arity (jc : controller) (granularity : option string)
      (available_columns : option (list string)) :
  (forall s,
     In s (fst (get_stages jc "simple_aggregate" granularity available_columns [])) ->
     exists i o, Stage._input_set s = [i] /\ Stage._output_list s = [o]) ->
  exists c,
    collapse_aggregation_stages jc granularity available_columns = Ok c /\
    forall s i,
      In s (fst (get_stages jc "simple_aggregate" granularity available_columns [])) ->
      Stage._input_set s = [i] ->
      exists l, od_get String.eqb (agg_dict c) i = Some l /\
                In (match Stage._agg_function s with
                    | Some f => AggFunction f
                    | None => AggExecute (Stage.id s)
                    end) l.
Proof.
  intros Hall. unfold collapse_aggregation_stages.
  destruct (get_stages jc "simple_aggregate" granularity available_columns [])
    as [stages cols]. simpl in Hall |- *.
  destruct (collapse_simple_fold_ok stages ([], [], []) Hall)
    as ([[ad ins] outs] & Hfold & _ & Hhas).
  rewrite Hfold. simpl.
  destruct (get_stages jc "complex_aggregate" granularity available_columns [])
    as [cx cols'].
  destruct (fold_left _ cx (ins, outs)) as [ins' outs'].
  eexists. split; [reflexivity|]. simpl. exact Hhas.
Qed.

(** C9.  At a simple aggregator that declares two input items,
    [collapse_aggregation_stages] fails, but with the [TypeError] of the
    string formatting, "not enough arguments for format string", whose
    message does not name the stage, and not with the [ValueError] that was
    to name it. *)
Theorem collapse_two_inputs_error :
  collapse_aggregation_stages Examples.jc_agg (Some "daily") None =
  Err (Raise TypeError "not enough arguments for format string").
Proof. reflexivity. Qed.

End AggregationFacts.

Section StageFacts.
Context {J : Joins}.

(** [execute_stage] hands a returned [False] on as it is. *)
Lemma execute_stage_false (s : Stage.t) (d : DataFrame)
      (start_ts end_ts : option datetime) :
  Stage.execute s d (Some (start_ts, end_ts)) = Ok (OPlain (PScalar (SBool false))) ->
  execute_stage s d start_ts end_ts = Ok (OPlain (PScalar (SBool false))).
Proof. intros H. unfold execute_stage. rewrite H. reflexivity. Qed.

(** After a stage that returns [False], the loop of [execute_stages] merges
    the value under the column of the stage and goes on with the remaining
    stages. *)
Lemma run_stages_false_goes_on (s : Stage.t) (rest : list Stage.t)
      (merge : DataMerge.t) (start_ts end_ts : option datetime) (c : string) :
  Stage.execute s (DataMerge.df merge) (Some (start_ts, end_ts)) =
    Ok (OPlain (PScalar (SBool false))) ->
  Stage._allow_empty_df s = None ->
  Stage.get_output_list s = Some (Ok [c]) ->
  Stage.produces_output_items s = None ->
  Stage._discard_prior_on_merge s = None ->
  run_stages (s :: rest) merge start_ts end_ts =
  (merge' <- DataMerge.execute merge (OPlain (PScalar (SBool false))) [c] false ;;
   run_stages rest merge' start_ts end_ts).
Proof.
  intros Hex Hallow Hout Hprod Hdisc. simpl.
  rewrite Hallow, (execute_stage_false _ _ _ _ Hex), Hout, Hprod, Hdisc.
  reflexivity.
Qed.

End StageFacts.

(** C7.  A stage that returns [False] does not halt the chunk: run on a
    frame with one row, the stage [gate] returns [False] and the stage
    [seven] after it is still executed; the frame gets the columns of both
    and [can_proceed] is true. *)
Theorem false_result_does_not_halt :
  execute_stages [Examples.stage_false; Examples.stage_seven]
                 (Some Examples.frame_x) None None None =
  Ok ({| ikind := Multi [Some "id"; Some "ts"];
         index := [[SStr "A"; STime 0]];
         columns := [("x", [SInt 1]); ("flag", [SBool false]);
                     ("seven", [SInt 7])] |}, true).
Proof. vm_compute. reflexivity. Qed.

(* ===================================================================== *)
(** * More on rounding and on the schedule list *)
(* ===================================================================== *)

Section ScheduleListFacts.
Variable to_timedelta : string -> result timedelta.
Variable today : datetime.

Lemma round_from_lower (a t d : Z) : 0 < d -> t < round_from a t d + d.
Proof.
  intros Hd. unfold round_from.
  set (s := if a >? t then a - DAY else a).
  pose proof (Z.mod_pos_bound (t - s) d Hd) as Hmod.
  pose proof (Z.div_mod (t - s) d ltac:(lia)) as Hdm.
  nia.
Qed.

Lemma adjust_to_schedule_bounds
    (t : datetime) (rh rm : option Z) (interval : string) (d : timedelta)
    (r : datetime) :
  to_timedelta interval = Ok d -> 0 < d ->
  adjust_to_schedule to_timedelta today t rh rm interval = Ok r ->
  r <= t /\ t < r + d.
Proof.
  intros Hd Hpos H.
  assert (Hcase : (rh = None /\ rm = None) \/ (rh <> None \/ rm <> None)).
  { destruct rh, rm; solve [left; auto | right; left; discriminate
                           | right; right; discriminate]. }
  destruct Hcase as [[-> ->]|Hset].
  - simpl in H. injection H as <-. lia.
  - rewrite (adjust_rounding _ _ _ _ _ _ _ Hd ltac:(lia) Hset) in H.
    injection H as <-.
    split; [apply round_from_le; exact Hpos | apply round_from_lower; exact Hpos].
Qed.

(** X1.  The adjusted date is the latest date of the schedule that is not
    after the given date: with a positive interval, [adjust_to_schedule]
    returns a date [r] with [r <= execute_date < r + interval], and the
    given date itself when neither a start hour nor a start minute is set.
    *)
Theorem adjust_to_schedule_within_interval
    (t : datetime) (rh rm : option Z) (interval : string) (d : timedelta) :
  to_timedelta interval = Ok d -> 0 < d ->
  exists r,
    adjust_to_schedule to_timedelta today t rh rm interval = Ok r /\
    r <= t /\ t < r + d /\
    (rh = None -> rm = None -> r = t).
Proof.
  intros Hd Hpos.
  assert (Hret : exists r,
             adjust_to_schedule to_timedelta today t rh rm interval = Ok r).
  { destruct rh as [h|] eqn:Eh, rm as [m|] eqn:Em.
    4: { exists t. reflexivity. }
    all: eexists; apply adjust_rounding;
      [exact Hd | lia | solve [left; discriminate | right; discriminate]]. }
  destruct Hret as (r & Hr). exists r. split; [exact Hr|].
  destruct (adjust_to_schedule_bounds _ _ _ _ _ _ Hd Hpos Hr) as (Hle & Hlt).
  repeat split; auto.
  intros -> ->. simpl in Hr. injection Hr as <-. reflexivity.
Qed.

(** The dictionary [sort_dict] after the loop over the frequencies: the
    entry of a duration is the one it had, or a frequency of the list. *)
Lemma sort_dict_get (l : list string) :
  forall (sd0 sd : odict Z string) (d : Z),
    foldM (fun (sd : odict Z string) f =>
             d <- to_timedelta f ;; Ok (od_set Z.eqb sd d f)) l sd0 = Ok sd ->
    od_get Z.eqb sd d = od_get Z.eqb sd0 d \/
    exists f, In f l /\ od_get Z.eqb sd d = Some f.
Proof.
  induction l as [|f l IH]; simpl; intros sd0 sd d H.
  - injection H as <-. left. reflexivity.
  - inv_bind H. inv_bind Hbind. injection Hbind as <-. rename a0 into df.
    destruct (IH _ _ d H) as [Heq|(f' & Hin & Hget)].
    + destruct (Z.eq_dec df d) as [->|Hne].
      * right. exists f. split; [left; reflexivity|].
        rewrite Heq. apply (od_get_set_eq _ _ _ Z_eqb_spec).
      * left. rewrite Heq. apply (od_get_set_neq _ _ _ Z_eqb_spec). exact Hne.
    + right. exists f'. split; [right; exact Hin | exact Hget].
Qed.

(** Every frequency of the list has its duration among the keys. *)
Lemma sort_dict_covers (l : list string) :
  forall (sd0 sd : odict Z string),
    foldM (fun (sd : odict Z string) f =>
             d <- to_timedelta f ;; Ok (od_set Z.eqb sd d f)) l sd0 = Ok sd ->
    (forall d, In d (od_keys sd0) -> In d (od_keys sd)) /\
    (forall f, In f l -> exists d, to_timedelta f = Ok d /\ In d (od_keys sd)).
Proof.
  induction l as [|f l IH]; simpl; intros sd0 sd H.
  - injection H as <-. split; [auto | intros ? []].
  - inv_bind H. inv_bind Hbind. injection Hbind as <-. rename a0 into df.
    destruct (IH _ _ H) as (Hkeep & Hcov).
    assert (Hset : forall d, In d (df :: od_keys sd0) ->
                             In d (od_keys (od_set Z.eqb sd0 df f))).
    { intros d Hd. rewrite od_keys_set.
      destruct (od_mem Z.eqb sd0 df) eqn:E.
      - destruct Hd as [<-|Hd]; [|exact Hd].
        unfold od_mem in E.
        destruct (od_get Z.eqb sd0 df) eqn:G; [|discriminate].
        apply (od_get_In _ _ _ Z_eqb_spec) in G.
        apply (in_map fst) in G. exact G.
      - apply in_or_app. destruct Hd as [<-|Hd]; [right; left; reflexivity|].
        left. exact Hd. }
    split.
    + intros d Hd. apply Hkeep, Hset. right. exact Hd.
    + intros f' [<-|Hin]; [|apply Hcov; exact Hin].
      exists df. split; [exact Hbind0|]. apply Hkeep, Hset. left. reflexivity.
Qed.

Lemma schedule_keys_set (default : schedule_tuple)
      (dict : odict string (option Z * option Z * option string)) :
  schedule_keys default dict =
  od_keys (if od_mem String.eqb dict (freq_of default) then dict
           else od_set String.eqb dict (freq_of default)
                       (snd (fst (fst default)), snd (fst default), snd default)).
Proof.
  unfold schedule_keys. destruct (od_mem String.eqb dict (freq_of default)) eqn:E.
  - reflexivity.
  - rewrite od_keys_set, E. reflexivity.
Qed.

(** The parts of a successful [build_schedules_list]: the completed
    dictionary, [sort_dict] and the tuples read back from them. *)
Lemma build_schedules_list_inv (default : schedule_tuple)
      (dict : odict string (option Z * option Z * option string))
      (l : list schedule_tuple) :
  build_schedules_list to_timedelta default dict = Ok l ->
  exists (sd : odict Z string),
    foldM (fun (sd : odict Z string) f =>
             d <- to_timedelta f ;; Ok (od_set Z.eqb sd d f))
          (schedule_keys default dict) [] = Ok sd /\
    Forall2 (fun duration tup =>
               od_get Z.eqb sd duration = Some (freq_of tup) /\
               od_get String.eqb
                 (if od_mem String.eqb dict (freq_of default) then dict
                  else od_set String.eqb dict (freq_of default)
                         (snd (fst (fst default)), snd (fst default), snd default))
                 (freq_of tup)
               = Some (snd (fst (fst tup)), snd (fst tup), snd tup))
            (sort (od_keys sd)) l.
Proof.
  rewrite schedule_keys_set.
  unfold build_schedules_list. destruct default as [[[dfreq dh] dm] db].
  simpl freq_of. simpl snd. simpl fst.
  intros H. inv_bind H. rename a into sd. exists sd. split; [exact Hbind|].
  apply mapM_Forall2 in H.
  eapply Forall2_impl; [|exact H]. simpl. intros d tup Hstep.
  inv_bind Hstep. inv_bind Hstep. destruct a0 as [[sh sm] bt].
  injection Hstep as <-. simpl.
  unfold od_item in Hbind0, Hbind1.
  destruct (od_get Z.eqb sd d) eqn:E; [|discriminate].
  injection Hbind0 as ->.
  destruct (od_get String.eqb _ a) eqn:E2; [|discriminate].
  injection Hbind1 as ->. split; reflexivity.
Qed.

(** X2.  The schedule list is never empty, it is in strictly ascending order
    of duration, every tuple carries the parameters the dictionary holds for
    its frequency (those of the default schedule when the dictionary does
    not have the default frequency), and every frequency of the dictionary,
    and the default one, has a tuple of its duration in the list. *)
Theorem build_schedules_list_entries (default : schedule_tuple)
      (dict : odict string (option Z * option Z * option string))
      (l : list schedule_tuple) :
  build_schedules_list to_timedelta default dict = Ok l ->
  l <> [] /\
  StronglySorted (shorter to_timedelta) (map freq_of l) /\
  (forall f h m b, In (f, h, m, b) l ->
     od_get String.eqb dict f = Some (h, m, b) \/
     (od_get String.eqb dict f = None /\ default = (f, h, m, b))) /\
  (forall f, In f (freq_of default :: od_keys dict) ->
     exists tup d, In tup l /\ to_timedelta f = Ok d /\
                   to_timedelta (freq_of tup) = Ok d).
Proof.
  intros H.
  pose proof (build_schedules_list_sorted _ _ _ _ H) as Hsorted.
  destruct (build_schedules_list_inv _ _ _ H) as (sd & Hfold & Hall).
  destruct (sort_dict_entries _ _ [] sd Hfold) as (Hnd & Hent);
    [constructor | intros ? ? [] |].
  destruct (sort_dict_covers _ _ _ Hfold) as (_ & Hcov).
  assert (Hrep : forall f, In f (schedule_keys default dict) ->
             exists tup d, In tup l /\ to_timedelta f = Ok d /\
                           to_timedelta (freq_of tup) = Ok d).
  { intros f Hf. destruct (Hcov f Hf) as (d & Hd & Hkey).
    apply (proj2 (sort_In _ d)) in Hkey.
    destruct (Forall2_In_l _ _ _ _ Hall Hkey) as (tup & Hin & Hget & _).
    exists tup, d. repeat split; auto.
    apply Hent. apply (od_get_In _ _ _ Z_eqb_spec). exact Hget. }
  assert (Hdef : In (freq_of default) (schedule_keys default dict)).
  { unfold schedule_keys.
    destruct (od_mem String.eqb dict (freq_of default)) eqn:E.
    - unfold od_mem in E.
      destruct (od_get String.eqb dict (freq_of default)) eqn:G; [|discriminate].
      apply (od_get_In _ _ _ string_eqb_spec) in G.
      apply (in_map fst) in G. exact G.
    - apply in_or_app. right. left. reflexivity. }
  split; [|split; [exact Hsorted|split]].
  - destruct (Hrep _ Hdef) as (tup & _ & Hin & _). intros ->. contradiction.
  - intros f h m b Hin.
    destruct (Forall2_In_r _ _ _ _ Hall Hin) as (d & _ & _ & Hget).
    simpl in Hget.
    destruct (od_mem String.eqb dict (freq_of default)) eqn:E.
    + left. exact Hget.
    + destruct (String.eqb (freq_of default) f) eqn:Ef.
      * apply String.eqb_eq in Ef. subst f.
        rewrite (od_get_set_eq _ _ _ string_eqb_spec) in Hget.
        right. split.
        -- unfold od_mem in E.
           destruct (od_get String.eqb dict (freq_of default)); [discriminate|].
           reflexivity.
        -- destruct default as [[[df dh] dm] dbk]. simpl in *.
           injection Hget as <- <- <-. reflexivity.
      * apply String.eqb_neq in Ef.
        rewrite (od_get_set_neq _ _ _ string_eqb_spec) in Hget by exact Ef.
        left. exact Hget.
  - intros f [<-|Hf]; [apply Hrep; exact Hdef|].
    apply Hrep. unfold schedule_keys.
    destruct (od_mem String.eqb dict (freq_of default)); [exact Hf|].
    apply in_or_app. left. exact Hf.
Qed.

(** X3.  Two frequencies of the same duration do not both survive: of the
    keys of the dictionary (the default frequency last, when it had to be
    added) a frequency that is followed by another one of the same duration
    is not in the schedule list. *)
Theorem build_schedules_list_same_duration (default : schedule_tuple)
      (dict : odict string (option Z * option Z * option string))
      (l : list schedule_tuple) (pre post : list string) (f1 f2 : string) :
  NoDup (od_keys dict) ->
  build_schedules_list to_timedelta default dict = Ok l ->
  schedule_keys default dict = pre ++ f1 :: post ->
  In f2 post ->
  to_timedelta f1 = to_timedelta f2 ->
  ~ In f1 (map freq_of l).
Proof.
  intros Hnd H Hkeys Hf2 Hsame Hin.
  destruct (build_schedules_list_inv _ _ _ H) as (sd & Hfold & Hall).
  destruct (sort_dict_entries _ _ [] sd Hfold) as (Hnds & Hent);
    [constructor | intros ? ? [] |].
  assert (Hndk : NoDup (schedule_keys default dict)).
  { rewrite schedule_keys_set.
    destruct (od_mem String.eqb dict (freq_of default)); [exact Hnd|].
    apply (od_set_NoDup _ _ _ string_eqb_spec). exact Hnd. }
  rewrite Hkeys in Hfold, Hndk.
  replace (pre ++ f1 :: post) with ((pre ++ [f1]) ++ post) in Hfold
    by (rewrite <- app_assoc; reflexivity).
  rewrite foldM_app in Hfold. inv_bind Hfold. rename a into sd1.
  apply in_map_iff in Hin. destruct Hin as (tup & Hfreq & Htup).
  destruct (Forall2_In_r _ _ _ _ Hall Htup) as (d & _ & Hget & _).
  rewrite Hfreq in Hget.
  assert (Hd1 : to_timedelta f1 = Ok d).
  { apply Hent. apply (od_get_In _ _ _ Z_eqb_spec). exact Hget. }
  rewrite Hsame in Hd1.
  destruct (sort_dict_covers _ _ _ Hfold) as (_ & Hcov).
  assert (Hlast : exists f, In f post /\ od_get Z.eqb sd d = Some f).
  { clear - Hfold Hf2 Hd1. revert sd1 Hfold.
    induction post as [|g post IH]; [contradiction|].
    simpl. intros sd1 Hfold. inv_bind Hfold. inv_bind Hbind.
    injection Hbind as <-. rename a0 into dg.
    destruct (sort_dict_get _ _ _ d Hfold) as [Heq|(f & Hf & Hg)].
    - destruct Hf2 as [->|Hf2].
      + rewrite Hd1 in Hbind0. injection Hbind0 as <-.
        exists f2. split; [left; reflexivity|].
        rewrite Heq. apply (od_get_set_eq _ _ _ Z_eqb_spec).
      + destruct (IH Hf2 _ Hfold) as (f & Hf & Hg).
        exists f. split; [right; exact Hf | exact Hg].
    - exists f. split; [right; exact Hf | exact Hg]. }
  destruct Hlast as (f & Hf & Hg). rewrite Hget in Hg. injection Hg as <-.
  apply NoDup_remove_2 in Hndk. apply Hndk. apply in_or_app. right. exact Hf.
Qed.

End ScheduleListFacts.

(* ===================================================================== *)
(** * More on the evaluation of schedules and on the job log *)
(* ===================================================================== *)

Section JobLogFacts.

Lemma sql_max_snoc (l : list datetime) (t : datetime) :
  JobLog.sql_max (l ++ [t]) =
  Some (match JobLog.sql_max l with Some L => Z.max L t | None => t end).
Proof.
  induction l as [|x l IH]; simpl; [reflexivity|].
  rewrite IH. destruct (JobLog.sql_max l) as [L|]; f_equal; lia.
Qed.

Lemma last_execution_logged
    (jc : controller) (s : string) (t : datetime) (bt tr : option string)
    (s' : string) :
  last_execution (log_completion jc s t bt tr) s' =
  if String.eqb s' s
  then Some (match last_execution jc s with
             | Some L => Z.max L t
             | None => t
             end)
  else last_execution jc s'.
Proof.
  unfold last_execution, log_completion, JobLog.get_last_execution_date,
    JobLog.write. simpl.
  rewrite filter_app, map_app. simpl.
  unfold JobLog.matches at 2. simpl. rewrite !String.eqb_refl. simpl.
  rewrite (String.eqb_sym s s').
  destruct (String.eqb s' s) eqn:E.
  - apply String.eqb_eq in E. subst s'. simpl. apply sql_max_snoc.
  - simpl. rewrite app_nil_r. reflexivity.
Qed.

(** X4.  Logging the completion of a schedule and reading the last execution
    date back: for the schedule logged it is the later of the date logged
    and the date read before, for every other schedule it is what it was;
    the date read is never before the date logged. *)
Theorem log_completion_last_execution
    (jc : controller) (s : string) (t : datetime) (bt tr : option string) :
  (exists L, last_execution (log_completion jc s t bt tr) s = Some L /\
             t <= L /\
             L = match last_execution jc s with
                 | Some L0 => Z.max L0 t
                 | None => t
                 end) /\
  (forall s', s' <> s ->
     last_execution (log_completion jc s t bt tr) s' = last_execution jc s').
Proof.
  split.
  - rewrite last_execution_logged, String.eqb_refl.
    eexists. split; [reflexivity|]. split; [|reflexivity].
    destruct (last_execution jc s); lia.
  - intros s' Hne. rewrite last_execution_logged.
    apply String.eqb_neq in Hne. rewrite Hne. reflexivity.
Qed.

End JobLogFacts.

Section EvaluateMore.
Variable to_timedelta : string -> result timedelta.
Variable today : datetime.

Local Abbreviation meta_at := (schedule_meta to_timedelta today).
Local Abbreviation entry_for := (entry_of to_timedelta today).

(** The dictionary of one schedule, field by field. *)
Lemma schedule_meta_inv (jc : controller) (T : datetime) (s : string) (rh rm : option Z)
      (bt : option string) (m0 : meta) :
  meta_at jc T (s, rh, rm, bt) = Ok m0 ->
  exists nd,
    get_next_execution_date to_timedelta jc s T = Ok nd /\
    adjust_to_schedule to_timedelta today nd rh rm s = Ok (next_date m0) /\
    is_due m0 = (next_date m0 <=? T) /\
    is_subsumed m0 = false /\
    mark_complete m0 = (if is_due m0 then [s] else []) /\
    (is_due m0 = true ->
     match bt with
     | Some b =>
         if String.eqb b "checkpoint" then True
         else exists db, to_timedelta b = Ok db /\
                         start_date m0 = Some (T - db) /\
                         backtrack m0 = Some b /\
                         prev_checkpoint m0 = None /\
                         is_checkpoint_driven m0 = false
     | None => start_date m0 = None /\ backtrack m0 = None /\
               prev_checkpoint m0 = None /\ is_checkpoint_driven m0 = false
     end).
Proof.
  unfold schedule_meta. intros H. inv_bind H. rename a into nd.
  inv_bind H. rename a into r. exists nd. split; [exact Hbind|].
  destruct (if negb (r =? nd) then (Some (r, nd), r) else (None, nd))
    as [msg nd'] eqn:Epair.
  assert (Hnd : nd' = r).
  { destruct (r =? nd) eqn:E; simpl in Epair; injection Epair as _ <-;
      [apply Z.eqb_eq in E; auto | reflexivity]. }
  subst nd'. clear Epair.
  destruct (r <=? T) eqn:Edue.
  - inv_bind H. destruct a as [[[cp prev] start] bt'].
    injection H as <-. simpl. rewrite Edue.
    repeat split; try assumption.
    intros _. destruct bt as [b|].
    + destruct (String.eqb b "checkpoint"); [exact I|].
      inv_bind Hbind1. injection Hbind1 as <- <- <- <-.
      eexists. repeat split. exact Hbind2.
    + injection Hbind1 as <- <- <- <-. repeat split.
  - injection H as <-. simpl. rewrite Edue.
    repeat split; try assumption. discriminate.
Qed.

(** What [evaluate_schedules] returns: the dictionaries of the first loop,
    one per schedule and in order, and after it the marks of the
    progressive pass on them. *)
Lemma evaluate_schedules_inv (jc : controller) (T : datetime) (res : odict string meta) :
  NoDup (map freq_of (_schedules jc)) ->
  evaluate_schedules to_timedelta today jc T = Ok res ->
  exists st,
    Forall2 (entry_for jc T) (_schedules jc) (sched st) /\
    res = match last_schedule_due st with
          | Some last =>
              if get_payload_param (is_schedule_progressive (the_payload jc))
                                   default_is_schedule_progressive
              then map (subsume last (all_due st)) (sched st)
              else sched st
          | None => sched st
          end.
Proof.
  intros Hnd H. unfold evaluate_schedules in H. inv_bind H. rename a into st.
  destruct (pass1_shape _ _ _ _ _ _ Hnd Hbind) as (Hent & _ & _).
  exists st. split; [exact Hent|].
  destruct (last_schedule_due st).
  - destruct (get_payload_param _ _); injection H as <-; reflexivity.
  - injection H as <-. reflexivity.
Qed.

(** Every entry of the result belongs to a schedule of the list, and is
    the dictionary of the first loop up to the marks of the progressive
    pass. *)
Lemma evaluate_schedules_entry (jc : controller) (T : datetime) (res : odict string meta)
      (s : string) (m : meta) :
  NoDup (map freq_of (_schedules jc)) ->
  evaluate_schedules to_timedelta today jc T = Ok res ->
  od_get String.eqb res s = Some m ->
  exists tup m0,
    In tup (_schedules jc) /\ freq_of tup = s /\ meta_at jc T tup = Ok m0 /\
    (m = m0 \/ exists last due, m = subsume_meta last due s m0).
Proof.
  intros Hnd H Hget.
  destruct (evaluate_schedules_inv _ _ _ Hnd H) as (st & Hent & Hres).
  assert (Hraw : exists m0, od_get String.eqb (sched st) s = Some m0 /\
                   (m = m0 \/ exists last due, m = subsume_meta last due s m0)).
  { subst res.
    destruct (last_schedule_due st) as [last|];
      [|exists m; split; [exact Hget | left; reflexivity]].
    destruct (get_payload_param _ _);
      [|exists m; split; [exact Hget | left; reflexivity]].
    rewrite od_get_subsume in Hget.
    destruct (od_get String.eqb (sched st) s) as [m0|]; [|discriminate].
    injection Hget as <-. exists m0. split; [reflexivity|].
    right. exists last, (all_due st). reflexivity. }
  destruct Hraw as (m0 & Hget0 & Hrel).
  apply (od_get_In _ _ _ string_eqb_spec) in Hget0.
  destruct (Forall2_In_r _ _ _ _ Hent Hget0) as (tup & Hin & Hfst & Hsnd).
  simpl in Hfst, Hsnd. exists tup, m0. auto.
Qed.

(** X5.  A schedule is not due twice at one execution date: once its
    completion at date [T] is in the job log, the evaluation at [T] reports
    it as not due, with a next date after [T], whatever its rounding. The
    duration of the schedule is positive. *)
Theorem completed_schedule_is_not_due
    (jc : controller) (T : datetime) (s : string) (bt tr : option string) (d : timedelta)
    (res : odict string meta) :
  NoDup (map freq_of (_schedules jc)) ->
  In s (map freq_of (_schedules jc)) ->
  to_timedelta s = Ok d -> 0 < d ->
  evaluate_schedules to_timedelta today (log_completion jc s T bt tr) T
    = Ok res ->
  exists m, od_get String.eqb res s = Some m /\
            is_due m = false /\ is_subsumed m = false /\ T < next_date m.
Proof.
  intros Hnd Hin Hd Hpos H.
  apply in_map_iff in Hin. destruct Hin as (tup & Hfreq & Hin).
  set (jc' := log_completion jc s T bt tr) in *.
  assert (Hnd' : NoDup (map freq_of (_schedules jc'))) by exact Hnd.
  destruct (evaluate_schedules_inv jc' T res Hnd' H) as (st & Hent & Hres).
  destruct (Forall2_In_l _ _ _ _ Hent Hin) as ([s0 m0] & He & Hfst & Hsnd).
  simpl in Hfst, Hsnd. rewrite Hfreq in Hfst. subst s0.
  destruct tup as [[[s1 rh] rm] bk]. simpl in Hfreq. subst s1.
  destruct (schedule_meta_inv jc' _ _ _ _ _ _ Hsnd)
    as (nd & Hnext & Hadj & Hdue & Hsub & _).
  unfold get_next_execution_date in Hnext.
  pose proof (last_execution_logged jc s T bt tr s) as Hlast.
  rewrite String.eqb_refl in Hlast. fold jc' in Hlast.
  rewrite Hlast, Hd in Hnext. simpl in Hnext. injection Hnext as <-.
  destruct (adjust_to_schedule_bounds _ _ _ _ _ _ _ _ Hd Hpos Hadj) as (_ & Hlow).
  assert (HT : T < next_date m0)
    by (destruct (last_execution jc s); lia).
  assert (Hnot : is_due m0 = false) by (rewrite Hdue; apply Z.leb_gt; exact HT).
  assert (Hget0 : od_get String.eqb (sched st) s = Some m0).
  { apply (In_od_get _ _ _ string_eqb_spec); [|exact He].
    rewrite (entries_keys _ _ _ _ _ _ Hent). exact Hnd. }
  assert (Hm : exists m, od_get String.eqb res s = Some m /\
                 (m = m0 \/ exists last due, m = subsume_meta last due s m0)).
  { subst res.
    destruct (last_schedule_due st) as [last|];
      [|exists m0; split; [exact Hget0 | left; reflexivity]].
    destruct (get_payload_param _ _);
      [|exists m0; split; [exact Hget0 | left; reflexivity]].
    rewrite od_get_subsume, Hget0. eexists. split; [reflexivity|].
    right. exists last, (all_due st). reflexivity. }
  destruct Hm as (m & Hget & [->|(last & due & ->)]).
  - exists m0. auto.
  - eexists. split; [exact Hget|].
    unfold subsume_meta, subsume. simpl.
    destruct (String.eqb s last); simpl; [auto|].
    rewrite Hnot. simpl. auto.
Qed.

(** The progressive pass changes [is_due], [is_subsumed] and
    [mark_complete] only, and leaves a schedule due or subsumed exactly
    when it was due. *)
Lemma subsume_meta_fields (last : string) (due : list string) (s : string)
      (m0 : meta) :
  let m := subsume_meta last due s m0 in
  next_date m = next_date m0 /\ start_date m = start_date m0 /\
  backtrack m = backtrack m0 /\ prev_checkpoint m = prev_checkpoint m0 /\
  is_checkpoint_driven m = is_checkpoint_driven m0 /\
  (is_subsumed m0 = false ->
   (is_due m || is_subsumed m) = is_due m0 /\
   (is_due m && is_subsumed m) = false).
Proof.
  intros m. subst m. unfold subsume_meta, subsume. simpl.
  destruct (String.eqb s last); [|destruct (is_due m0) eqn:E]; simpl;
    (split; [reflexivity|]); (split; [reflexivity|]);
    (split; [reflexivity|]); (split; [reflexivity|]);
    (split; [reflexivity|]);
    intros Hs; rewrite ?Hs, ?E; destruct (is_due m0); split; reflexivity.
Qed.

Lemma same_frequency_same_schedule (l : list schedule_tuple)
      (t1 t2 : schedule_tuple) :
  NoDup (map freq_of l) -> In t1 l -> In t2 l -> freq_of t1 = freq_of t2 ->
  t1 = t2.
Proof.
  induction l as [|x l IH]; simpl; intros Hnd H1 H2 Hf; [contradiction|].
  inversion Hnd as [|? ? Hnotin Hnd']; subst.
  destruct H1 as [->|H1], H2 as [->|H2]; auto.
  - exfalso. apply Hnotin. rewrite Hf. apply in_map. exact H2.
  - exfalso. apply Hnotin. rewrite <- Hf. apply in_map. exact H1.
Qed.

(** X6.  Schedules that are not progressive are evaluated independently: the
    result has one entry per schedule, in the order of the schedule list,
    none is subsumed, a schedule is due exactly when its next date is not
    after the execution date, and a due schedule marks itself complete and
    nothing else. *)
Theorem non_progressive_schedules_are_independent
    (jc : controller) (T : datetime) (res : odict string meta) :
  NoDup (map freq_of (_schedules jc)) ->
  is_schedule_progressive (the_payload jc) = Some false ->
  evaluate_schedules to_timedelta today jc T = Ok res ->
  od_keys res = map freq_of (_schedules jc) /\
  forall s m, od_get String.eqb res s = Some m ->
    is_subsumed m = false /\
    is_due m = (next_date m <=? T) /\
    mark_complete m = (if is_due m then [s] else []).
Proof.
  intros Hnd Hprog H.
  destruct (evaluate_schedules_inv _ _ _ Hnd H) as (st & Hent & Hres).
  rewrite Hprog in Hres. simpl in Hres.
  assert (Hsame : res = sched st)
    by (destruct (last_schedule_due st); exact Hres).
  clear Hres. subst res.
  split; [apply (entries_keys _ _ _ _ _ _ Hent)|].
  intros s m Hget. apply (od_get_In _ _ _ string_eqb_spec) in Hget.
  destruct (Forall2_In_r _ _ _ _ Hent Hget) as (tup & Hin & Hfst & Hsnd).
  simpl in Hfst, Hsnd. destruct tup as [[[s1 rh] rm] bk]. simpl in Hfst.
  subst s1.
  destruct (schedule_meta_inv _ _ _ _ _ _ _ Hsnd)
    as (nd & _ & _ & Hdue & Hsub & Hmark & _).
  auto.
Qed.

(** X7.  The start date of a schedule that backtracks by a duration: for
    every schedule whose backtrack is not "checkpoint" and that is due (or
    subsumed by a longer one), [start_date] is the execution date less the
    backtrack and [backtrack] is kept; without backtrack there is no start
    date. No checkpoint is read for it. *)
Theorem backtrack_start_date
    (jc : controller) (T : datetime) (res : odict string meta)
    (s : string) (rh rm : option Z) (bt : option string) (m : meta) :
  NoDup (map freq_of (_schedules jc)) ->
  evaluate_schedules to_timedelta today jc T = Ok res ->
  In (s, rh, rm, bt) (_schedules jc) ->
  bt <> Some "checkpoint" ->
  od_get String.eqb res s = Some m ->
  is_due m = true \/ is_subsumed m = true ->
  match bt with
  | Some b => exists db, to_timedelta b = Ok db /\
                         start_date m = Some (T - db) /\ backtrack m = Some b
  | None => start_date m = None /\ backtrack m = None
  end /\
  prev_checkpoint m = None /\ is_checkpoint_driven m = false.
Proof.
  intros Hnd H Hin Hbt Hget Hactive.
  destruct (evaluate_schedules_entry _ _ _ _ _ Hnd H Hget)
    as (tup & m0 & Hin' & Hfreq & Hm0 & Hrel).
  assert (Htup : tup = (s, rh, rm, bt))
    by (apply (same_frequency_same_schedule _ _ _ Hnd Hin' Hin); exact Hfreq).
  subst tup.
  destruct (schedule_meta_inv _ _ _ _ _ _ _ Hm0)
    as (nd & _ & _ & _ & Hsub & _ & Hfields).
  assert (Hdue0 : is_due m0 = true).
  { destruct Hrel as [->|(last & due & ->)].
    - destruct Hactive as [Hd|Hs]; [exact Hd | congruence].
    - destruct (subsume_meta_fields last due s m0) as (_ & _ & _ & _ & _ & Hor).
      destruct (Hor Hsub) as (Hor1 & _). rewrite <- Hor1.
      destruct Hactive as [-> | ->]; [reflexivity | apply orb_true_r]. }
  specialize (Hfields Hdue0).
  assert (Hkeep : start_date m = start_date m0 /\ backtrack m = backtrack m0 /\
                  prev_checkpoint m = prev_checkpoint m0 /\
                  is_checkpoint_driven m = is_checkpoint_driven m0).
  { destruct Hrel as [->|(last & due & ->)]; [auto|].
    destruct (subsume_meta_fields last due s m0) as (_ & E1 & E2 & E3 & E4 & _).
    auto. }
  destruct Hkeep as (E1 & E2 & E3 & E4). rewrite E1, E2, E3, E4.
  destruct bt as [b|].
  - destruct (String.eqb b "checkpoint") eqn:E.
    + apply String.eqb_eq in E. subst b. contradiction Hbt. reflexivity.
    + destruct Hfields as (db & Hdb & Hs & Hb & Hp & Hc).
      split; [exists db; auto | auto].
  - destruct Hfields as (Hs & Hb & Hp & Hc). auto.
Qed.

(** X8.  Every entry of the result is due or subsumed exactly when its next
    date is not after the execution date, and never both. *)
Theorem due_or_subsumed_iff_next_date_reached
    (jc : controller) (T : datetime) (res : odict string meta)
    (s : string) (m : meta) :
  NoDup (map freq_of (_schedules jc)) ->
  evaluate_schedules to_timedelta today jc T = Ok res ->
  od_get String.eqb res s = Some m ->
  (is_due m || is_subsumed m) = (next_date m <=? T) /\
  (is_due m && is_subsumed m) = false.
Proof.
  intros Hnd H Hget.
  destruct (evaluate_schedules_entry _ _ _ _ _ Hnd H Hget)
    as (tup & m0 & _ & Hfreq & Hm0 & Hrel).
  destruct tup as [[[s1 rh] rm] bk].
  destruct (schedule_meta_inv _ _ _ _ _ _ _ Hm0)
    as (nd & _ & _ & Hdue & Hsub & _).
  destruct Hrel as [->|(last & due & ->)].
  - rewrite Hsub, orb_false_r, andb_false_r. auto.
  - destruct (subsume_meta_fields last due s m0) as (E1 & _ & _ & _ & _ & Hor).
    destruct (Hor Hsub) as (Hor1 & Hand). rewrite Hor1, E1. auto.
Qed.

End EvaluateMore.

(* ===================================================================== *)
(** * More on chunks *)
(* ===================================================================== *)

Section ChunkCount.
Import ChunkSpec.
Variable to_timedelta : string -> result timedelta.
Variable today : datetime.
Variable jc : controller.
Hypothesis no_override : get_adjusted_start_date (the_payload jc) = None.

(** The number of chunks that follow a chunk ending at [prev]. *)
Lemma chained_length (d end_date : Z) :
  0 < d ->
  forall l prev,
    prev <= end_date -> chained d end_date prev l ->
    Z.of_nat (List.length l) = (end_date - prev + d) / (d + 1).
Proof.
  intros Hd. induction l as [|[[a|] b] l IH]; intros prev Hle H.
  - simpl in H. subst prev. simpl. symmetry. apply Z.div_small. lia.
  - simpl in H. destruct H as (Hlt & Ha & Hb & Hrest).
    assert (Hble : b <= end_date) by lia.
    specialize (IH b Hble Hrest).
    change (List.length ((Some a, b) :: l)) with (S (List.length l)).
    rewrite Nat2Z.inj_succ, IH. unfold MICROSECOND in Ha.
    destruct (Z_le_gt_dec end_date (a + d)) as [Hlast|Hmore].
    + replace b with end_date by lia.
      replace (end_date - end_date + d) with d by lia.
      rewrite (Z.div_small d (d + 1)) by lia.
      apply Z.div_unique with (r := end_date - prev - 1); lia.
    + replace b with (a + d) by lia.
      replace (end_date - prev + d)
        with ((end_date - (a + d) + d) + 1 * (d + 1)) by lia.
      rewrite Z.div_add by lia. lia.
  - simpl in H. contradiction.
Qed.

(** X9.  The number of chunks. Without an override of the start date and
    with a positive chunk size [d], the range that starts at the adjusted
    start date [cs] is cut into [1 + (end_date - cs) / (d + 1)] chunks
    (integer division, in microseconds), and into the single chunk [(cs,
    end_date)] when [cs] is after [end_date]. *)
Theorem get_chunks_count
    (start_date end_date : datetime) (rh rm : option Z) (schedule : string)
    (d : timedelta) (cs : datetime) :
  to_timedelta (get_payload_param (chunk_size (the_payload jc))
                                  default_chunk_size) = Ok d ->
  0 < d ->
  adjust_to_schedule to_timedelta today start_date rh rm schedule = Ok cs ->
  exists (fuel0 : nat) (chunks : list chunk),
    (forall fuel, (fuel0 <= fuel)%nat ->
       get_chunks to_timedelta today jc fuel (Some start_date) end_date
                  rh rm schedule = Some (Ok chunks)) /\
    Z.of_nat (List.length chunks) = 1 + Z.max 0 ((end_date - cs) / (d + 1)) /\
    (end_date < cs -> chunks = [(Some cs, end_date)]).
Proof.
  intros Hsize Hd Hadj.
  set (ce0 := Z.min (cs + d) end_date).
  assert (Hce0 : ce0 <= end_date) by (unfold ce0; lia).
  destruct (chunks_loop_chained _ _ no_override _ _ _ Hsize ltac:(lia)
              (Z.to_nat (end_date - ce0)) ce0 Hce0 ltac:(lia))
    as (l & Hloop & Hchain).
  exists (Z.to_nat (end_date - ce0)), ((Some cs, ce0) :: l).
  split; [|split].
  - intros fuel Hfuel. unfold get_chunks.
    rewrite Hadj, (adjusted_start_id _ no_override), Hsize.
    fold ce0. rewrite (chunks_loop_fuel_le _ _ _ _ _ _ _ _ Hfuel Hloop).
    reflexivity.
  - change (List.length ((Some cs, ce0) :: l)) with (S (List.length l)).
    rewrite Nat2Z.inj_succ, (chained_length _ _ Hd _ _ Hce0 Hchain).
    unfold ce0.
    destruct (Z_le_gt_dec cs end_date) as [Hin|Hout].
    + assert (Hq : 0 <= (end_date - cs) / (d + 1))
        by (apply Z.div_pos; lia).
      rewrite Z.max_r by exact Hq.
      destruct (Z_le_gt_dec end_date (cs + d)) as [Hone|Hmore].
      * rewrite Z.min_r by lia.
        replace (end_date - end_date + d) with d by lia.
        rewrite (Z.div_small d (d + 1)) by lia.
        rewrite (Z.div_small (end_date - cs) (d + 1)) by lia. lia.
      * rewrite Z.min_l by lia.
        replace (end_date - (cs + d) + d) with (end_date - cs) by lia. lia.
    + rewrite Z.min_r by lia.
      replace (end_date - end_date + d) with d by lia.
      rewrite (Z.div_small d (d + 1)) by lia.
      assert (Hq : (end_date - cs) / (d + 1) < 0)
        by (apply Z.div_lt_upper_bound; lia).
      lia.
  - intros Hout. assert (E : ce0 = end_date) by (unfold ce0; lia).
    rewrite E in *. f_equal.
    destruct l as [|[[a|] b] l]; [reflexivity| |]; simpl in Hchain.
    + lia.
    + contradiction.
Qed.

End ChunkCount.

Section ChunkRange.
Import ChunkSpec.
Variable to_timedelta : string -> result timedelta.
Variable today : datetime.
Variable jc : controller.
Variable date_add : datetime -> timedelta -> result datetime.
Hypothesis no_override : get_adjusted_start_date (the_payload jc) = None.
Hypothesis date_add_sum :
  forall t delta r, date_add t delta = Ok r -> r = t + delta.

Lemma chunks_loop_in_range_S (fuel : nat) (size : string) (end_date ce : Z) :
  chunks_loop_in_range to_timedelta jc date_add (S fuel) size end_date ce =
  if ce <? end_date then
    match date_add ce MICROSECOND with
    | Err e => Some (Err e)
    | Ok chunk_start =>
        match adjusted_start jc chunk_start with
        | Err e => Some (Err e)
        | Ok chunk_start =>
            match to_timedelta size with
            | Err e => Some (Err e)
            | Ok d =>
                match date_add chunk_start d with
                | Err e => Some (Err e)
                | Ok chunk_end =>
                    match chunks_loop_in_range to_timedelta jc date_add fuel
                            size end_date (Z.min chunk_end end_date) with
                    | None => None
                    | Some (Err e) => Some (Err e)
                    | Some (Ok l) =>
                        Some (Ok ((Some chunk_start, Z.min chunk_end end_date)
                                  :: l))
                    end
                end
            end
        end
    end
  else Some (Ok []).
Proof. reflexivity. Qed.

(** With a negative chunk size the loop returns no list: the end of a
    chunk is never after the end of the chunk before it. *)
Lemma chunks_loop_no_list (size : string) (d end_date : Z) :
  to_timedelta size = Ok d -> d < 0 ->
  forall fuel ce l,
    ce < end_date ->
    chunks_loop_in_range to_timedelta jc date_add fuel size end_date ce
    <> Some (Ok l).
Proof.
  intros Hsize Hd. induction fuel as [|fuel IH]; intros ce l Hlt.
  - simpl. apply Z.ltb_lt in Hlt. rewrite Hlt. discriminate.
  - rewrite chunks_loop_in_range_S. pose proof Hlt as Hlt'.
    apply Z.ltb_lt in Hlt'. rewrite Hlt'.
    destruct (date_add ce MICROSECOND) as [cs|e] eqn:E1; [|discriminate].
    apply date_add_sum in E1. subst cs.
    rewrite (adjusted_start_id _ no_override), Hsize.
    destruct (date_add (ce + MICROSECOND) d) as [ce'|e] eqn:E2;
      [|discriminate].
    apply date_add_sum in E2. subst ce'.
    destruct (chunks_loop_in_range to_timedelta jc date_add fuel size end_date
                (Z.min (ce + MICROSECOND + d) end_date))
      as [[l'|e]|] eqn:E3; try discriminate.
    exfalso. apply (IH (Z.min (ce + MICROSECOND + d) end_date) l');
      [unfold MICROSECOND; lia | exact E3].
Qed.

(** When the sums below [lo] raise and the chunk size is below minus one
    microsecond, the loop is ended by an exception. *)
Lemma chunks_loop_raises (size : string) (d end_date lo : Z) :
  to_timedelta size = Ok d -> d < - MICROSECOND ->
  (forall t delta, t + delta < lo -> exists e, date_add t delta = Err e) ->
  forall n ce,
    ce < end_date -> ce - lo < Z.of_nat n ->
    forall fuel, (S n <= fuel)%nat ->
      exists e,
        chunks_loop_in_range to_timedelta jc date_add fuel size end_date ce
        = Some (Err e).
Proof.
  intros Hsize Hd Hlow. unfold MICROSECOND in Hd.
  assert (Hstep : forall ce fuel,
             ce < end_date ->
             (forall ce', ce' < end_date -> ce' <= ce - 1 -> lo <= ce' ->
                exists e,
                  chunks_loop_in_range to_timedelta jc date_add fuel size
                                       end_date ce' = Some (Err e)) ->
             exists e,
               chunks_loop_in_range to_timedelta jc date_add (S fuel) size
                                    end_date ce = Some (Err e)).
  { intros ce fuel Hlt Hnext. rewrite chunks_loop_in_range_S.
    pose proof Hlt as Hlt'. apply Z.ltb_lt in Hlt'. rewrite Hlt'.
    destruct (date_add ce MICROSECOND) as [cs|e] eqn:E1; [|eauto].
    apply date_add_sum in E1. subst cs.
    rewrite (adjusted_start_id _ no_override), Hsize.
    destruct (date_add (ce + MICROSECOND) d) as [ce'|e] eqn:E2; [|eauto].
    pose proof (date_add_sum _ _ _ E2) as Hsum. subst ce'.
    assert (Hin : lo <= ce + MICROSECOND + d).
    { destruct (Z_lt_le_dec (ce + MICROSECOND + d) lo) as [Hbelow|Hok];
        [|exact Hok].
      destruct (Hlow _ _ Hbelow) as (e & He). congruence. }
    unfold MICROSECOND in *.
    destruct (Hnext (Z.min (ce + 1 + d) end_date)) as (e & He); try lia.
    rewrite He. eauto. }
  induction n as [|n IH]; intros ce Hlt Hn fuel Hfuel.
  - destruct fuel as [|fuel]; [lia|]. apply Hstep; [exact Hlt|].
    intros ce' _ Hle Hlo. simpl in Hn. lia.
  - destruct fuel as [|fuel]; [lia|]. apply Hstep; [exact Hlt|].
    intros ce' Hlt' Hle Hlo. apply IH; [exact Hlt' | lia | lia].
Qed.

(** X10.  A negative chunk size: when the first chunk ends before
    [end_date], [get_chunks] returns no list of chunks, whatever the range
    of the dates.  Every chunk then ends no later than the chunk before
    it, so the test of the loop, [chunk_end < end_date], holds after every
    round, and only an exception can end the call.  When the sums of
    dates below some date raise and the chunk size is below minus one
    microsecond, the call does end with an exception. *)
Theorem get_chunks_negative_size_returns_no_chunks
    (start_date end_date : datetime) (rh rm : option Z) (schedule : string)
    (d : timedelta) (cs : datetime) :
  to_timedelta (get_payload_param (chunk_size (the_payload jc))
                                  default_chunk_size) = Ok d ->
  d < 0 ->
  adjust_to_schedule to_timedelta today start_date rh rm schedule = Ok cs ->
  cs + d < end_date ->
  (forall (fuel : nat) (chunks : list chunk),
     get_chunks_in_range to_timedelta today jc date_add fuel (Some start_date)
                         end_date rh rm schedule <> Some (Ok chunks)) /\
  (forall lo : datetime,
     d < - MICROSECOND ->
     (forall t delta, t + delta < lo -> exists e, date_add t delta = Err e) ->
     exists fuel0 : nat,
       forall fuel, (fuel0 <= fuel)%nat ->
         exists e,
           get_chunks_in_range to_timedelta today jc date_add fuel
                               (Some start_date) end_date rh rm schedule
           = Some (Err e)).
Proof.
  intros Hsize Hd Hadj Hlt. split.
  - intros fuel chunks. unfold get_chunks_in_range.
    rewrite Hadj, (adjusted_start_id _ no_override), Hsize.
    destruct (date_add cs d) as [ce|e] eqn:E; [|discriminate].
    apply date_add_sum in E. subst ce.
    destruct (chunks_loop_in_range to_timedelta jc date_add fuel
                (get_payload_param (chunk_size (the_payload jc))
                                   default_chunk_size)
                end_date (Z.min (cs + d) end_date))
      as [[l|e]|] eqn:E3; try discriminate.
    exfalso.
    apply (chunks_loop_no_list _ _ end_date Hsize Hd fuel
                               (Z.min (cs + d) end_date) l); [lia | exact E3].
  - intros lo Hd1 Hlow.
    exists (S (Z.to_nat (cs + d - lo + 1))). intros fuel Hfuel.
    unfold get_chunks_in_range.
    rewrite Hadj, (adjusted_start_id _ no_override), Hsize.
    destruct (date_add cs d) as [ce|e] eqn:E; [|eauto].
    apply date_add_sum in E. subst ce.
    destruct (chunks_loop_raises _ _ end_date lo Hsize Hd1 Hlow
                (Z.to_nat (cs + d - lo + 1)) (Z.min (cs + d) end_date)
                ltac:(lia) ltac:(lia) fuel Hfuel) as (e & He).
    rewrite He. eauto.
Qed.

(** Without a range the two definitions are those of [get_chunks]. *)
Lemma chunks_loop_in_range_unbounded :
  chunks_loop_in_range to_timedelta jc (fun t delta => Ok (t + delta)) =
  chunks_loop to_timedelta jc.
Proof. reflexivity. Qed.

Lemma get_chunks_in_range_unbounded :
  get_chunks_in_range to_timedelta today jc (fun t delta => Ok (t + delta)) =
  get_chunks to_timedelta today jc.
Proof. reflexivity. Qed.

End ChunkRange.

(* ===================================================================== *)
(** * The stages of a job specification *)
(* ===================================================================== *)

Section NameSetFacts.

Lemma union_str_In (b : list string) :
  forall a x, In x (union_str a b) <-> In x a \/ In x b.
Proof.
  unfold union_str. induction b as [|y b IH]; simpl; intros a x.
  - tauto.
  - rewrite IH. destruct (mem_str y a) eqn:E.
    + apply mem_str_In in E. split.
      * intros [H|H]; auto.
      * intros [H|[<-|H]]; auto.
    + rewrite in_app_iff. simpl. tauto.
Qed.

Lemma union_str_NoDup (b : list string) :
  forall a, NoDup a -> NoDup (union_str a b).
Proof.
  unfold union_str. induction b as [|y b IH]; simpl; intros a Hnd; [exact Hnd|].
  apply IH. destruct (mem_str y a) eqn:E; [exact Hnd|].
  apply mem_str_false in E.
  apply NoDup_app; [exact Hnd | constructor; [intros [] | constructor] |].
  intros x Hx [<-|[]]. contradiction.
Qed.

Lemma union_str_nil_r (a : list string) : union_str a [] = a.
Proof. reflexivity. Qed.

Lemma diff_str_In (a b : list string) (x : string) :
  In x (diff_str a b) <-> In x a /\ ~ In x b.
Proof.
  unfold diff_str. rewrite filter_In. rewrite negb_true_iff, mem_str_false.
  tauto.
Qed.

Lemma diff_str_empty_incl (a b : list string) :
  (List.length (diff_str a b) =? 0)%nat = true <-> incl a b.
Proof.
  rewrite Nat.eqb_eq, length_zero_iff_nil. split.
  - intros Hnil x Hx. destruct (mem_str x b) eqn:E; [apply mem_str_In; exact E|].
    apply mem_str_false in E.
    assert (Hin : In x (diff_str a b)) by (apply diff_str_In; auto).
    rewrite Hnil in Hin. contradiction.
  - intros Hincl. destruct (diff_str a b) as [|x l] eqn:E; [reflexivity|].
    assert (Hin : In x (diff_str a b)) by (rewrite E; left; reflexivity).
    apply diff_str_In in Hin. destruct Hin as [Hx Hnot].
    contradiction Hnot. apply Hincl. exact Hx.
Qed.

End NameSetFacts.

Section GetStagesFacts.
Variable jc : controller.

Lemma eligible_iff (av : option (list string)) (excl : list Stage.t)
      (s : Stage.t) :
  eligible av excl s = true <->
  Stage.mem s excl = false /\
  (forall a, av = Some a -> incl (Stage._input_set s) a).
Proof.
  unfold eligible. rewrite andb_true_iff, negb_true_iff.
  destruct av as [a|].
  - rewrite diff_str_empty_incl. split.
    + intros [H1 H2]. split; [exact H1|]. intros a' [= <-]. exact H2.
    + intros [H1 H2]. split; [exact H1 | apply H2; reflexivity].
  - split; [intros [H1 _]; split; [exact H1 | discriminate] | tauto].
Qed.

(** The loop of [get_stages], from any state of [out] and [cols]. *)
Lemma get_stages_fold (av : option (list string)) (excl : list Stage.t)
      (l : list Stage.t) :
  forall (out : list Stage.t) (cols : list string),
    let r :=
      fold_left
        (fun (acc : list Stage.t * list string) s =>
           let '(out, cols) := acc in
           if negb (Stage.mem s excl)
              && match av with
                 | None => true
                 | Some a =>
                     (List.length (diff_str (Stage._input_set s) a) =? 0)%nat
                 end
           then
             (out ++ [s],
              union_str cols
                match av with
                | None => Stage._output_list s
                | Some a => diff_str (Stage._output_list s) a
                end)
           else (out, cols))
        l (out, cols) in
    fst r = out ++ filter (eligible av excl) l /\
    (forall c, In c (snd r) <->
       In c cols \/
       exists s, In s (filter (eligible av excl) l) /\
                 In c (Stage._output_list s) /\
                 (forall a, av = Some a -> ~ In c a)) /\
    (NoDup cols -> NoDup (snd r)).
Proof.
  induction l as [|s l IH]; intros out cols; simpl.
  - rewrite app_nil_r. split; [reflexivity|]. split; [|auto].
    intros c. split; [auto|]. intros [H|(s & [] & _)]. exact H.
  - fold (eligible av excl s).
    destruct (eligible av excl s) eqn:E.
    + specialize (IH (out ++ [s])
                     (union_str cols
                        match av with
                        | None => Stage._output_list s
                        | Some a => diff_str (Stage._output_list s) a
                        end)).
      simpl in IH. destruct IH as (Hout & Hcols & Hnd).
      split; [rewrite Hout, <- app_assoc; reflexivity|].
      split.
      * intros c. rewrite Hcols, union_str_In. split.
        -- intros [[H|H]|(s' & Hs' & Hc)].
           ++ left. exact H.
           ++ right. exists s. split; [left; reflexivity|].
              destruct av as [a|].
              ** apply diff_str_In in H. destruct H as [H1 H2].
                 split; [exact H1|]. intros a' [= <-]. exact H2.
              ** split; [exact H | discriminate].
           ++ right. exists s'. split; [right; exact Hs' | exact Hc].
        -- intros [H|(s' & [<-|Hs'] & Hc1 & Hc2)].
           ++ left. left. exact H.
           ++ left. right. destruct av as [a|]; [|exact Hc1].
              apply diff_str_In. split; [exact Hc1 | apply Hc2; reflexivity].
           ++ right. exists s'. auto.
      * intros Hc. apply Hnd. apply union_str_NoDup. exact Hc.
    + specialize (IH out cols). simpl in IH. exact IH.
Qed.

Lemma get_stages_fst (ty : string) (g : option string)
      (av : option (list string)) (excl : list Stage.t) :
  fst (get_stages jc ty g av excl) = filter (eligible av excl) (stages_of jc ty g).
Proof.
  unfold get_stages. fold (stages_of jc ty g).
  apply (get_stages_fold av excl (stages_of jc ty g) [] []).
Qed.

(** X11.  What [get_stages] returns: the stages the payload has for the type
    and the granularity that are not excluded and, when a set of available
    columns is given, have all their inputs in it, in the order the payload
    has them; and, each once, the outputs of these stages that are not among
    the available columns. A type or granularity the payload does not have
    gives no stage and no column. *)
Theorem get_stages_selection (ty : string) (g : option string)
      (av : option (list string)) (excl : list Stage.t) :
  let out := fst (get_stages jc ty g av excl) in
  let cols := snd (get_stages jc ty g av excl) in
  out = filter (eligible av excl) (stages_of jc ty g) /\
  (forall s, In s out <->
     In s (stages_of jc ty g) /\ Stage.mem s excl = false /\
     (forall a, av = Some a -> incl (Stage._input_set s) a)) /\
  (forall c, In c cols <->
     exists s, In s out /\ In c (Stage._output_list s) /\
               (forall a, av = Some a -> ~ In c a)) /\
  NoDup cols /\
  (od_get stage_key_eqb (stage_metadata jc) (ty, g) = None ->
   out = [] /\ cols = []).
Proof.
  intros out cols. subst out cols.
  unfold get_stages. fold (stages_of jc ty g).
  destruct (get_stages_fold av excl (stages_of jc ty g) [] [])
    as (Hout & Hcols & Hnd).
  simpl in Hout. rewrite Hout.
  split; [reflexivity|]. split; [|split; [|split]].
  - intros s. rewrite filter_In, eligible_iff. tauto.
  - intros c. rewrite Hcols. split.
    + intros [[]|H]. exact H.
    + intros H. right. exact H.
  - apply Hnd. constructor.
  - intros Hnone. unfold stages_of. rewrite Hnone. simpl. auto.
Qed.

End GetStagesFacts.

(* ===================================================================== *)
(** * Gathering stages and building the stages of a type *)
(* ===================================================================== *)

Section GatherFacts.
Import JobSpec.
Variable jc : controller.
Variable default_freq : string.

(** A schedule given to a stage stays. *)
Local Abbreviation keeps_schedules e e' :=
  (forall i f, schedule (attrs e i) = Some f -> schedule (attrs e' i) = Some f).

Lemma attach_inv (e e' : env) (s : Stage.t) :
  attach default_freq e s = Ok e' ->
  keeps_schedules e e' /\
  exists f, schedule (attrs e' (Stage.id s)) = Some f.
Proof.
  unfold attach. intros H. inv_bind H.
  destruct (schedule (attrs e (Stage.id s))) as [f0|] eqn:E; injection H as <-.
  - split; [auto | eauto].
  - split.
    + intros i f Hi. simpl. destruct (Nat.eqb i (Stage.id s)) eqn:Ei; [|exact Hi].
      apply Nat.eqb_eq in Ei. subst i. congruence.
    + simpl. rewrite Nat.eqb_refl. simpl. eauto.
Qed.

Lemma attach_fold (l : list Stage.t) :
  forall e e',
    foldM (attach default_freq) l e = Ok e' ->
    keeps_schedules e e' /\
    forall s, In s l -> exists f, schedule (attrs e' (Stage.id s)) = Some f.
Proof.
  induction l as [|s l IH]; simpl; intros e e' H.
  - injection H as <-. split; [auto | intros ? []].
  - inv_bind H. rename a into e1.
    destruct (attach_inv _ _ _ Hbind) as (Hk1 & (f & Hf)).
    destruct (IH _ _ H) as (Hk2 & Hall).
    split; [auto|]. intros s' [<-|Hin]; [eauto | auto].
Qed.

Lemma gather_stage_attrs (e : env) (g : gathered) (s : Stage.t) :
  attrs (fst (gather_stage (e, g) s)) = attrs e.
Proof.
  unfold gather_stage, set_payload_params, set_custom_calendar, get_stage_param.
  simpl.
  repeat (match goal with
          | |- context [match ?x with _ => _ end] => destruct x
          end; simpl);
    reflexivity.
Qed.

Lemma gather_stage_cols (e : env) (g : gathered) (s : Stage.t) :
  new_cols (snd (gather_stage (e, g) s)) =
    union_str (new_cols g) (union_str [] (Stage._output_list s)) /\
  required_input_set (snd (gather_stage (e, g) s)) =
    union_str (required_input_set g) (Stage._input_set s).
Proof.
  unfold gather_stage, set_payload_params, set_custom_calendar, get_stage_param.
  simpl.
  repeat (match goal with
          | |- context [match ?x with _ => _ end] => destruct x
          end; simpl);
    split; reflexivity.
Qed.

Lemma gather_fold (l : list Stage.t) :
  forall (e : env) (g : gathered),
    attrs (fst (fold_left gather_stage l (e, g))) = attrs e /\
    (forall c, In c (new_cols (snd (fold_left gather_stage l (e, g)))) <->
       In c (new_cols g) \/
       exists s, In s l /\ In c (Stage._output_list s)) /\
    (forall c,
       In c (required_input_set (snd (fold_left gather_stage l (e, g)))) <->
       In c (required_input_set g) \/
       exists s, In s l /\ In c (Stage._input_set s)).
Proof.
  induction l as [|s l IH]; intros e g.
  - simpl. split; [reflexivity|].
    split; intros c; (split; [auto | intros [H|(s & [] & _)]; exact H]).
  - change (fold_left gather_stage (s :: l) (e, g))
      with (fold_left gather_stage l (gather_stage (e, g) s)).
    pose proof (gather_stage_attrs e g s) as Ha.
    destruct (gather_stage_cols e g s) as (Hc & Hr).
    destruct (gather_stage (e, g) s) as [e1 g1]. simpl in Ha, Hc, Hr.
    destruct (IH e1 g1) as (IHa & IHc & IHr).
    split; [rewrite IHa; exact Ha|]. split; intros c.
    + rewrite IHc, Hc, !union_str_In. split.
      * intros [[H|[[]|H]]|(s' & Hs' & Hc')]; eauto.
        -- right. exists s. split; [left; reflexivity | exact H].
        -- right. exists s'. split; [right; exact Hs' | exact Hc'].
      * intros [H|(s' & [<-|Hs'] & Hc')]; eauto 6.
    + rewrite IHr, Hr, !union_str_In. split.
      * intros [[H|H]|(s' & Hs' & Hc')]; eauto.
        -- right. exists s. split; [left; reflexivity | exact H].
        -- right. exists s'. split; [right; exact Hs' | exact Hc'].
      * intros [H|(s' & [<-|Hs'] & Hc')]; eauto 6.
Qed.

Lemma on_schedule_attrs (e e' : env) (schedules : list string) (s : Stage.t) :
  attrs e' = attrs e -> on_schedule e' schedules s = on_schedule e schedules s.
Proof. unfold on_schedule. intros ->. reflexivity. Qed.

Lemma on_schedule_iff (e : env) (sch : string) (sub : list string)
      (s : Stage.t) :
  on_schedule e (union_str [sch] sub) s = true <->
  exists f, schedule (attrs e (Stage.id s)) = Some f /\ In f (sch :: sub).
Proof.
  unfold on_schedule. destruct (schedule (attrs e (Stage.id s))) as [f|].
  - rewrite mem_str_In, union_str_In. simpl. split.
    + intros H. exists f. split; [reflexivity | tauto].
    + intros (f' & [= <-] & H). tauto.
  - split; [discriminate | intros (f & Hf & _); discriminate].
Qed.

(** What [gather_available_stages] returns. *)
Lemma gather_inv (e e' : env) (ty sch : string) (sub av : list string)
      (prev : list Stage.t) (g : option string) (r : gathered) :
  gather_available_stages jc default_freq e ty sch sub av prev g = Ok (e', r) ->
  keeps_schedules e e' /\
  stages r = filter (on_schedule e' (union_str [sch] sub))
                    (filter (eligible (Some av) prev) (stages_of jc ty g)) /\
  (forall s, In s (filter (eligible (Some av) prev) (stages_of jc ty g)) ->
             exists f, schedule (attrs e' (Stage.id s)) = Some f) /\
  (forall c, In c (new_cols r) <->
     (exists s, In s (stages r) /\ In c (Stage._output_list s)) /\ ~ In c av) /\
  (forall c, In c (required_input_set r) <->
     exists s, In s (stages r) /\ In c (Stage._input_set s)).
Proof.
  unfold gather_available_stages.
  pose proof (get_stages_fst jc ty g (Some av) prev) as Hfst.
  destruct (get_stages jc ty g (Some av) prev) as [cand cols0].
  simpl in Hfst. subst cand.
  set (cand := filter (eligible (Some av) prev) (stages_of jc ty g)).
  intros H. inv_bind H. rename a into e1.
  destruct (attach_fold _ _ _ Hbind) as (Hkeep & Hsched).
  set (sel := filter (on_schedule e1 (union_str [sch] sub)) cand) in *.
  destruct (gather_fold sel e1
              {| stages := sel; new_cols := []; required_input_set := [];
                 projection_list := [] |}) as (Ha & Hc & Hr).
  destruct (fold_left gather_stage sel _) as [e2 g2]. simpl in Ha, Hc, Hr.
  injection H as <- <-. simpl.
  assert (Hsame : forall x, on_schedule e2 (union_str [sch] sub) x =
                            on_schedule e1 (union_str [sch] sub) x)
    by (intros x; apply on_schedule_attrs; exact Ha).
  split; [intros i f Hi; rewrite Ha; auto|].
  split; [unfold sel; apply filter_ext; intros x; symmetry; apply Hsame|].
  split; [intros s Hs; rewrite Ha; auto|].
  split; intros c.
  - rewrite diff_str_In, Hc. simpl. split.
    + intros [[[]|H] Hnot]. auto.
    + intros [H Hnot]. auto.
  - rewrite Hr. simpl. split; [intros [[]|H]; exact H | auto].
Qed.

End GatherFacts.

Section OrderFacts.

Lemma ordered_mono (l : list Stage.t) :
  forall a a', incl a a' -> ordered a l -> ordered a' l.
Proof.
  induction l as [|s l IH]; simpl; intros a a' Hincl H; [exact I|].
  destruct H as [Hin Hrest]. split.
  - intros x Hx. auto.
  - apply (IH (a ++ Stage._output_list s)); [|exact Hrest].
    intros x Hx. apply in_app_iff in Hx. apply in_app_iff.
    destruct Hx; auto.
Qed.

Lemma ordered_app (l1 : list Stage.t) :
  forall a l2,
    ordered a l1 -> ordered (a ++ flat_map Stage._output_list l1) l2 ->
    ordered a (l1 ++ l2).
Proof.
  induction l1 as [|s l1 IH]; simpl; intros a l2 H1 H2.
  - rewrite app_nil_r in H2. exact H2.
  - destruct H1 as [Hin Hrest]. split; [exact Hin|].
    apply IH; [exact Hrest|]. rewrite <- app_assoc. exact H2.
Qed.

Lemma ordered_all (l : list Stage.t) (a : list string) :
  (forall s, In s l -> incl (Stage._input_set s) a) -> ordered a l.
Proof.
  revert a. induction l as [|s l IH]; simpl; intros a H; [exact I|].
  split; [apply H; left; reflexivity|].
  apply IH. intros s' Hs' x Hx. apply in_app_iff. left.
  apply (H s'); [right; exact Hs' | exact Hx].
Qed.

Lemma ordered_split (pre : list Stage.t) :
  forall a s post,
    ordered a (pre ++ s :: post) ->
    incl (Stage._input_set s) (a ++ flat_map Stage._output_list pre).
Proof.
  induction pre as [|p pre IH]; simpl; intros a s post H.
  - rewrite app_nil_r. apply H.
  - destruct H as [_ Hrest]. rewrite app_assoc. apply (IH _ _ _ Hrest).
Qed.

Lemma stage_mem_app (s : Stage.t) (a b : list Stage.t) :
  Stage.mem s (a ++ b) = Stage.mem s a || Stage.mem s b.
Proof. unfold Stage.mem. apply existsb_app. Qed.

Lemma stage_mem_false (s : Stage.t) (l : list Stage.t) :
  Stage.mem s l = false <-> ~ In (Stage.id s) (map Stage.id l).
Proof.
  unfold Stage.mem. split.
  - intros H Hin. apply in_map_iff in Hin. destruct Hin as (x & Hx & Hin).
    assert (Ht : existsb (fun x => Nat.eqb (Stage.id x) (Stage.id s)) l = true).
    { apply existsb_exists. exists x. split; [exact Hin|].
      apply Nat.eqb_eq. exact Hx. }
    congruence.
  - intros Hnot.
    destruct (existsb (fun x => Nat.eqb (Stage.id x) (Stage.id s)) l) eqn:E;
      [|reflexivity].
    apply existsb_exists in E. destruct E as (x & Hin & Hx).
    apply Nat.eqb_eq in Hx. contradiction Hnot. rewrite <- Hx.
    apply in_map. exact Hin.
Qed.

Lemma stage_mem_self (s : Stage.t) (l : list Stage.t) :
  In s l -> Stage.mem s l = true.
Proof.
  intros Hin. unfold Stage.mem. apply existsb_exists. exists s.
  split; [exact Hin | apply Nat.eqb_refl].
Qed.

(** Filtering stages keeps their identities distinct. *)
Lemma filter_stage_ids_NoDup (keep : Stage.t -> bool) :
  forall stages : list Stage.t,
    NoDup (map Stage.id stages) ->
    NoDup (map Stage.id (filter keep stages)).
Proof.
  intros stages. induction stages as [|s rest IH]; intros Hnd.
  - apply NoDup_nil.
  - apply NoDup_cons_iff in Hnd. destruct Hnd as [Hfresh Hrest].
    simpl. destruct (keep s); [|exact (IH Hrest)].
    simpl. apply NoDup_cons; [|exact (IH Hrest)].
    intros Hin. apply Hfresh. apply in_map_iff in Hin.
    destruct Hin as (s' & Hid & Hs'). apply filter_In in Hs'.
    rewrite <- Hid. apply in_map. exact (proj1 Hs').
Qed.

Lemma filter_length_lt {A : Type} (p q : A -> bool) (l : list A) (x : A) :
  (forall y, q y = true -> p y = true) ->
  In x l -> p x = true -> q x = false ->
  (List.length (filter q l) < List.length (filter p l))%nat.
Proof.
  intros Himp. 
  assert (Hle : forall l', (List.length (filter q l') <=
                            List.length (filter p l'))%nat).
  { induction l' as [|y l' IH]; simpl; [lia|].
    destruct (q y) eqn:Eq.
    - rewrite (Himp y Eq). simpl. lia.
    - destruct (p y); simpl; lia. }
  induction l as [|y l IH]; simpl; intros Hin Hp Hq; [contradiction|].
  destruct Hin as [->|Hin].
  - rewrite Hp, Hq. simpl. specialize (Hle l). lia.
  - specialize (IH Hin Hp Hq). destruct (q y) eqn:Eq.
    + rewrite (Himp y Eq). simpl. lia.
    + destruct (p y); simpl; lia.
Qed.

End OrderFacts.

Section BuildFacts.
Import JobSpec.
Variable jc : controller.
Variable default_freq : string.

Local Abbreviation kept e e' :=
  (forall i f, schedule (attrs e i) = Some f -> schedule (attrs e' i) = Some f).

Lemma keep_projection_fields (l : odict Stage.t (list string)) :
  forall m,
    spec (keep_projection m l) = spec m /\
    meta_schedule (keep_projection m l) = meta_schedule m /\
    subsumed (keep_projection m l) = subsumed m /\
    available_columns (keep_projection m l) = available_columns m /\
    required_inputs (keep_projection m l) = required_inputs m.
Proof.
  unfold keep_projection. induction l as [|sc l IH]; simpl; intros m.
  - repeat split.
  - match goal with
    | |- context [fold_left _ l ?m1] => destruct (IH m1) as (E1 & E2 & E3 & E4 & E5)
    end.
    rewrite E1, E2, E3, E4, E5. repeat split.
Qed.

(** The stages a round of the loop adds. *)
Lemma gathered_stage (e e' : env) (ty : string) (g : option string)
      (m : build_metadata) (r : gathered) (s : Stage.t) :
  gather_available_stages jc default_freq e ty (meta_schedule m) (subsumed m)
    (available_columns m) (spec m) g = Ok (e', r) ->
  In s (stages r) ->
  In s (stages_of jc ty g) /\ Stage.mem s (spec m) = false /\
  incl (Stage._input_set s) (available_columns m) /\
  exists f, schedule (attrs e' (Stage.id s)) = Some f /\
            In f (meta_schedule m :: subsumed m).
Proof.
  intros H Hin. destruct (gather_inv _ _ _ _ _ _ _ _ _ _ _ H) as (_ & Hst & _).
  rewrite Hst in Hin. apply filter_In in Hin. destruct Hin as [Hin Hon].
  apply filter_In in Hin. destruct Hin as [Hin Hel].
  apply eligible_iff in Hel. destruct Hel as [Hmem Hav].
  apply on_schedule_iff in Hon.
  repeat split; auto.
Qed.

(** The state after the loop, in terms of the stages it added. *)
Lemma build_loop_inv (ty : string) (g : option string) (n : nat) :
  forall e m e' m',
    build_loop jc default_freq n ty g e m = Ok (e', m') ->
    kept e e' /\
    meta_schedule m' = meta_schedule m /\ subsumed m' = subsumed m /\
    exists added,
      spec m' = spec m ++ added /\
      ordered (available_columns m) added /\
      (forall s, In s added ->
         In s (stages_of jc ty g) /\ Stage.mem s (spec m) = false /\
         exists f, schedule (attrs e' (Stage.id s)) = Some f /\
                   In f (meta_schedule m :: subsumed m)) /\
      (forall c, In c (available_columns m') <->
         In c (available_columns m) \/
         exists s, In s added /\ In c (Stage._output_list s)) /\
      (forall c, In c (required_inputs m') <->
         In c (required_inputs m) \/
         exists s, In s added /\ In c (Stage._input_set s)) /\
      (NoDup (map Stage.id (stages_of jc ty g)) -> NoDup (map Stage.id added)).
Proof.
  induction n as [|n IH]; intros e m e' m' H.
  - simpl in H. injection H as <- <-.
    split; [auto|]. split; [reflexivity|]. split; [reflexivity|].
    exists []. rewrite app_nil_r. split; [reflexivity|]. split; [exact I|].
    split; [intros ? []|].
    split; [intros c; split; [auto | intros [H|(s & [] & _)]; exact H]|].
    split; [intros c; split; [auto | intros [H|(s & [] & _)]; exact H]|].
    intros _. constructor.
  - simpl in H. inv_bind H. destruct a as [e1 r].
    pose proof (gather_inv _ _ _ _ _ _ _ _ _ _ _ Hbind)
      as (Hk1 & Hst & _ & Hcols & Hreq).
    pose proof (fun s => gathered_stage _ _ _ _ _ _ s Hbind) as Hb.
    set (m1 := {| spec := spec m ++ stages r;
                  meta_schedule := meta_schedule m;
                  subsumed := subsumed m;
                  available_columns :=
                    union_str (available_columns m) (new_cols r);
                  required_inputs :=
                    union_str (required_inputs m) (required_input_set r);
                  data_source_projection_list :=
                    data_source_projection_list m |}) in *.
    assert (Hav1 : forall c, In c (available_columns m1) <->
               In c (available_columns m) \/
               exists s, In s (stages r) /\ In c (Stage._output_list s)).
    { intros c. unfold m1. simpl. rewrite union_str_In, Hcols. split.
      - intros [Hc|[Hc _]]; auto.
      - intros [Hc|Hc]; [auto|].
        destruct (in_dec string_dec c (available_columns m)); auto. }
    assert (Hreq1 : forall c, In c (required_inputs m1) <->
               In c (required_inputs m) \/
               exists s, In s (stages r) /\ In c (Stage._input_set s)).
    { intros c. unfold m1. simpl. rewrite union_str_In, Hreq. tauto. }
    assert (Hnd1 : NoDup (map Stage.id (stages_of jc ty g)) ->
                   NoDup (map Stage.id (stages r))).
    { intros Hnd. rewrite Hst. apply filter_stage_ids_NoDup, filter_stage_ids_NoDup.
      exact Hnd. }
    destruct (List.length (stages r) =? 0)%nat eqn:Elen.
    + injection H as <- <-.
      split; [exact Hk1|]. split; [reflexivity|]. split; [reflexivity|].
      exists (stages r). split; [reflexivity|].
      split; [apply ordered_all; intros s Hs; apply (Hb s Hs)|].
      split; [intros s Hs; destruct (Hb s Hs) as (H1 & H2 & _ & H4); auto|].
      split; [exact Hav1|]. split; [exact Hreq1 | exact Hnd1].
    + destruct (keep_projection_fields (projection_list r) m1)
        as (E1 & E2 & E3 & E4 & E5).
      destruct (IH _ _ _ _ H)
        as (Hk2 & Hs2 & Hsub2 & added & Hspec & Hord & Hall & Hav & Hrq & Hnd).
      rewrite E1 in Hspec. rewrite E2 in Hs2. rewrite E3 in Hsub2.
      rewrite E4 in Hord, Hav. rewrite E5 in Hrq.
      rewrite E1, E2, E3 in Hall.
      split; [auto|]. split; [exact Hs2|]. split; [exact Hsub2|].
      exists (stages r ++ added).
      split; [rewrite Hspec; unfold m1; simpl; rewrite app_assoc; reflexivity|].
      split.
      { apply ordered_app; [apply ordered_all; intros s Hs; apply (Hb s Hs)|].
        eapply ordered_mono; [|exact Hord].
        intros c Hc. apply Hav1 in Hc. apply in_app_iff.
        destruct Hc as [Hc|(s & Hs & Hc)]; [left; exact Hc|].
        right. apply in_flat_map. exists s. auto. }
      split.
      { intros s Hs. apply in_app_iff in Hs. destruct Hs as [Hs|Hs].
        - destruct (Hb s Hs) as (H1 & H2 & _ & (f & Hf & Hfin)).
          repeat split; auto. exists f. auto.
        - destruct (Hall s Hs) as (H1 & H2 & H3).
          unfold m1 in H2. simpl in H2. rewrite stage_mem_app in H2.
          apply orb_false_iff in H2. destruct H2 as [H2 _].
          repeat split; auto. }
      split.
      { intros c. rewrite Hav, Hav1. split.
        - intros [[Hc|(s & Hs & Hc)]|(s & Hs & Hc)]; auto.
          + right. exists s. split; [apply in_app_iff; auto | exact Hc].
          + right. exists s. split; [apply in_app_iff; auto | exact Hc].
        - intros [Hc|(s & Hs & Hc)]; auto.
          apply in_app_iff in Hs. destruct Hs as [Hs|Hs]; eauto. }
      split.
      { intros c. rewrite Hrq, Hreq1. split.
        - intros [[Hc|(s & Hs & Hc)]|(s & Hs & Hc)]; auto.
          + right. exists s. split; [apply in_app_iff; auto | exact Hc].
          + right. exists s. split; [apply in_app_iff; auto | exact Hc].
        - intros [Hc|(s & Hs & Hc)]; auto.
          apply in_app_iff in Hs. destruct Hs as [Hs|Hs]; eauto. }
      intros Hnd0. rewrite map_app. apply NoDup_app; auto.
      intros i Hi Hi'. apply in_map_iff in Hi'.
      destruct Hi' as (s & <- & Hs). destruct (Hall s Hs) as (_ & H2 & _).
      unfold m1 in H2. simpl in H2. rewrite stage_mem_app in H2.
      apply orb_false_iff in H2. destruct H2 as [_ H2].
      apply stage_mem_false in H2. contradiction.
Qed.

(** When fewer stages are left than rounds, the loop ends because a round
    adds nothing: every stage left out lacks an input or is on another
    schedule. *)
Lemma build_loop_complete (ty : string) (g : option string) (n : nat) :
  forall e m e' m',
    (List.length (remaining jc ty g (spec m)) < n)%nat ->
    build_loop jc default_freq n ty g e m = Ok (e', m') ->
    forall s,
      In s (stages_of jc ty g) -> Stage.mem s (spec m') = false ->
      incl (Stage._input_set s) (available_columns m') ->
      exists f, schedule (attrs e' (Stage.id s)) = Some f /\
                ~ In f (meta_schedule m :: subsumed m).
Proof.
  induction n as [|n IH]; intros e m e' m' Hlen H; [lia|].
  simpl in H. inv_bind H. destruct a as [e1 r].
  pose proof (gather_inv _ _ _ _ _ _ _ _ _ _ _ Hbind)
    as (Hk1 & Hst & Hsched & Hcols & Hreq).
  pose proof (fun s => gathered_stage _ _ _ _ _ _ s Hbind) as Hb.
  destruct (List.length (stages r) =? 0)%nat eqn:Elen.
  - injection H as <- <-. simpl.
    apply Nat.eqb_eq in Elen. apply length_zero_iff_nil in Elen.
    intros s Hin Hmem Hinc. rewrite Elen, app_nil_r in Hmem.
    assert (Hav : incl (Stage._input_set s) (available_columns m)).
    { intros c Hc. apply Hinc in Hc. apply union_str_In in Hc.
      destruct Hc as [Hc|Hc]; [exact Hc|].
      apply Hcols in Hc. destruct Hc as [(s' & Hs' & _) _].
      rewrite Elen in Hs'. contradiction. }
    assert (Hcand : In s (filter (eligible (Some (available_columns m)) (spec m))
                                 (stages_of jc ty g))).
    { apply filter_In. split; [exact Hin|]. apply eligible_iff.
      split; [exact Hmem|]. intros a [= <-]. exact Hav. }
    destruct (Hsched s Hcand) as (f & Hf). exists f. split; [exact Hf|].
    intros Hfin.
    assert (Hon : on_schedule e1 (union_str [meta_schedule m] (subsumed m)) s
                  = true)
      by (apply on_schedule_iff; exists f; auto).
    assert (Hs : In s (stages r))
      by (rewrite Hst; apply filter_In; auto).
    rewrite Elen in Hs. contradiction.
  - set (m1 := {| spec := spec m ++ stages r;
                  meta_schedule := meta_schedule m;
                  subsumed := subsumed m;
                  available_columns :=
                    union_str (available_columns m) (new_cols r);
                  required_inputs :=
                    union_str (required_inputs m) (required_input_set r);
                  data_source_projection_list :=
                    data_source_projection_list m |}) in *.
    destruct (keep_projection_fields (projection_list r) m1)
      as (E1 & E2 & E3 & _ & _).
    intros s Hin Hmem Hinc.
    assert (Hlen2 : (List.length
                       (remaining jc ty g
                          (spec (keep_projection m1 (projection_list r))))
                     < n)%nat).
    { rewrite E1. unfold m1. simpl.
      destruct (stages r) as [|x b]; [discriminate|].
      destruct (Hb x (or_introl eq_refl)) as (Hx1 & Hx2 & _).
      assert (Hlt : (List.length (remaining jc ty g (spec m ++ x :: b)) <
                     List.length (remaining jc ty g (spec m)))%nat).
      { unfold remaining. apply (filter_length_lt _ _ _ x).
        - intros y Hy. rewrite stage_mem_app in Hy.
          apply negb_true_iff in Hy. apply orb_false_iff in Hy.
          apply negb_true_iff. apply Hy.
        - exact Hx1.
        - rewrite Hx2. reflexivity.
        - rewrite stage_mem_app. apply negb_false_iff. apply orb_true_iff.
          right. apply stage_mem_self. left. reflexivity. }
      lia. }
    destruct (IH _ _ _ _ Hlen2 H s Hin Hmem Hinc) as (f & Hf & Hnot).
    exists f. split; [exact Hf|]. rewrite E2, E3 in Hnot. exact Hnot.
Qed.

End BuildFacts.

Section BuildTheorems.
Import JobSpec.
Variable jc : controller.
Variable default_freq : string.

(** X12.  The stages [build_stages_of_type] adds to a specification come in
    an order in which they can run: the inputs of each are among the columns
    that were available at the start or among the outputs of the stages
    added before it. Each added stage is a stage the payload has for the
    type and granularity, was not in the specification, and is on the
    schedule asked for or on one it subsumes. The available columns grow by
    the outputs of the added stages and the required inputs by their inputs,
    and by nothing else. *)
Theorem build_stages_of_type_order
    (ty : string) (g : option string) (e e' : env) (m m' : build_metadata) :
  build_stages_of_type jc default_freq ty g e m = Ok (e', m') ->
  exists added,
    spec m' = spec m ++ added /\
    (forall pre s post, added = pre ++ s :: post ->
       incl (Stage._input_set s)
            (available_columns m ++ flat_map Stage._output_list pre)) /\
    (forall s, In s added ->
       In s (stages_of jc ty g) /\ Stage.mem s (spec m) = false /\
       exists f, schedule (attrs e' (Stage.id s)) = Some f /\
                 In f (meta_schedule m :: subsumed m)) /\
    (forall c, In c (available_columns m') <->
       In c (available_columns m) \/
       exists s, In s added /\ In c (Stage._output_list s)) /\
    (forall c, In c (required_inputs m') <->
       In c (required_inputs m) \/
       exists s, In s added /\ In c (Stage._input_set s)).
Proof.
  unfold build_stages_of_type. intros H.
  destruct (build_loop_inv _ _ _ _ _ _ _ _ _ H)
    as (_ & _ & _ & added & Hspec & Hord & Hall & Hav & Hreq & _).
  exists added. split; [exact Hspec|]. split; [|auto].
  intros pre s post ->. apply (ordered_split _ _ _ _ Hord).
Qed.

Lemma remaining_length (ty : string) (g : option string) (l : list Stage.t) :
  (List.length (remaining jc ty g l) <= List.length (stages_of jc ty g))%nat.
Proof.
  unfold remaining. induction (stages_of jc ty g) as [|x xs IH]; simpl; [lia|].
  destruct (negb (Stage.mem x l)); simpl; lia.
Qed.

(** X13.  When the payload has fewer stages of the type than the loop has
    rounds, nothing that can run is left out: a stage of the type that is
    not in the specification at the end either lacks an input among the
    available columns or is on a schedule that was not asked for. No stage
    is added twice. *)
Theorem build_stages_of_type_complete
    (ty : string) (g : option string) (e e' : env) (m m' : build_metadata) :
  NoDup (map Stage.id (stages_of jc ty g)) ->
  (List.length (stages_of jc ty g) < recursion_limit)%nat ->
  build_stages_of_type jc default_freq ty g e m = Ok (e', m') ->
  (forall added, spec m' = spec m ++ added -> NoDup (map Stage.id added)) /\
  (forall s,
     In s (stages_of jc ty g) -> Stage.mem s (spec m') = false ->
     incl (Stage._input_set s) (available_columns m') ->
     exists f, schedule (attrs e' (Stage.id s)) = Some f /\
               ~ In f (meta_schedule m :: subsumed m)).
Proof.
  unfold build_stages_of_type. intros Hnd Hlen H. split.
  - destruct (build_loop_inv _ _ _ _ _ _ _ _ _ H)
      as (_ & _ & _ & added & Hspec & _ & _ & _ & _ & Hnodup).
    intros added' Hspec'. rewrite Hspec in Hspec'.
    apply app_inv_head in Hspec'. subst added'. auto.
  - pose proof (remaining_length ty g (spec m)) as Hrem.
    assert (Hlt : (List.length (remaining jc ty g (spec m)) < recursion_limit)%nat)
      by lia.
    apply (build_loop_complete _ _ _ _ _ _ _ _ _ Hlt H).
Qed.

End BuildTheorems.

Section RemoveStageFacts.
Import JobSpec.

Lemma replace_values_fold {V : Type} (f : V -> V) (l : odict string V) :
  forall js : odict string V,
    NoDup (od_keys l) ->
    (forall k v, In (k, v) l -> od_get String.eqb js k = Some v) ->
    let res := fold_left (fun js kv => od_set String.eqb js (fst kv) (f (snd kv)))
                         l js in
    od_keys res = od_keys js /\
    forall k, od_get String.eqb res k =
              if mem_str k (od_keys l)
              then option_map f (od_get String.eqb js k)
              else od_get String.eqb js k.
Proof.
  induction l as [|[k0 v0] l IH]; simpl; intros js Hnd Hall.
  - split; reflexivity.
  - inversion Hnd as [|? ? Hnotin Hnd']; subst.
    assert (Hk0 : od_get String.eqb js k0 = Some v0) by (apply Hall; auto).
    destruct (IH (od_set String.eqb js k0 (f v0)) Hnd') as (Hkeys & Hget).
    { intros k v Hin.
      assert (Hne : k0 <> k).
      { intros ->. apply Hnotin. apply (in_map fst) in Hin. exact Hin. }
      rewrite (od_get_set_neq _ _ _ string_eqb_spec) by exact Hne.
      apply Hall. auto. }
    split.
    + rewrite Hkeys, od_keys_set. unfold od_mem. rewrite Hk0. reflexivity.
    + intros k. rewrite Hget.
      destruct (String.eqb k k0) eqn:E.
      * apply String.eqb_eq in E. subst k. simpl.
        assert (Hm : mem_str k0 (od_keys l) = false)
          by (apply mem_str_false; exact Hnotin).
        rewrite Hm, (od_get_set_eq _ _ _ string_eqb_spec), Hk0. reflexivity.
      * simpl. apply String.eqb_neq in E.
        rewrite (od_get_set_neq _ _ _ string_eqb_spec) by congruence.
        reflexivity.
Qed.

(** X14.  Removing a stage from a job specification: the levels stay as they
    are and in their order, and each keeps, in order, its stages other than
    the one removed, which is then in no level. *)
Theorem remove_stage_removes (job_spec : odict string (list Stage.t))
      (stage : Stage.t) :
  NoDup (od_keys job_spec) ->
  od_keys (remove_stage job_spec stage) = od_keys job_spec /\
  (forall k, od_get String.eqb (remove_stage job_spec stage) k =
             option_map (filter (fun x => negb (same_stage x stage)))
                        (od_get String.eqb job_spec k)) /\
  (forall k l, od_get String.eqb (remove_stage job_spec stage) k = Some l ->
               Stage.mem stage l = false).
Proof.
  intros Hnd. unfold remove_stage.
  destruct (replace_values_fold
              (filter (fun x => negb (same_stage x stage))) job_spec job_spec Hnd)
    as (Hkeys & Hget).
  { intros k v Hin. apply (In_od_get _ _ _ string_eqb_spec); assumption. }
  assert (Hget' : forall k,
             od_get String.eqb
               (fold_left
                  (fun js kv =>
                     od_set String.eqb js (fst kv)
                            (filter (fun x => negb (same_stage x stage)) (snd kv)))
                  job_spec job_spec) k =
             option_map (filter (fun x => negb (same_stage x stage)))
                        (od_get String.eqb job_spec k)).
  { intros k. rewrite Hget. destruct (mem_str k (od_keys job_spec)) eqn:E;
      [reflexivity|].
    apply mem_str_false in E.
    apply (od_get_None _ _ _ string_eqb_spec) in E. rewrite E. reflexivity. }
  split; [exact Hkeys|]. split; [exact Hget'|].
  intros k l Hl. rewrite Hget' in Hl.
  destruct (od_get String.eqb job_spec k) as [l0|]; [|discriminate].
  injection Hl as <-. unfold Stage.mem.
  destruct (existsb _ _) eqn:E; [|reflexivity].
  apply existsb_exists in E. destruct E as (x & Hx & Hid).
  apply filter_In in Hx. destruct Hx as [_ Hx].
  unfold same_stage in Hx. rewrite Hid in Hx. discriminate.
Qed.

End RemoveStageFacts.

(* ===================================================================== *)
(** * More on the merge: the strategies one by one *)
(* ===================================================================== *)

Section StrategyFacts.
Context {J : Joins}.

Lemma labels_in_get_cols (d : DataFrame) (cols : list string) :
  incl cols (labels d) -> subset_str cols (get_cols d) = true.
Proof.
  intros H. apply subset_str_incl. intros x Hx. unfold get_cols.
  apply in_or_app. right. apply H, Hx.
Qed.

(** Assigning [None] to columns one after the other. *)
Lemma fold_set_none (l : list string) :
  forall d,
    exists d',
      foldM (fun acc c => setitem acc c PNone) l d = Ok d' /\
      index d' = index d /\ ikind d' = ikind d /\
      forall c, column d' c =
                if mem_str c l then Some (repeat SNone (nrows d))
                else column d c.
Proof.
  induction l as [|x l IH]; intros d.
  - exists d. simpl. auto.
  - simpl foldM. unfold setitem at 1. simpl.
    match goal with
    | |- context [foldM _ l ?d1] => destruct (IH d1) as (d' & Hf & Hi & Hk & Hc)
    end.
    exists d'. split; [exact Hf|]. simpl in Hi, Hk. split; [exact Hi|].
    split; [exact Hk|]. intros c. rewrite Hc. unfold nrows. simpl.
    unfold column. simpl. rewrite (String.eqb_sym c x).
    destruct (mem_str c l) eqn:Em.
    + rewrite orb_true_r. reflexivity.
    + rewrite orb_false_r. destruct (String.eqb x c) eqn:E.
      * apply String.eqb_eq in E. subst c.
        apply (od_get_set_eq _ _ _ string_eqb_spec).
      * apply String.eqb_neq in E.
        apply (od_get_set_neq _ _ _ string_eqb_spec). exact E.
Qed.

Lemma cells_of_list (l cells : list scalar) (n : nat) :
  cells_of (PList l) n = Ok cells -> cells = l.
Proof.
  simpl. destruct (List.length l =? n)%nat; [|discriminate].
  intros [= <-]. reflexivity.
Qed.

End StrategyFacts.

Section MergeStrategies.
Context {J : Joins}.

(** X15.  Existing values win. When the object delivered has the index of
    the frame and every promised column is already in the frame, a merge
    without [force_overwrite] changes nothing: the values delivered are
    dropped. *)
Theorem merge_keeps_delivered_columns
    (self : t) (obj : DataFrame + Series) (col_names : list string)
    (d : DataFrame) :
  normalize obj col_names = Ok d ->
  empty d = false -> empty (df self) = false ->
  index_equals d (df self) = true ->
  incl col_names (labels (df self)) ->
  merge_dataframe self obj col_names false = Ok self /\
  execute self (match obj with inl f => OFrame f | inr s => OSeries s end)
          col_names false = Ok self.
Proof.
  intros Hnorm Hd Hself Hidx Hincl.
  assert (Hm : merge_dataframe self obj col_names false = Ok self).
  { unfold merge_dataframe. rewrite Hnorm. simpl.
    unfold choose_strategy. rewrite Hd, Hself, Hidx.
    rewrite (proj2 (subset_str_incl _ _) Hincl). simpl.
    assert (Hmiss : filter (fun x => negb (mem_str x (labels (df self))))
                           col_names = []).
    { clear - Hincl. induction col_names as [|c cols IH]; [reflexivity|].
      simpl. rewrite (proj2 (mem_str_In _ _) (Hincl c (or_introl eq_refl))).
      simpl. apply IH. intros x Hx. apply Hincl. right. exact Hx. }
    rewrite Hmiss. simpl. destruct self; reflexivity. }
  split; [exact Hm|].
  unfold execute, merge_phase. destruct obj; rewrite Hm; simpl;
    rewrite Hself, (labels_in_get_cols _ _ Hincl); reflexivity.
Qed.

(** X16.  The slice. When the object delivered has the index of the frame
    and brings a column the frame does not have (or [force_overwrite] is
    set), its columns are assigned to the frame: the index stays, every
    column of the object is in the frame with the cells delivered, and the
    other columns of the frame are untouched. The labels of the object are
    distinct. *)
Theorem merge_slice_assigns_columns
    (self : t) (obj : DataFrame + Series) (col_names : list string)
    (force_overwrite : bool) (d : DataFrame) (self' : t) :
  normalize obj col_names = Ok d ->
  empty d = false -> empty (df self) = false ->
  index_equals d (df self) = true ->
  force_overwrite = true \/ ~ incl col_names (labels (df self)) ->
  NoDup (labels d) ->
  merge_dataframe self obj col_names force_overwrite = Ok self' ->
  index (df self') = index (df self) /\
  constants self' = constants self /\
  (forall c cells, In (c, cells) (columns d) ->
                   column (df self') c = Some cells) /\
  (forall c, ~ In c (labels d) -> column (df self') c = column (df self) c).
Proof.
  intros Hnorm Hd Hself Hidx Hnew Hnd H.
  unfold merge_dataframe in H. rewrite Hnorm in H. simpl in H.
  unfold choose_strategy in H. rewrite Hd, Hself, Hidx in H.
  assert (Hcond : subset_str col_names (labels (df self))
                  && negb force_overwrite = false).
  { destruct Hnew as [->|Hnot]; [apply andb_false_r|].
    destruct (subset_str col_names (labels (df self))) eqn:E; [|reflexivity].
    apply subset_str_incl in E. contradiction. }
  rewrite Hcond in H. simpl in H. inv_bind H. injection H as <-. simpl.
  destruct (not_empty_elim _ Hself) as (Hrows & _).
  split; [apply (fold_setitem_index fst (fun c => PList (snd c)) _ _ _ Hrows Hbind)|].
  split; [reflexivity|]. split.
  - intros c cells Hin.
    destruct (fold_setitem_columns fst (fun c => PList (snd c)) _ _ _
                Hrows Hnd Hbind (c, cells) Hin) as (cells' & Hcells & Hcol).
    simpl in Hcells, Hcol. apply cells_of_list in Hcells. subst cells'.
    exact Hcol.
  - intros c Hnot.
    apply (fold_setitem_other fst (fun c => PList (snd c)) _ c _ _
             Hrows Hnot Hbind).
Qed.

(** X17.  The replacement. The first frame with data that is merged into an
    empty [DataMerge] becomes its frame, and the constants registered so far
    are applied to it: the index is the index of the object, every constant
    has its column, holding the cells that assigning the constant gives, and
    the columns of the object that are not constants are as delivered. The
    keys of the constants are distinct. *)
Theorem merge_replace_applies_constants
    (self : t) (obj : DataFrame + Series) (col_names : list string)
    (force_overwrite : bool) (d : DataFrame) (self' : t) :
  NoDup (od_keys (constants self)) ->
  normalize obj col_names = Ok d ->
  empty d = false -> empty (df self) = true ->
  merge_dataframe self obj col_names force_overwrite = Ok self' ->
  index (df self') = index d /\
  constants self' = constants self /\
  (forall k v, od_get String.eqb (constants self) k = Some v ->
     exists cells, column (df self') k = Some cells /\
                   cells_of v (nrows d) = Ok cells) /\
  (forall c, ~ In c (od_keys (constants self)) ->
             column (df self') c = column d c).
Proof.
  intros Hnd Hnorm Hd Hself H.
  unfold merge_dataframe in H. rewrite Hnorm in H. simpl in H.
  unfold choose_strategy in H. rewrite Hd, Hself in H. simpl in H.
  apply apply_constants_inv in H. destruct H as [Happly Hconst].
  unfold apply_constants_to in Happly.
  destruct (not_empty_elim _ Hd) as (Hrows & _).
  pose proof (fold_setitem_index fst snd _ _ _ Hrows Happly) as Hindex.
  split; [exact Hindex|]. split; [exact Hconst|]. split.
  - intros k v Hget. apply (od_get_In _ _ _ string_eqb_spec) in Hget.
    destruct (fold_setitem_columns fst snd _ _ _ Hrows Hnd Happly (k, v) Hget)
      as (cells & Hcells & Hcol).
    exists cells. split; [exact Hcol|].
    unfold nrows in Hcells |- *. rewrite Hindex in Hcells. exact Hcells.
  - intros c Hnot. apply (fold_setitem_other fst snd _ c _ _ Hrows Hnot Happly).
Qed.

(** X18.  An object without data. Merging an empty frame or series never
    fails and never changes what the frame holds: the index and the columns
    of the frame stay as they are, and every promised column the frame does
    not have is added with [None] in every row. *)
Theorem merge_empty_object_adds_null_columns
    (self : t) (obj : DataFrame + Series) (col_names : list string)
    (force_overwrite : bool) (d : DataFrame) :
  normalize obj col_names = Ok d ->
  empty d = true ->
  exists self',
    merge_dataframe self obj col_names force_overwrite = Ok self' /\
    index (df self') = index (df self) /\
    constants self' = constants self /\
    (forall c, In c (labels (df self)) ->
               column (df self') c = column (df self) c) /\
    (forall c, In c col_names -> ~ In c (labels (df self)) ->
               column (df self') c = Some (repeat SNone (nrows (df self)))).
Proof.
  intros Hnorm Hd.
  unfold merge_dataframe. rewrite Hnorm. simpl.
  unfold choose_strategy. rewrite Hd. simpl.
  destruct (fold_set_none
              (filter (fun x => negb (mem_str x (labels (df self)))) col_names)
              (df self)) as (d' & Hf & Hi & _ & Hc).
  rewrite Hf. simpl. eexists. split; [reflexivity|]. simpl.
  split; [exact Hi|]. split; [reflexivity|]. split.
  - intros c Hin. rewrite Hc.
    destruct (mem_str c _) eqn:E; [|reflexivity].
    apply mem_str_In in E. apply filter_In in E. destruct E as [_ E].
    apply negb_true_iff in E. apply mem_str_false in E. contradiction.
  - intros c Hin Hnot. rewrite Hc.
    assert (E : mem_str c (filter (fun x => negb (mem_str x (labels (df self))))
                                  col_names) = true).
    { apply mem_str_In. apply filter_In. split; [exact Hin|].
      apply negb_true_iff. apply mem_str_false. exact Hnot. }
    rewrite E. reflexivity.
Qed.

(** X19.  An index without names. A frame with data whose index has no name,
    merged into a frame with data that has another index and a named one, is
    not told what is wrong: the branch that should raise the [ValueError]
    about the index reads [df_valid_names], which is only assigned by the
    lookup branch, and the call ends in an [UnboundLocalError]. *)
Theorem merge_unnamed_index_error
    (self : t) (obj : DataFrame + Series) (col_names : list string)
    (force_overwrite : bool) (d : DataFrame) :
  normalize obj col_names = Ok d ->
  empty d = false -> empty (df self) = false ->
  index_equals d (df self) = false ->
  get_index_names d = [] -> get_index_names (df self) <> [] ->
  exists msg,
    merge_dataframe self obj col_names force_overwrite =
      Err (Raise UnboundLocalError msg) /\
    execute self (match obj with inl f => OFrame f | inr s => OSeries s end)
            col_names force_overwrite = Err (Raise UnboundLocalError msg).
Proof.
  intros Hnorm Hd Hself Hidx Hnames Hnamed.
  assert (Hm : merge_dataframe self obj col_names force_overwrite =
               Err (Raise UnboundLocalError
                      "local variable 'df_valid_names' referenced before assignment")).
  { unfold merge_dataframe. rewrite Hnorm. simpl.
    unfold choose_strategy. rewrite Hd, Hself, Hidx, Hnames.
    destruct (get_index_names (df self)) as [|n ns]; [contradiction|].
    simpl. rewrite Hnames. reflexivity. }
  eexists. split; [exact Hm|].
  unfold execute, merge_phase. destruct obj; rewrite Hm; reflexivity.
Qed.

(** X20.  A scalar that arrives before the data. A scalar merged while the
    frame has no rows is kept as a constant, and the first frame with data
    merged afterwards has it in every row of the column. *)
Theorem scalar_before_data_fills_every_row
    (self self1 self2 : t) (c : string) (v : scalar)
    (f : DataFrame) (col_names : list string) (force_overwrite : bool) :
  NoDup (od_keys (constants self)) ->
  nrows (df self) = 0%nat ->
  execute self (OPlain (PScalar v)) [c] false = Ok self1 ->
  empty f = false ->
  execute self1 (OFrame f) col_names force_overwrite = Ok self2 ->
  od_get String.eqb (constants self2) c = Some (PScalar v) /\
  column (df self2) c = Some (repeat v (nrows f)) /\
  index (df self2) = index f.
Proof.
  intros Hnd Hrows H1 Hf H2.
  assert (Hempty : empty (df self) = true)
    by (unfold empty; rewrite Hrows; reflexivity).
  unfold execute, merge_phase in H1. simpl in H1.
  unfold merge_non_dataframe in H1. rewrite Hempty in H1.
  unfold add_constant in H1. inv_bind H1. inv_bind Hbind.
  injection Hbind as <-. rename a0 into d1.
  unfold setitem in Hbind0. simpl in Hbind0. injection Hbind0 as <-.
  assert (Hself1 : self1 = {| df := {| ikind := ikind (df self);
                                       index := index (df self);
                                       columns := od_set String.eqb (columns (df self)) c
                                                         (repeat v (nrows (df self))) |};
                              constants := od_set String.eqb (constants self) c
                                                  (PScalar v) |}).
  { simpl in H1.
    match type of H1 with
    | (if ?b then _ else _) = _ => destruct b; [discriminate|]
    end.
    injection H1 as <-. reflexivity. }
  clear H1.
  assert (Hempty1 : empty (df self1) = true).
  { rewrite Hself1. unfold empty, nrows. simpl. fold (nrows (df self)).
    rewrite Hrows. reflexivity. }
  assert (Hnd1 : NoDup (od_keys (constants self1))).
  { rewrite Hself1. simpl. apply (od_set_NoDup _ _ _ string_eqb_spec). exact Hnd. }
  assert (Hget1 : od_get String.eqb (constants self1) c = Some (PScalar v)).
  { rewrite Hself1. simpl. apply (od_get_set_eq _ _ _ string_eqb_spec). }
  unfold execute, merge_phase in H2. inv_bind H2. rename a into m2.
  assert (Hres : self2 = m2).
  { destruct (negb (empty (df m2)) && _); [discriminate|].
    injection H2 as <-. reflexivity. }
  subst m2. clear H2.
  unfold merge_dataframe in Hbind. inv_bind Hbind. rename a into d.
  assert (Hd : empty d = false /\ nrows d = nrows f /\ index d = index f).
  { unfold normalize in Hbind0.
    destruct (List.length col_names =? List.length (columns f))%nat eqn:E;
      injection Hbind0 as <-; [|auto].
    unfold empty, nrows, relabel. simpl. repeat split; auto.
    unfold empty in Hf. apply orb_false_iff in Hf. destruct Hf as [Hr Hc].
    fold (nrows f). rewrite Hr. simpl.
    apply Nat.eqb_eq in E. rewrite length_combine, length_map, E, Nat.min_id.
    exact Hc. }
  destruct Hd as (Hd & Hrd & Hid).
  unfold choose_strategy in Hbind. rewrite Hd, Hempty1 in Hbind. simpl in Hbind.
  apply apply_constants_inv in Hbind. destruct Hbind as [Happly Hconst].
  unfold apply_constants_to in Happly.
  destruct (not_empty_elim _ Hd) as (Hrows' & _).
  pose proof (fold_setitem_index fst snd _ _ _ Hrows' Happly) as Hindex.
  split; [rewrite Hconst; exact Hget1|].
  split; [|rewrite Hindex; exact Hid].
  apply (od_get_In _ _ _ string_eqb_spec) in Hget1.
  destruct (fold_setitem_columns fst snd _ _ _ Hrows' Hnd1 Happly
              (c, PScalar v) Hget1) as (cells & Hcells & Hcol).
  simpl in Hcells, Hcol. injection Hcells as <-.
  rewrite Hcol. unfold nrows. rewrite Hindex, Hid. reflexivity.
Qed.

End MergeStrategies.

(* ===================================================================== *)
(** * More on the execution of stages *)
(* ===================================================================== *)

Section HaltFacts.
Context {J : Joins}.

Lemma run_stages_halt (stages : list Stage.t) :
  forall (merge merge' : DataMerge.t) (start_ts end_ts : option datetime),
    run_stages stages merge start_ts end_ts = Ok (merge', false) ->
    empty (DataMerge.df merge') = true /\
    exists pre s post,
      stages = pre ++ s :: post /\ Stage._allow_empty_df s = Some false.
Proof.
  induction stages as [|s rest IH]; intros merge merge' start_ts end_ts H.
  - simpl in H. discriminate.
  - simpl in H.
    destruct (negb (get_stage_param (Stage._allow_empty_df s) true)
              && empty (DataMerge.df merge)) eqn:E.
    + injection H as <-. apply andb_true_iff in E. destruct E as [Ea Ee].
      split; [exact Ee|]. exists [], s, rest. split; [reflexivity|].
      destruct (Stage._allow_empty_df s) as [[|]|]; simpl in Ea;
        try discriminate. reflexivity.
    + inv_bind H. inv_bind H. inv_bind H.
      destruct (IH _ _ _ _ H) as (He & pre & s' & post & -> & Hs').
      split; [exact He|]. exists (s :: pre), s', post. auto.
Qed.

(** X21.  The only halt. [execute_stages] returns [can_proceed = False] only
    when a stage that does not allow an empty frame was about to receive
    one: the frame returned is then empty, and the list of stages holds such
    a stage. With stages that all allow an empty frame (the default)
    [can_proceed] is always [True]. *)
Theorem execute_stages_halts_only_on_empty_frame
    (stages : list Stage.t) (d : option DataFrame)
    (start_ts end_ts : option datetime) (constants : option (odict string plain))
    (res : DataFrame) (can_proceed : bool) :
  execute_stages stages d start_ts end_ts constants = Ok (res, can_proceed) ->
  (can_proceed = false ->
   empty res = true /\
   exists pre s post,
     stages = pre ++ s :: post /\ Stage._allow_empty_df s = Some false) /\
  ((forall s, In s stages -> Stage._allow_empty_df s <> Some false) ->
   can_proceed = true).
Proof.
  unfold execute_stages. intros H. inv_bind H. destruct a as [merge' b].
  injection H as <- <-. simpl.
  assert (Hhalt : b = false ->
            empty (DataMerge.df merge') = true /\
            exists pre s post,
              stages = pre ++ s :: post /\ Stage._allow_empty_df s = Some false).
  { intros ->. apply (run_stages_halt _ _ _ _ _ Hbind). }
  split; [exact Hhalt|]. intros Hall. destruct b; [reflexivity|].
  destruct (Hhalt eq_refl) as (_ & pre & s & post & -> & Hs).
  exfalso. apply (Hall s); [|exact Hs]. apply in_or_app. right. left. reflexivity.
Qed.

End HaltFacts.

(* ===================================================================== *)
(** * More on the writer: the calls made to the database *)
(* ===================================================================== *)

Section PrepareFacts.
Import Db2DataWriter WriterSpec.

Lemma active_cols_none (w : writer) (ls : list string) :
  forall cp,
    (forall c, In c ls -> selection w c = None) ->
    fold_left (active_col w) ls cp = cp.
Proof.
  induction ls as [|c ls IH]; simpl; intros cp H; [reflexivity|].
  rewrite active_col_selection, (H c (or_introl eq_refl)).
  apply IH. intros c' Hc'. apply H. right. exact Hc'.
Qed.


Lemma mapM_length {A B : Type} (f : A -> result B) (l : list A) (ys : list B) :
  mapM f l = Ok ys -> List.length ys = List.length l.
Proof.
  intros H. apply mapM_Forall2 in H. symmetry.
  apply (Forall2_length H).
Qed.

Lemma index_positions_length (d : DataFrame) (g : option grain)
      (pos : list nat) :
  index_positions d g = Ok pos ->
  List.length pos = List.length (insert_dimensions g).
Proof.
  unfold index_positions, insert_dimensions. destruct g as [g|].
  - intros H. inv_bind H. injection H as <-.
    assert (Hdims : List.length a =
                    List.length match dimensions g with
                                | Some ds => ds
                                | None => []
                                end).
    { destruct (dimensions g) as [ds|].
      - apply (mapM_length _ _ _ Hbind).
      - injection Hbind as <-. reflexivity. }
    rewrite !length_app, Hdims.
    destruct (entity_id g), (freq g); reflexivity.
  - intros [= <-]. reflexivity.
Qed.

(** The table properties: one entry per table of the active columns, made
    from the first column of the table. *)
Lemma table_props_inv (w : writer) (d : DataFrame) (cp : col_props_t)
      (tps : odict string table_prop) :
  _get_table_properties w d cp = Ok tps ->
  NoDup (od_keys tps) /\
  (forall t tp, In (t, tp) tps ->
     exists item ty pos,
       In (item, (ty, t)) cp /\
       sql_delete tp = t /\
       sql_insert tp = (t, insert_dimensions (grains_metadata w item)) /\
       index_pos tp = Some pos /\
       List.length pos =
         List.length (insert_dimensions (grains_metadata w item))) /\
  (forall item ty t, In (item, (ty, t)) cp -> In t (od_keys tps)) /\
  (cp <> [] -> is_multi d = true).
Proof.
  unfold _get_table_properties.
  assert (Hgen : forall l acc res,
    foldM
      (fun (table_props : odict string table_prop)
           (item : string * (string * string)) =>
         let '(item_name, (_, table_name)) := item in
         match od_get String.eqb table_props table_name with
         | Some _ => Ok table_props
         | None =>
             let g := grains_metadata w item_name in
             if negb (is_multi d) then
               raise TypeError "'NoneType' object is not iterable"
             else
               pos <- index_positions d g ;;
               Ok (od_set String.eqb table_props table_name
                     {| sql_delete := table_name;
                        sql_insert := (table_name, insert_dimensions g);
                        index_pos := Some pos |})
         end) l acc = Ok res ->
    NoDup (od_keys acc) ->
    (forall t tp, In (t, tp) acc ->
       exists item ty pos,
         In (item, (ty, t)) cp /\ sql_delete tp = t /\
         sql_insert tp = (t, insert_dimensions (grains_metadata w item)) /\
         index_pos tp = Some pos /\
         List.length pos =
           List.length (insert_dimensions (grains_metadata w item))) ->
    incl l cp ->
    NoDup (od_keys res) /\
    (forall t tp, In (t, tp) res ->
       exists item ty pos,
         In (item, (ty, t)) cp /\ sql_delete tp = t /\
         sql_insert tp = (t, insert_dimensions (grains_metadata w item)) /\
         index_pos tp = Some pos /\
         List.length pos =
           List.length (insert_dimensions (grains_metadata w item))) /\
    (forall t, In t (od_keys acc) -> In t (od_keys res)) /\
    (forall item ty t, In (item, (ty, t)) l -> In t (od_keys res)) /\
    (l <> [] -> acc = [] -> is_multi d = true)).
  { induction l as [|[item [ty t]] l IH]; intros acc res H Hnd Hacc Hincl.
    - simpl in H. injection H as <-.
      split; [exact Hnd|]. split; [exact Hacc|]. split; [auto|].
      split; [intros ? ? ? []|]. intros Hne. contradiction.
    - simpl in H.
      destruct (od_get String.eqb acc t) as [tp0|] eqn:Eget.
      + simpl in H.
        destruct (IH acc res H Hnd Hacc) as (R1 & R2 & R3 & R4 & _).
        { intros x Hx. apply Hincl. right. exact Hx. }
        split; [exact R1|]. split; [exact R2|]. split; [exact R3|]. split.
        * intros item' ty' t' [Heq|Hin]; [|eauto].
          injection Heq as <- <- <-. apply R3.
          apply (od_get_In _ _ _ string_eqb_spec) in Eget.
          apply (in_map fst) in Eget. exact Eget.
        * intros _ ->. simpl in Eget. discriminate.
      + destruct (is_multi d) eqn:Em; simpl in H; [|discriminate].
        inv_bind H. inv_bind Hbind. rename a0 into pos.
        injection Hbind as <-.
        assert (Hfresh : ~ In t (od_keys acc))
          by (apply (od_get_None _ _ _ string_eqb_spec); exact Eget).
        destruct (IH _ res H) as (R1 & R2 & R3 & R4 & _).
        { apply (od_set_NoDup _ _ _ string_eqb_spec). exact Hnd. }
        { intros t' tp' Hin. apply (od_set_In _ _ _ string_eqb_spec) in Hin.
          destruct Hin as [[-> ->]|Hin]; [|auto].
          exists item, ty, pos. simpl. repeat split; auto.
          - apply Hincl. left. reflexivity.
          - apply (index_positions_length _ _ _ Hbind0). }
        { intros x Hx. apply Hincl. right. exact Hx. }
        split; [exact R1|]. split; [exact R2|].
        assert (Hkeys : forall x, In x (t :: od_keys acc) ->
                  In x (od_keys (od_set String.eqb acc t
                     {| sql_delete := t;
                        sql_insert :=
                          (t, insert_dimensions (grains_metadata w item));
                        index_pos := Some pos |}))).
        { intros x Hx. rewrite (od_set_new _ _ _ string_eqb_spec) by exact Hfresh.
          unfold od_keys. rewrite map_app. apply in_or_app. simpl.
          destruct Hx as [<-|Hx]; auto. }
        split; [intros x Hx; apply R3, Hkeys; right; exact Hx|].
        split; [|auto].
        intros item' ty' t' [Heq|Hin]; [|eauto].
        injection Heq as <- <- <-. apply R3, Hkeys. left. reflexivity. }
  intros H.
  destruct (Hgen cp [] tps H) as (R1 & R2 & _ & R4 & R5).
  - constructor.
  - intros ? ? [].
  - apply incl_refl.
  - repeat split; auto.
Qed.

(** The state [_delete_and_prepare] leaves: one delete and one empty list
    per table. *)
Lemma delete_and_prepare_inv (w : writer) (d : DataFrame)
      (start_ts end_ts : option Z) (cp : col_props_t)
      (tps : odict string table_prop) (st : persist_state) :
  _delete_and_prepare w d start_ts end_ts = Ok (cp, tps, st) ->
  cp = _get_active_cols_properties w d /\
  _get_table_properties w d cp = Ok tps /\
  row_lists st = map (fun tp => (fst tp, [])) tps /\
  db st = map (fun tp => DbDelete (fst tp) start_ts end_ts) tps.
Proof.
  unfold _delete_and_prepare. intros H. inv_bind H.
  injection H as <- <- <-. split; [reflexivity|]. split; [exact Hbind|].
  destruct (table_props_inv _ _ _ _ Hbind) as (Hnd & _).
  assert (Hgen : forall (l : odict string table_prop) st0,
    NoDup (od_keys (row_lists st0) ++ od_keys l) ->
    let st1 :=
      fold_left
        (fun st (tp : string * table_prop) =>
           {| row_lists := od_set String.eqb (row_lists st) (fst tp) [];
              db := db st ++ [DbDelete (fst tp) start_ts end_ts];
              counter := counter st |}) l st0 in
    row_lists st1 = row_lists st0 ++ map (fun tp => (fst tp, [])) l /\
    db st1 = db st0 ++ map (fun tp => DbDelete (fst tp) start_ts end_ts) l).
  { induction l as [|[t tp] l IH]; intros st0 Hnd0; simpl.
    - rewrite !app_nil_r. auto.
    - assert (Hfresh : ~ In t (od_keys (row_lists st0))).
      { intros Hin. simpl in Hnd0. apply NoDup_remove_2 in Hnd0.
        apply Hnd0. apply in_or_app. left. exact Hin. }
      match goal with
      | |- context [fold_left _ l ?s1] => destruct (IH s1) as (E1 & E2)
      end.
      { simpl. rewrite (od_set_new _ _ _ string_eqb_spec) by exact Hfresh.
        unfold od_keys in *. rewrite map_app. simpl. rewrite <- app_assoc.
        simpl. simpl in Hnd0. exact Hnd0. }
      simpl in E1, E2. rewrite E1, E2.
      rewrite (od_set_new _ _ _ string_eqb_spec) by exact Hfresh.
      rewrite <- !app_assoc. auto. }
  destruct (Hgen a {| row_lists := []; db := []; counter := 0 |} Hnd)
    as (E1 & E2).
  simpl in E1, E2. auto.
Qed.

End PrepareFacts.

Section PersistInvariant.
Import Db2DataWriter WriterSpec.
Context {R : PyRuntime}.
Variable P : string -> row -> Prop.
Variable tables : list string.
Variable deletes : list db_call.

Lemma inserts_ok_app (a b : list db_call) :
  inserts_ok P tables a -> inserts_ok P tables b ->
  inserts_ok P tables (a ++ b).
Proof.
  intros Ha Hb c Hc. apply in_app_iff in Hc. destruct Hc; auto.
Qed.

Lemma add_row_ok (st st' : persist_state) (table : string) (r : row) :
  state_ok P tables deletes st -> P table r ->
  add_row st table r = Ok st' ->
  state_ok P tables deletes st'.
Proof.
  intros (Hnd & Hkeys & Hlists & ins & Hdb & Hins) Hr H.
  unfold add_row in H. inv_bind H. rename a into row_list.
  unfold od_item in Hbind.
  destruct (od_get String.eqb (row_lists st) table) as [l0|] eqn:Eget;
    [|discriminate].
  injection Hbind as ->.
  pose proof (od_get_In _ _ _ string_eqb_spec _ _ _ Eget) as Hin.
  destruct (Hlists _ _ Hin) as (Hlen & Hrows).
  assert (Htable : In table tables).
  { rewrite <- Hkeys. apply (in_map fst) in Hin. exact Hin. }
  assert (Hmem : od_mem String.eqb (row_lists st) table = true)
    by (unfold od_mem; rewrite Eget; reflexivity).
  assert (Hrows' : forall x, In x (row_list ++ [r]) -> P table x).
  { intros x Hx. apply in_app_iff in Hx.
    destruct Hx as [Hx|[<-|[]]]; auto. }
  assert (Hlen' : List.length (row_list ++ [r]) = S (List.length row_list))
    by (rewrite length_app; simpl; lia).
  destruct (MAX_NUMBER_OF_ROWS_FOR_SQL <=? List.length (row_list ++ [r]))%nat
    eqn:Emax; injection H as <-; unfold state_ok; simpl.
  - split; [apply (od_set_NoDup _ _ _ string_eqb_spec); exact Hnd|].
    split; [rewrite od_keys_set, Hmem; exact Hkeys|]. split.
    + intros t l Hl. apply (od_set_In _ _ _ string_eqb_spec) in Hl.
      destruct Hl as [[-> ->]|Hl]; [|auto].
      split; [simpl; lia | intros ? []].
    + exists (ins ++ [DbInsert table (row_list ++ [r])]).
      split; [rewrite Hdb, app_assoc; reflexivity|].
      apply inserts_ok_app; [exact Hins|].
      intros c [<-|[]]. exists table, (row_list ++ [r]).
      split; [reflexivity|]. split; [exact Htable|].
      split; [lia | exact Hrows'].
  - apply Nat.leb_gt in Emax.
    split; [apply (od_set_NoDup _ _ _ string_eqb_spec); exact Hnd|].
    split; [rewrite od_keys_set, Hmem; exact Hkeys|]. split.
    + intros t l Hl. apply (od_set_In _ _ _ string_eqb_spec) in Hl.
      destruct Hl as [[-> ->]|Hl]; auto.
    + exists ins. auto.
Qed.

Variable table_props : odict string table_prop.
Hypothesis rows_ok :
  forall tp ix item_name item_type table_name v r,
    od_item String.eqb table_props table_name = Ok tp ->
    build_row tp ix item_name item_type v = Ok r ->
    P table_name r.

Lemma persist_cell_ok (d : DataFrame) (i : nat) (st : persist_state)
      (item : string * (string * string)) (st' : persist_state) :
  state_ok P tables deletes st ->
  persist_cell d table_props i st item = Ok st' ->
  state_ok P tables deletes st'.
Proof.
  intros Hst H. destruct item as [item_name [item_type table_name]].
  unfold persist_cell in H. inv_bind H. rename a into derived_value.
  destruct (isna_value derived_value); [injection H as <-; exact Hst|].
  inv_bind H. rename a into tp. inv_bind H. rename a into ix.
  inv_bind H. rename a into r.
  apply (add_row_ok _ _ _ _ Hst (rows_ok _ _ _ _ _ _ _ Hbind0 Hbind2) H).
Qed.

Lemma foldM_state_ok {A : Type} (f : persist_state -> A -> result persist_state)
      (l : list A) :
  (forall st a st', state_ok P tables deletes st -> f st a = Ok st' ->
                    state_ok P tables deletes st') ->
  forall st st', state_ok P tables deletes st -> foldM f l st = Ok st' ->
                 state_ok P tables deletes st'.
Proof.
  intros Hf. induction l as [|a l IH]; simpl; intros st st' Hst H.
  - injection H as <-. exact Hst.
  - inv_bind H. eauto.
Qed.

Lemma flush_ok (st : persist_state) :
  state_ok P tables deletes st ->
  exists ins, db (flush st) = deletes ++ ins /\ inserts_ok P tables ins.
Proof.
  intros (Hnd & Hkeys & Hlists & ins & Hdb & Hins). unfold flush.
  assert (Hgen : forall (l : odict string (list row)) st0 ins0,
    (forall t rows, In (t, rows) l ->
       In t tables /\
       (List.length rows < MAX_NUMBER_OF_ROWS_FOR_SQL)%nat /\
       forall r, In r rows -> P t r) ->
    db st0 = deletes ++ ins0 -> inserts_ok P tables ins0 ->
    exists ins1,
      db (fold_left
            (fun st tr =>
               if (0 <? List.length (snd tr))%nat
               then _persist_tuples st (fst tr) (snd tr)
               else st) l st0) = deletes ++ ins1 /\
      inserts_ok P tables ins1).
  { induction l as [|[t rows] l IH]; intros st0 ins0 Hl Hdb0 Hins0; simpl.
    - eauto.
    - destruct (Hl t rows (or_introl eq_refl)) as (Ht & Hlen & Hrows).
      assert (Hl' : forall t' rows', In (t', rows') l ->
                In t' tables /\
                (List.length rows' < MAX_NUMBER_OF_ROWS_FOR_SQL)%nat /\
                forall r, In r rows' -> P t' r)
        by (intros; apply Hl; right; assumption).
      destruct (0 <? List.length rows)%nat eqn:E.
      + apply Nat.ltb_lt in E.
        apply (IH _ (ins0 ++ [DbInsert t rows]) Hl').
        * simpl. rewrite Hdb0, app_assoc. reflexivity.
        * apply inserts_ok_app; [exact Hins0|].
          intros c [<-|[]]. exists t, rows. repeat split; auto; lia.
      + apply (IH _ ins0 Hl' Hdb0 Hins0). }
  apply (Hgen (row_lists st) st ins); auto.
  intros t rows Hin. destruct (Hlists _ _ Hin) as (Hlen & Hrows).
  repeat split; auto. rewrite <- Hkeys. apply (in_map fst) in Hin. exact Hin.
Qed.

Lemma persist_dataframe_ok (d : DataFrame) (cp : col_props_t)
      (st st' : persist_state) :
  state_ok P tables deletes st ->
  _persist_dataframe d cp table_props st = Ok st' ->
  exists ins, db st' = deletes ++ ins /\ inserts_ok P tables ins.
Proof.
  intros Hst H. unfold _persist_dataframe in H. inv_bind H.
  injection H as <-. apply flush_ok.
  assert (Hrow : forall st0 i st1,
             state_ok P tables deletes st0 ->
             foldM (persist_cell d table_props i) cp st0 = Ok st1 ->
             state_ok P tables deletes st1).
  { intros st0 i st1 Hst0 H0.
    apply (foldM_state_ok (persist_cell d table_props i) cp
             (fun s it s' => persist_cell_ok d i s it s') st0 st1 Hst0 H0). }
  apply (foldM_state_ok
           (fun st i => foldM (persist_cell d table_props i) cp st)
           (seq 0 (nrows d)) Hrow st a Hst Hbind).
Qed.

End PersistInvariant.

Section CallFacts.
Import Db2DataWriter WriterSpec.
Context {R : PyRuntime}.

Lemma typed_values_length (item_type : string) (v : value) (vals : list value) :
  typed_values item_type v = Ok vals -> List.length vals = 4%nat.
Proof.
  unfold typed_values. intros H. inv_bind H. injection H as <-. reflexivity.
Qed.

Lemma build_row_fits (tps : odict string table_prop) :
  (forall t tp, In (t, tp) tps ->
     exists pos, index_pos tp = Some pos /\
                 List.length pos = List.length (snd (sql_insert tp))) ->
  forall tp ix item_name item_type table_name v r,
    od_item String.eqb tps table_name = Ok tp ->
    build_row tp ix item_name item_type v = Ok r ->
    row_fits tps table_name r.
Proof.
  intros Hwf tp ix item_name item_type table_name v r Htp H.
  unfold build_row in H.
  inv_bind H. rename a into dims. inv_bind H. rename a into vals.
  injection H as <-. unfold od_item in Htp.
  destruct (od_get String.eqb tps table_name) as [tp0|] eqn:Eget; [|discriminate].
  injection Htp as ->. exists tp. split; [exact Eget|].
  destruct (Hwf _ _ (od_get_In _ _ _ string_eqb_spec _ _ _ Eget))
    as (pos & Hpos & Hlen).
  rewrite Hpos in Hbind. simpl in Hbind.
  apply mapM_length in Hbind. apply typed_values_length in Hbind0.
  simpl. rewrite length_app, length_map, Hbind, Hbind0, Hlen. lia.
Qed.

Lemma max_rows_positive : (0 < MAX_NUMBER_OF_ROWS_FOR_SQL)%nat.
Proof. unfold MAX_NUMBER_OF_ROWS_FOR_SQL. apply Nat.lt_0_succ. Qed.

(** The calls of a successful [execute]: one delete per table, then
    inserts. *)
Lemma execute_calls (w : writer) (d : DataFrame) (start_ts end_ts : option Z)
      (calls : list db_call) :
  execute w (Some d) start_ts end_ts = Ok calls ->
  exists tps ins,
    _get_table_properties w d (_get_active_cols_properties w d) = Ok tps /\
    calls = map (fun tp => DbDelete (fst tp) start_ts end_ts) tps ++ ins /\
    inserts_ok (row_fits tps) (od_keys tps) ins.
Proof.
  unfold execute. intros H. inv_bind H. destruct a as [[cp tps] st].
  destruct (delete_and_prepare_inv _ _ _ _ _ _ _ Hbind) as (-> & Htps & Hrl & Hdb).
  exists tps.
  destruct (table_props_inv _ _ _ _ Htps) as (Hnd & Hent & _ & _).
  assert (Hst : state_ok (row_fits tps) (od_keys tps)
                         (map (fun tp => DbDelete (fst tp) start_ts end_ts) tps)
                         st).
  { unfold state_ok. rewrite Hrl, Hdb.
    assert (Hk : od_keys (map (fun tp : string * table_prop =>
                                 (fst tp, @nil row)) tps) = od_keys tps).
    { unfold od_keys. rewrite map_map. reflexivity. }
    rewrite Hk. split; [exact Hnd|]. split; [reflexivity|]. split.
    - intros t l Hin. apply in_map_iff in Hin.
      destruct Hin as (tp & [= <- <-] & _).
      split; [exact max_rows_positive | intros ? []].
    - exists []. rewrite app_nil_r. split; [reflexivity | intros ? []]. }
  destruct (0 <? List.length (_get_active_cols_properties w d))%nat.
  - inv_bind H. injection H as <-.
    destruct (persist_dataframe_ok (row_fits tps) (od_keys tps) _ tps
                (build_row_fits tps
                   ltac:(intros t tp Hin;
                         destruct (Hent t tp Hin)
                           as (item & ty & pos & _ & _ & Hi & Hp & Hl);
                         exists pos; rewrite Hi; auto))
                _ _ _ _ Hst Hbind0) as (ins & Hdb' & Hins).
    exists ins. auto.
  - injection H as <-. destruct Hst as (_ & _ & _ & ins & Hdb' & Hins).
    exists ins. auto.
Qed.

End CallFacts.

Section WriterCalls.
Import Db2DataWriter WriterSpec.
Context {R : PyRuntime}.

(** X22.  Nothing to write. With a frame none of whose columns is selected
    for writing, the writer makes no call to the database at all, not even a
    delete, whatever the index of the frame and the time range. *)
Theorem writer_without_items_makes_no_call
    (w : writer) (d : DataFrame) (start_ts end_ts : option Z) :
  (forall c, In c (labels d) -> selection w c = None) ->
  execute w (Some d) start_ts end_ts = Ok [].
Proof.
  intros Hnone.
  unfold execute, _delete_and_prepare, _get_active_cols_properties.
  rewrite (active_cols_none w (labels d) [] Hnone). reflexivity.
Qed.

(** X23.  A frame whose index is not a [MultiIndex]. As soon as one column
    of such a frame is selected for writing, the writer fails with a
    [TypeError] before it makes any call to the database: the index
    positions are [None] for such a frame, and the debug message about
    them iterates over them. *)
Theorem writer_single_index_raises
    (w : writer) (d : DataFrame) (start_ts end_ts : option Z) (c : string) :
  is_multi d = false ->
  In c (labels d) -> selection w c <> None ->
  exists msg,
    execute w (Some d) start_ts end_ts = Err (Raise TypeError msg) /\
    execute_trace w (Some d) start_ts end_ts =
      ([], Some (Raise TypeError msg)).
Proof.
  intros Hsingle Hin Hsel.
  assert (Hfail : exists msg,
             _get_table_properties w d (_get_active_cols_properties w d)
             = Err (Raise TypeError msg)).
  { destruct (_get_table_properties w d (_get_active_cols_properties w d))
      as [tps|e] eqn:E.
    - exfalso. destruct (table_props_inv _ _ _ _ E) as (_ & _ & _ & Hmulti).
      assert (Hne : _get_active_cols_properties w d <> []).
      { intros Hnil.
        pose proof (active_cols_fold w (labels d) [] c) as Hget.
        fold (_get_active_cols_properties w d) in Hget. rewrite Hnil in Hget.
        rewrite (proj2 (mem_str_In _ _) Hin) in Hget. simpl in Hget.
        destruct (selection w c); [discriminate | contradiction]. }
      rewrite (Hmulti Hne) in Hsingle. discriminate.
    - unfold _get_table_properties in E.
      destruct (_get_active_cols_properties w d) as [|[item [ty t]] cp];
        [discriminate|].
      simpl in E. rewrite Hsingle in E. simpl in E. injection E as <-.
      eexists. reflexivity. }
  destruct Hfail as (msg & Hfail). exists msg.
  unfold execute, execute_trace, _delete_and_prepare. rewrite Hfail.
  split; reflexivity.
Qed.

(** X24.  The size of a batch. No call of [execute_many] gets more than
    [MAX_NUMBER_OF_ROWS_FOR_SQL] rows, and none is made for no row. *)
Theorem writer_batches_are_bounded
    (w : writer) (d : DataFrame) (start_ts end_ts : option Z)
    (calls : list db_call) (t : string) (rows : list row) :
  execute w (Some d) start_ts end_ts = Ok calls ->
  In (DbInsert t rows) calls ->
  (1 <= List.length rows <= MAX_NUMBER_OF_ROWS_FOR_SQL)%nat.
Proof.
  intros H Hin.
  destruct (execute_calls _ _ _ _ _ H) as (tps & ins & _ & -> & Hins).
  apply in_app_iff in Hin. destruct Hin as [Hin|Hin].
  - apply in_map_iff in Hin. destruct Hin as (tp & Heq & _). discriminate.
  - destruct (Hins _ Hin) as (t' & rows' & [= <- <-] & _ & Hlen & _).
    exact Hlen.
Qed.

(** X25.  Deletes come first. The calls of a successful [execute] are one
    delete for each table that an active column is written to, each table
    once and with the start and end of the interval, and after them only
    inserts, each into one of these tables. *)
Theorem writer_deletes_before_inserts
    (w : writer) (d : DataFrame) (start_ts end_ts : option Z)
    (calls : list db_call) :
  execute w (Some d) start_ts end_ts = Ok calls ->
  exists tables ins,
    calls = map (fun t => DbDelete t start_ts end_ts) tables ++ ins /\
    NoDup tables /\
    (forall t, In t tables <->
       exists item ty, In (item, (ty, t)) (_get_active_cols_properties w d)) /\
    (forall c, In c ins -> exists t rows, c = DbInsert t rows /\ In t tables).
Proof.
  intros H.
  destruct (execute_calls _ _ _ _ _ H) as (tps & ins & Htps & -> & Hins).
  destruct (table_props_inv _ _ _ _ Htps) as (Hnd & Hent & Hall & _).
  exists (od_keys tps), ins.
  split; [unfold od_keys; rewrite map_map; reflexivity|].
  split; [exact Hnd|]. split.
  - intros t. split.
    + intros Hin. apply in_map_iff in Hin. destruct Hin as ([t' tp] & <- & Hin).
      destruct (Hent _ _ Hin) as (item & ty & _ & Hcp & _). eauto.
    + intros (item & ty & Hcp). apply (Hall _ _ _ Hcp).
  - intros c Hc. destruct (Hins _ Hc) as (t & rows & -> & Ht & _). eauto.
Qed.

End WriterCalls.

Section StatementFacts.
Import Db2DataWriter WriterSpec.
Context {R : PyRuntime}.
Variables quotingSchemaName quotingTableName quotingColumnName
  : string -> string.

Lemma count_char_append (c : ascii) (a b : string) :
  count_char c (String.append a b) = (count_char c a + count_char c b)%nat.
Proof.
  induction a as [|x a IH]; simpl; [reflexivity|]. rewrite IH. lia.
Qed.

Lemma col_extension_markers (dims : list string) :
  (forall x, In x dims -> parameter_markers (quotingColumnName x) = 0%nat) ->
  forall acc,
    parameter_markers
      (fold_left (fun acc dimension =>
                    String.append acc
                      (String.append ", " (quotingColumnName dimension)))
                 dims acc) = parameter_markers acc.
Proof.
  unfold parameter_markers in *.
  induction dims as [|x dims IH]; simpl; intros Hq acc; [reflexivity|].
  rewrite IH by (intros; apply Hq; right; assumption).
  rewrite count_char_append. simpl.
  rewrite (Hq x (or_introl eq_refl)). lia.
Qed.

Lemma parm_extension_markers (dims : list string) :
  forall acc,
    parameter_markers
      (fold_left (fun acc (_ : string) => String.append acc ", ?") dims acc)
    = (parameter_markers acc + List.length dims)%nat.
Proof.
  unfold parameter_markers.
  induction dims as [|x dims IH]; simpl; intros acc; [lia|].
  rewrite IH, count_char_append. simpl. lia.
Qed.

Lemma insert_statement_markers (w : writer) (t : string) (g : option grain) :
  parameter_markers (quotingSchemaName (schema_name w)) = 0%nat ->
  parameter_markers (quotingTableName t) = 0%nat ->
  (forall x, In x (insert_dimensions g) ->
             parameter_markers (quotingColumnName x) = 0%nat) ->
  exists stmt,
    create_insert_statement quotingSchemaName quotingTableName
                            quotingColumnName w t g = Ok stmt /\
    parameter_markers stmt = (5 + List.length (insert_dimensions g))%nat.
Proof.
  intros Hs Ht Hq. unfold create_insert_statement.
  set (colx := fold_left _ (insert_dimensions g) "").
  set (parx := fold_left _ (insert_dimensions g) "").
  assert (Hc : parameter_markers colx = 0%nat)
    by (unfold colx; rewrite (col_extension_markers _ Hq); reflexivity).
  assert (Hp : parameter_markers parx = List.length (insert_dimensions g))
    by (unfold parx; rewrite parm_extension_markers; reflexivity).
  clearbody colx parx.
  eexists. split; [reflexivity|].
  unfold parameter_markers in *. cbn.
  repeat (rewrite count_char_append; cbn).
  rewrite Hs, Ht, Hc, Hp. lia.
Qed.

Lemma delete_statement_markers (w : writer) (t : string) :
  parameter_markers (quotingSchemaName (schema_name w)) = 0%nat ->
  parameter_markers (quotingTableName t) = 0%nat ->
  exists stmt,
    create_delete_statement quotingSchemaName quotingTableName w t = Ok stmt /\
    parameter_markers stmt = 2%nat.
Proof.
  intros Hs Ht. unfold create_delete_statement.
  eexists. split; [reflexivity|].
  unfold parameter_markers in *. cbn.
  repeat (rewrite count_char_append; cbn).
  rewrite Hs, Ht. reflexivity.
Qed.

(** X26.  Tuples fit their statement. Every tuple the writer hands to
    [execute_many] has as many values as the insert statement of its table
    has parameter markers, and the delete statement of the table has the two
    markers of the two dates it is executed with. The names of the schema,
    of the table and of the dimensions hold no question mark once they are
    quoted. *)
Theorem writer_rows_match_insert_statement
    (w : writer) (d : DataFrame) (start_ts end_ts : option Z)
    (calls : list db_call) (t : string) (rows : list row) (r : row) :
  parameter_markers (quotingSchemaName (schema_name w)) = 0%nat ->
  parameter_markers (quotingTableName t) = 0%nat ->
  (forall item x, In x (insert_dimensions (grains_metadata w item)) ->
                  parameter_markers (quotingColumnName x) = 0%nat) ->
  execute w (Some d) start_ts end_ts = Ok calls ->
  In (DbInsert t rows) calls -> In r rows ->
  exists item ty sql_insert sql_delete,
    In (item, (ty, t)) (_get_active_cols_properties w d) /\
    create_insert_statement quotingSchemaName quotingTableName
                            quotingColumnName w t (grains_metadata w item)
      = Ok sql_insert /\
    List.length r = parameter_markers sql_insert /\
    create_delete_statement quotingSchemaName quotingTableName w t
      = Ok sql_delete /\
    parameter_markers sql_delete = 2%nat.
Proof.
  intros Hs Ht Hq H Hin Hr.
  destruct (execute_calls _ _ _ _ _ H) as (tps & ins & Htps & -> & Hins).
  destruct (table_props_inv _ _ _ _ Htps) as (Hnd & Hent & _ & _).
  apply in_app_iff in Hin. destruct Hin as [Hin|Hin].
  { apply in_map_iff in Hin. destruct Hin as (tp & Heq & _). discriminate. }
  destruct (Hins _ Hin) as (t' & rows' & [= <- <-] & _ & _ & Hfit).
  destruct (Hfit r Hr) as (tp & Hget & Hlen).
  apply (od_get_In _ _ _ string_eqb_spec) in Hget.
  destruct (Hent _ _ Hget) as (item & ty & pos & Hcp & _ & Hins' & _ & _).
  rewrite Hins' in Hlen. simpl in Hlen.
  destruct (insert_statement_markers w t (grains_metadata w item) Hs Ht (Hq item))
    as (si & Hsi & Hmi).
  destruct (delete_statement_markers w t Hs Ht) as (sd & Hsd & Hmd).
  exists item, ty, si, sd. repeat split; auto. rewrite Hmi. exact Hlen.
Qed.

End StatementFacts.

(* ===================================================================== *)
(** * The rows of the writer *)
(* ===================================================================== *)

Section TraceFacts.
Import Db2DataWriter WriterSpec.
Context {R : PyRuntime}.

(** The two loops of [_persist_dataframe] are one loop over the cells. *)
Lemma foldM_map {A B S : Type} (f : S -> B -> result S) (g : A -> B)
      (l : list A) :
  forall s, foldM f (map g l) s = foldM (fun s x => f s (g x)) l s.
Proof.
  induction l as [|x l IH]; intros s; simpl; [reflexivity|].
  destruct (f s (g x)); simpl; auto.
Qed.

Lemma foldM_cells {A B S : Type} (f : A -> S -> B -> result S)
      (rows : list A) (items : list B) :
  forall s,
    foldM (fun s i => foldM (f i) items s) rows s =
    foldM (fun s cell => f (fst cell) s (snd cell)) (list_prod rows items) s.
Proof.
  induction rows as [|i rows IH]; intros s; simpl; [reflexivity|].
  rewrite foldM_app, foldM_map. simpl.
  destruct (foldM (f i) items s) as [s1|e] eqn:E.
  - replace (foldM (fun s0 x => f i s0 x) items s) with (Ok (A := S) s1).
    simpl. apply IH.
  - replace (foldM (fun s0 x => f i s0 x) items s) with (Err (A := S) e).
    reflexivity.
Qed.

(** A loop that runs to its end and a loop that an exception ends. *)
Lemma run_loop_foldM {A S : Type} (f : S -> A -> result S) (l : list A) :
  forall s,
    foldM f l s =
    match run_loop f l s with
    | (s', None) => Ok s'
    | (_, Some e) => Err e
    end.
Proof.
  induction l as [|x l IH]; intros s; simpl; [reflexivity|].
  destruct (f s x) as [s1|e]; simpl; [apply IH | reflexivity].
Qed.

(** [execute] gives the calls of a run that returns, and the exception of
    a run that raises. *)
Lemma execute_trace_agrees (w : writer) (d : option DataFrame)
      (start_ts end_ts : option Z) :
  execute w d start_ts end_ts =
  match execute_trace w d start_ts end_ts with
  | (calls, None) => Ok calls
  | (_, Some e) => Err e
  end.
Proof.
  unfold execute, execute_trace. destruct d as [d|]; [|reflexivity].
  destruct (_delete_and_prepare w d start_ts end_ts) as [[[cp tps] st]|e];
    simpl; [|reflexivity].
  destruct (0 <? List.length cp)%nat; [|reflexivity].
  unfold _persist_dataframe.
  rewrite (foldM_cells (persist_cell d tps) (seq 0 (nrows d)) cp st).
  rewrite run_loop_foldM.
  destruct (run_loop (fun st0 cell => persist_cell d tps (fst cell) st0 (snd cell))
                     (list_prod (seq 0 (nrows d)) cp) st) as [st1 [e|]];
    reflexivity.
Qed.

End TraceFacts.

Section RowsTheorem.
Import Db2DataWriter WriterSpec.
Context {R : PyRuntime}.




End RowsTheorem.

(* ===================================================================== *)
(** * The properties on the example data *)
(* ===================================================================== *)

Section Witnesses.
Import Examples ChunkSpec Db2DataWriter WriterSpec.

Lemma progressive_subsumption_witness :
  (build_schedules_list parse_timedelta default_schedule dict0
     = Ok (_schedules jc0) /\
   get_payload_param (is_schedule_progressive (the_payload jc0))
                     default_is_schedule_progressive = true /\
   evaluate_pass1 parse_timedelta 0 jc0 T0 = Ok pass1_0 /\
   all_due pass1_0 <> []) /\
  exists (res : odict string meta) (L : string) (mL : meta)
         (front : list string),
    evaluate_schedules parse_timedelta 0 jc0 T0 = Ok res /\
    od_keys res = map freq_of (_schedules jc0) /\
    (forall s, In s (all_due pass1_0) <->
               exists m0, od_get String.eqb (sched pass1_0) s = Some m0 /\
                          is_due m0 = true) /\
    all_due pass1_0 = front ++ [L] /\
    (forall s, In s front -> shorter parse_timedelta s L) /\
    od_get String.eqb res L = Some mL /\
    is_due mL = true /\
    mark_complete mL = all_due pass1_0 /\
    (forall s m, od_get String.eqb res s = Some m -> is_due m = true -> s = L) /\
    (forall s, In s (all_due pass1_0) -> s <> L ->
               exists m, od_get String.eqb res s = Some m /\
                         is_due m = false /\ is_subsumed m = true).
Proof.
  assert (H1 : build_schedules_list parse_timedelta default_schedule dict0
               = Ok (_schedules jc0)) by (vm_compute; reflexivity).
  assert (H2 : get_payload_param (is_schedule_progressive (the_payload jc0))
                                 default_is_schedule_progressive = true)
    by reflexivity.
  assert (H3 : evaluate_pass1 parse_timedelta 0 jc0 T0 = Ok pass1_0)
    by (vm_compute; reflexivity).
  assert (H4 : all_due pass1_0 <> []) by discriminate.
  split; [repeat split; assumption|].
  exact (progressive_subsumption parse_timedelta 0 jc0 default_schedule dict0
                                 T0 pass1_0 H1 H2 H3 H4).
Defined.

Lemma get_chunks_coverage_witness :
  (get_adjusted_start_date (the_payload jc0) = None /\
   0 <= 19 * DAY /\
   parse_timedelta (get_payload_param (chunk_size (the_payload jc0))
                                      default_chunk_size) = Ok (7 * DAY) /\
   0 < 7 * DAY) /\
  exists (fuel0 : nat) (cs0 : datetime) (rest : list chunk),
    let chunks := (Some cs0, Z.min (cs0 + 7 * DAY) (19 * DAY)) :: rest in
    adjust_to_schedule parse_timedelta 0 0 None None "5min" = Ok cs0 /\
    (forall fuel, (fuel0 <= fuel)%nat ->
       get_chunks parse_timedelta 0 jc0 fuel (Some 0) (19 * DAY)
                  None None "5min" = Some (Ok chunks)) /\
    chained (7 * DAY) (19 * DAY) (Z.min (cs0 + 7 * DAY) (19 * DAY)) rest /\
    last_end chunks (19 * DAY) = 19 * DAY /\
    separated (cs0 - 1) chunks /\
    (forall t, 0 <= t <= 19 * DAY -> covers chunks t).
Proof.
  assert (H1 : get_adjusted_start_date (the_payload jc0) = None) by reflexivity.
  assert (H2 : 0 <= 19 * DAY) by (vm_compute; discriminate).
  assert (H3 : parse_timedelta (get_payload_param (chunk_size (the_payload jc0))
                                                  default_chunk_size)
               = Ok (7 * DAY)) by (vm_compute; reflexivity).
  assert (H4 : 0 < 7 * DAY) by reflexivity.
  split; [repeat split; assumption|].
  exact (get_chunks_coverage parse_timedelta 0 jc0 H1 0 (19 * DAY) None None
                             "5min" (7 * DAY) H2 H3 H4
                             (or_introl (conj eq_refl eq_refl))).
Defined.

(** With a rounding hour and the frequency "-7us", the only chunk of the
    range from 10 to 20 starts at 14: the start of the range is in no
    chunk. *)
Lemma get_chunks_negative_frequency :
  10 <= 20 /\
  get_adjusted_start_date (the_payload jc0) = None /\
  parse_timedelta (get_payload_param (chunk_size (the_payload jc0))
                                     default_chunk_size) = Ok (7 * DAY) /\
  0 < 7 * DAY /\
  (forall fuel,
     get_chunks parse_timedelta 0 jc0 fuel (Some 10) 20 (Some 0) None "-7us"
     = Some (Ok [(Some 14, 20)])) /\
  ~ covers [(Some 14, 20)] 10.
Proof.
  split; [lia|]. split; [reflexivity|]. split; [vm_compute; reflexivity|].
  split; [reflexivity|]. split.
  - intros fuel. destruct fuel; vm_compute; reflexivity.
  - intros (a & b & Hin & Hab). destruct Hin as [Heq|[]].
    injection Heq as <- <-. lia.
Qed.

Lemma merge_postcondition_witness :
  DataMerge.execute merge_x (OFrame frame_y) ["y"] false = Ok merged_xy /\
  incl ["y"] (get_cols (DataMerge.df merged_xy)).
Proof.
  assert (H : DataMerge.execute merge_x (OFrame frame_y) ["y"] false
              = Ok merged_xy) by (vm_compute; reflexivity).
  split; [exact H|].
  exact (proj1 (merge_postcondition merge_x (OFrame frame_y) ["y"] false)
               merged_xy H).
Defined.

Lemma outer_merge_preserves_constants_witness :
  (NoDup (od_keys (DataMerge.constants merge_x)) /\
   normalize (inl frame_y) ["y"] = Ok frame_y /\
   choose_strategy merge_x frame_y ["y"] false = Ok (Some Outer) /\
   merge_dataframe merge_x (inl frame_y) ["y"] false = Ok merged_xy) /\
  DataMerge.constants merged_xy = DataMerge.constants merge_x /\
  forall k v,
    od_get String.eqb (DataMerge.constants merge_x) k = Some v ->
    exists cells,
      column (DataMerge.df merged_xy) k = Some cells /\
      cells_of v (nrows (DataMerge.df merged_xy)) = Ok cells /\
      (forall s, v = PScalar s ->
                 cells = repeat s (nrows (DataMerge.df merged_xy))).
Proof.
  assert (H1 : NoDup (od_keys (DataMerge.constants merge_x))).
  { apply NoDup_cons; [intros [] | apply NoDup_nil]. }
  assert (H2 : normalize (inl frame_y) ["y"] = Ok frame_y) by reflexivity.
  assert (H3 : choose_strategy merge_x frame_y ["y"] false = Ok (Some Outer))
    by reflexivity.
  assert (H4 : merge_dataframe merge_x (inl frame_y) ["y"] false = Ok merged_xy)
    by (vm_compute; reflexivity).
  split; [repeat split; assumption|].
  exact (outer_merge_preserves_constants merge_x (inl frame_y) ["y"] false
                                         frame_y merged_xy H1 H2 H3 H4).
Defined.



(** The fields of a row tuple are renamed.  The label [max temp] is no
    identifier: its field is [_1], and the writer deletes the window of
    the table and then fails where it reads the cell.  The label [_2]
    starts with an underscore: its field is [_1], the name [_2] is the
    field of the next column, and the row written for the item holds the
    value of that column, 21, in place of its own. *)
Lemma renamed_field_is_not_read :
  tuple_fields frame_spaced = ["Index"; "_1"] /\
  (exists msg,
     Db2DataWriter.execute writer_spaced (Some frame_spaced) None None
       = Err (Raise AttributeError msg) /\
     execute_trace writer_spaced (Some frame_spaced) None None
       = ([DbDelete "T" None None], Some (Raise AttributeError msg))) /\
  tuple_fields frame_shadow = ["Index"; "_1"; "_2"] /\
  column frame_shadow "_2" = Some [SInt 1] /\
  Db2DataWriter.execute writer_shadow (Some frame_shadow) None None
    = Ok [DbDelete "T" None None;
          DbInsert "T" [map Scalar [SStr "_2"; SStr "A"; STime 0; SNone;
                                    SFloat (FNum 21 0); SNone; SNone]]].
Proof.
  split; [reflexivity|]. split.
  - eexists. split; vm_compute; reflexivity.
  - split; [reflexivity|]. split; [reflexivity|]. vm_compute. reflexivity.
Qed.

Lemma active_cols_selection_witness :
  In "temp" (labels frame_w) /\
  (od_get String.eqb (_get_active_cols_properties writer0 frame_w) "temp" = None <->
   (data_item_metadata writer0 "temp" = None \/
    exists md, data_item_metadata writer0 "temp" = Some md /\
               (transient md <> Some (SBool false) \/
                sourceTableName md = None \/ columnType md = None))) /\
  (forall md table_name ty,
     data_item_metadata writer0 "temp" = Some md ->
     transient md = Some (SBool false) ->
     sourceTableName md = Some table_name ->
     columnType md = Some ty ->
     od_get String.eqb (_get_active_cols_properties writer0 frame_w) "temp" =
     Some (if known_type ty then ty else DATA_ITEM_TYPE_LITERAL, table_name)).
Proof.
  assert (H : In "temp" (labels frame_w)) by (left; reflexivity).
  split; [exact H|].
  exact (active_cols_selection writer0 frame_w "temp" H).
Defined.

(** The column [speed] has metadata with a table and a type and no
    [transient] key: [transient] is not true and nothing the description lists is
    missing, yet the column is left out. *)
Lemma missing_transient_is_skipped :
  In "speed" (labels frame_w) /\
  (exists md, data_item_metadata writer0 "speed" = Some md /\
              transient md <> Some (SBool true) /\
              sourceTableName md = Some "T" /\
              columnType md = Some "NUMBER") /\
  od_get String.eqb (_get_active_cols_properties writer0 frame_w) "speed" = None.
Proof.
  split; [right; right; left; reflexivity|]. split.
  - eexists. split; [reflexivity|]. split; [discriminate|]. split; reflexivity.
  - vm_compute. reflexivity.
Qed.

Lemma checkpoint_start_date_witness :
  (NoDup (map freq_of (_schedules jc1)) /\
   evaluate_schedules parse_timedelta 0 jc1 T1 = Ok schedules1 /\
   In ("15min", None, None, Some "checkpoint") (_schedules jc1) /\
   schedule_meta parse_timedelta 0 jc1 T1
                 ("15min", None, None, Some "checkpoint") = Ok meta1 /\
   is_due meta1 = true) /\
  exists m,
    od_get String.eqb schedules1 "15min" = Some m /\
    prev_checkpoint m = last_execution jc1 "15min" /\
    start_date m =
      match last_execution jc1 "15min" with
      | Some L => Some (L + MICROSECOND)
      | None => None
      end /\
    backtrack m = None /\
    (forall L, last_execution jc1 "15min" = Some L ->
               exists sd, start_date m = Some sd /\ L < sd) /\
    (forall r, In r (job_log jc1) ->
               JobLog.matches (payload_class (the_payload jc1)) (name jc1)
                              "15min" r = true ->
               exists sd, start_date m = Some sd /\ JobLog.last_update r < sd).
Proof.
  assert (H1 : NoDup (map freq_of (_schedules jc1))).
  { apply NoDup_cons; [simpl; intros [H|[]]; discriminate H|].
    apply NoDup_cons; [intros [] | apply NoDup_nil]. }
  assert (H2 : evaluate_schedules parse_timedelta 0 jc1 T1 = Ok schedules1)
    by (vm_compute; reflexivity).
  assert (H3 : In ("15min", None, None, Some "checkpoint") (_schedules jc1))
    by (right; left; reflexivity).
  assert (H4 : schedule_meta parse_timedelta 0 jc1 T1
                             ("15min", None, None, Some "checkpoint") = Ok meta1)
    by (vm_compute; reflexivity).
  assert (H5 : is_due meta1 = true) by reflexivity.
  split; [repeat split; assumption|].
  exact (checkpoint_start_date parse_timedelta 0 jc1 T1 schedules1 "15min"
                               None None meta1 H1 H2 H3 H4 H5).
Defined.

Lemma adjust_to_schedule_idempotent_witness :
  exists t1,
    adjust_to_schedule parse_timedelta (3 * DAY) (3 * DAY + 7 * HOUR + 1234)
                       (Some 1) (Some 30) "1h" = Ok t1 /\
    adjust_to_schedule parse_timedelta (3 * DAY) t1 (Some 1) (Some 30) "1h" = Ok t1.
Proof.
  apply (adjust_to_schedule_idempotent parse_timedelta (3 * DAY)
           (3 * DAY + 7 * HOUR + 1234) (Some 1) (Some 30) "1h" HOUR);
    [reflexivity | reflexivity].
Defined.

End Witnesses.

(* ===================================================================== *)
(** * More properties on the example data *)
(* ===================================================================== *)

Ltac nodup_concrete :=
  repeat (apply NoDup_cons; [simpl; intuition discriminate|]); apply NoDup_nil.

Section ScheduleWitnesses.
Import Examples MoreExamples.

Lemma adjust_to_schedule_within_interval_witness :
  (parse_timedelta "1h" = Ok HOUR /\ 0 < HOUR) /\
  exists r,
    adjust_to_schedule parse_timedelta (3 * DAY) (3 * DAY + 7 * HOUR + 1234)
                       None (Some 30) "1h" = Ok r /\
    r <= 3 * DAY + 7 * HOUR + 1234 /\
    3 * DAY + 7 * HOUR + 1234 < r + HOUR /\
    (@None Z = None -> Some 30 = None -> r = 3 * DAY + 7 * HOUR + 1234).
Proof.
  assert (H1 : parse_timedelta "1h" = Ok HOUR) by (vm_compute; reflexivity).
  assert (H2 : 0 < HOUR) by reflexivity.
  split; [split; assumption|].
  exact (adjust_to_schedule_within_interval
           parse_timedelta (3 * DAY) (3 * DAY + 7 * HOUR + 1234)
           None (Some 30) "1h" HOUR H1 H2).
Defined.

Lemma build_schedules_list_entries_witness :
  build_schedules_list parse_timedelta default_schedule dict_same
    = Ok schedules_same /\
  schedules_same <> [] /\
  StronglySorted (shorter parse_timedelta) (map freq_of schedules_same) /\
  (forall f h m b, In (f, h, m, b) schedules_same ->
     od_get String.eqb dict_same f = Some (h, m, b) \/
     (od_get String.eqb dict_same f = None /\
      default_schedule = (f, h, m, b))) /\
  (forall f, In f (freq_of default_schedule :: od_keys dict_same) ->
     exists tup d, In tup schedules_same /\ parse_timedelta f = Ok d /\
                   parse_timedelta (freq_of tup) = Ok d).
Proof.
  assert (H1 : build_schedules_list parse_timedelta default_schedule dict_same
               = Ok schedules_same) by (vm_compute; reflexivity).
  split; [exact H1|].
  exact (build_schedules_list_entries parse_timedelta default_schedule
                                      dict_same schedules_same H1).
Defined.

Lemma build_schedules_list_same_duration_witness :
  (NoDup (od_keys dict_same) /\
   build_schedules_list parse_timedelta default_schedule dict_same
     = Ok schedules_same /\
   schedule_keys default_schedule dict_same = [] ++ "60min" :: ["1h"; "5min"] /\
   In "1h" ["1h"; "5min"] /\
   parse_timedelta "60min" = parse_timedelta "1h") /\
  ~ In "60min" (map freq_of schedules_same).
Proof.
  assert (H1 : NoDup (od_keys dict_same)) by nodup_concrete.
  assert (H2 : build_schedules_list parse_timedelta default_schedule dict_same
               = Ok schedules_same) by (vm_compute; reflexivity).
  assert (H3 : schedule_keys default_schedule dict_same
               = [] ++ "60min" :: ["1h"; "5min"]) by reflexivity.
  assert (H4 : In "1h" ["1h"; "5min"]) by (left; reflexivity).
  assert (H5 : parse_timedelta "60min" = parse_timedelta "1h")
    by (vm_compute; reflexivity).
  split; [repeat split; assumption|].
  exact (build_schedules_list_same_duration
           parse_timedelta default_schedule dict_same schedules_same
           [] ["1h"; "5min"] "60min" "1h" H1 H2 H3 H4 H5).
Defined.

Lemma completed_schedule_is_not_due_witness :
  (NoDup (map freq_of (_schedules jc0)) /\
   In "5min" (map freq_of (_schedules jc0)) /\
   parse_timedelta "5min" = Ok (5 * MINUTE) /\
   0 < 5 * MINUTE /\
   evaluate_schedules parse_timedelta 0
                      (log_completion jc0 "5min" T0 None None) T0
     = Ok schedules_completed) /\
  exists m, od_get String.eqb schedules_completed "5min" = Some m /\
            is_due m = false /\ is_subsumed m = false /\ T0 < next_date m.
Proof.
  assert (H1 : NoDup (map freq_of (_schedules jc0))) by nodup_concrete.
  assert (H2 : In "5min" (map freq_of (_schedules jc0)))
    by (left; reflexivity).
  assert (H3 : parse_timedelta "5min" = Ok (5 * MINUTE))
    by (vm_compute; reflexivity).
  assert (H4 : 0 < 5 * MINUTE) by reflexivity.
  assert (H5 : evaluate_schedules parse_timedelta 0
                 (log_completion jc0 "5min" T0 None None) T0
               = Ok schedules_completed) by (vm_compute; reflexivity).
  split; [repeat split; assumption|].
  exact (completed_schedule_is_not_due parse_timedelta 0 jc0 T0 "5min"
           None None (5 * MINUTE) schedules_completed H1 H2 H3 H4 H5).
Defined.

Lemma non_progressive_schedules_are_independent_witness :
  (NoDup (map freq_of (_schedules jc_flat)) /\
   is_schedule_progressive (the_payload jc_flat) = Some false /\
   evaluate_schedules parse_timedelta 0 jc_flat T0 = Ok schedules_flat) /\
  od_keys schedules_flat = map freq_of (_schedules jc_flat) /\
  forall s m, od_get String.eqb schedules_flat s = Some m ->
    is_subsumed m = false /\
    is_due m = (next_date m <=? T0) /\
    mark_complete m = (if is_due m then [s] else []).
Proof.
  assert (H1 : NoDup (map freq_of (_schedules jc_flat))) by nodup_concrete.
  assert (H2 : is_schedule_progressive (the_payload jc_flat) = Some false)
    by reflexivity.
  assert (H3 : evaluate_schedules parse_timedelta 0 jc_flat T0
               = Ok schedules_flat) by (vm_compute; reflexivity).
  split; [repeat split; assumption|].
  exact (non_progressive_schedules_are_independent
           parse_timedelta 0 jc_flat T0 schedules_flat H1 H2 H3).
Defined.

Lemma backtrack_start_date_witness :
  (NoDup (map freq_of (_schedules jc0)) /\
   evaluate_schedules parse_timedelta 0 jc0 T0 = Ok schedules0 /\
   In ("1h", None, None, Some "1d") (_schedules jc0) /\
   Some "1d" <> Some "checkpoint" /\
   od_get String.eqb schedules0 "1h" = Some meta_hourly /\
   (is_due meta_hourly = true \/ is_subsumed meta_hourly = true)) /\
  (exists db, parse_timedelta "1d" = Ok db /\
              start_date meta_hourly = Some (T0 - db) /\
              backtrack meta_hourly = Some "1d") /\
  prev_checkpoint meta_hourly = None /\
  is_checkpoint_driven meta_hourly = false.
Proof.
  assert (H1 : NoDup (map freq_of (_schedules jc0))) by nodup_concrete.
  assert (H2 : evaluate_schedules parse_timedelta 0 jc0 T0 = Ok schedules0)
    by (vm_compute; reflexivity).
  assert (H3 : In ("1h", None, None, Some "1d") (_schedules jc0))
    by (right; left; reflexivity).
  assert (H4 : Some "1d" <> Some "checkpoint") by discriminate.
  assert (H5 : od_get String.eqb schedules0 "1h" = Some meta_hourly)
    by reflexivity.
  assert (H6 : is_due meta_hourly = true \/ is_subsumed meta_hourly = true)
    by (left; reflexivity).
  split; [repeat split; assumption|].
  exact (backtrack_start_date parse_timedelta 0 jc0 T0 schedules0 "1h"
           None None (Some "1d") meta_hourly H1 H2 H3 H4 H5 H6).
Defined.

Lemma due_or_subsumed_iff_next_date_reached_witness :
  (NoDup (map freq_of (_schedules jc0)) /\
   evaluate_schedules parse_timedelta 0 jc0 T0 = Ok schedules0 /\
   od_get String.eqb schedules0 "5min" = Some meta_5min) /\
  (is_due meta_5min || is_subsumed meta_5min) = (next_date meta_5min <=? T0) /\
  (is_due meta_5min && is_subsumed meta_5min) = false.
Proof.
  assert (H1 : NoDup (map freq_of (_schedules jc0))) by nodup_concrete.
  assert (H2 : evaluate_schedules parse_timedelta 0 jc0 T0 = Ok schedules0)
    by (vm_compute; reflexivity).
  assert (H3 : od_get String.eqb schedules0 "5min" = Some meta_5min)
    by reflexivity.
  split; [repeat split; assumption|].
  exact (due_or_subsumed_iff_next_date_reached
           parse_timedelta 0 jc0 T0 schedules0 "5min" meta_5min H1 H2 H3).
Defined.

Lemma get_chunks_count_witness :
  (get_adjusted_start_date (the_payload jc0) = None /\
   parse_timedelta (get_payload_param (chunk_size (the_payload jc0))
                                      default_chunk_size) = Ok (7 * DAY) /\
   0 < 7 * DAY /\
   adjust_to_schedule parse_timedelta 0 0 None None "5min" = Ok 0) /\
  exists (fuel0 : nat) (chunks : list chunk),
    (forall fuel, (fuel0 <= fuel)%nat ->
       get_chunks parse_timedelta 0 jc0 fuel (Some 0) (19 * DAY)
                  None None "5min" = Some (Ok chunks)) /\
    Z.of_nat (List.length chunks)
      = 1 + Z.max 0 ((19 * DAY - 0) / (7 * DAY + 1)) /\
    (19 * DAY < 0 -> chunks = [(Some 0, 19 * DAY)]).
Proof.
  assert (H1 : get_adjusted_start_date (the_payload jc0) = None)
    by reflexivity.
  assert (H2 : parse_timedelta (get_payload_param (chunk_size (the_payload jc0))
                                                  default_chunk_size)
               = Ok (7 * DAY)) by (vm_compute; reflexivity).
  assert (H3 : 0 < 7 * DAY) by reflexivity.
  assert (H4 : adjust_to_schedule parse_timedelta 0 0 None None "5min" = Ok 0)
    by (vm_compute; reflexivity).
  split; [repeat split; assumption|].
  exact (get_chunks_count parse_timedelta 0 jc0 H1 0 (19 * DAY) None None
                          "5min" (7 * DAY) 0 H2 H3 H4).
Defined.

Lemma get_chunks_negative_size_returns_no_chunks_witness :
  (get_adjusted_start_date (the_payload jc_back) = None /\
   (forall t delta r, datetime_add t delta = Ok r -> r = t + delta) /\
   parse_timedelta (get_payload_param (chunk_size (the_payload jc_back))
                                      default_chunk_size) = Ok (- HOUR) /\
   - HOUR < 0 /\
   adjust_to_schedule parse_timedelta 0 0 None None "5min" = Ok 0 /\
   0 + - HOUR < DAY) /\
  (forall (fuel : nat) (chunks : list chunk),
     get_chunks_in_range parse_timedelta 0 jc_back datetime_add fuel (Some 0)
                         DAY None None "5min" <> Some (Ok chunks)) /\
  (forall lo : datetime,
     - HOUR < - MICROSECOND ->
     (forall t delta, t + delta < lo ->
                      exists e, datetime_add t delta = Err e) ->
     exists fuel0 : nat,
       forall fuel, (fuel0 <= fuel)%nat ->
         exists e,
           get_chunks_in_range parse_timedelta 0 jc_back datetime_add fuel
                               (Some 0) DAY None None "5min"
           = Some (Err e)).
Proof.
  assert (H1 : get_adjusted_start_date (the_payload jc_back) = None)
    by reflexivity.
  assert (H0 : forall t delta r, datetime_add t delta = Ok r -> r = t + delta).
  { intros t delta r. unfold datetime_add.
    destruct ((-62135596800000000 <=? t + delta)
              && (t + delta <=? 253402300799999999));
      [intros [= <-]; reflexivity | discriminate]. }
  assert (H2 : parse_timedelta
                 (get_payload_param (chunk_size (the_payload jc_back))
                                    default_chunk_size)
               = Ok (- HOUR)) by (vm_compute; reflexivity).
  assert (H3 : - HOUR < 0) by reflexivity.
  assert (H4 : adjust_to_schedule parse_timedelta 0 0 None None "5min" = Ok 0)
    by (vm_compute; reflexivity).
  assert (H5 : 0 + - HOUR < DAY) by reflexivity.
  split; [exact (conj H1 (conj H0 (conj H2 (conj H3 (conj H4 H5)))))|].
  exact (get_chunks_negative_size_returns_no_chunks
           parse_timedelta 0 jc_back datetime_add H1 H0 0 DAY None None "5min"
           (- HOUR) 0 H2 H3 H4 H5).
Defined.

End ScheduleWitnesses.

Section JobSpecWitnesses.
Import Examples MoreExamples JobSpec.

Lemma build_stages_of_type_order_witness :
  build_stages_of_type jc_build "5min" "transform" None env0 build0
    = Ok (fst built0, snd built0) /\
  exists added,
    spec (snd built0) = spec build0 ++ added /\
    (forall pre s post, added = pre ++ s :: post ->
       incl (Stage._input_set s)
            (available_columns build0 ++ flat_map Stage._output_list pre)) /\
    (forall s, In s added ->
       In s (stages_of jc_build "transform" None) /\
       Stage.mem s (spec build0) = false /\
       exists f, schedule (attrs (fst built0) (Stage.id s)) = Some f /\
                 In f (meta_schedule build0 :: subsumed build0)) /\
    (forall c, In c (available_columns (snd built0)) <->
       In c (available_columns build0) \/
       exists s, In s added /\ In c (Stage._output_list s)) /\
    (forall c, In c (required_inputs (snd built0)) <->
       In c (required_inputs build0) \/
       exists s, In s added /\ In c (Stage._input_set s)).
Proof.
  assert (H1 : build_stages_of_type jc_build "5min" "transform" None
                                    env0 build0
               = Ok (fst built0, snd built0)) by (vm_compute; reflexivity).
  split; [exact H1|].
  exact (build_stages_of_type_order jc_build "5min" "transform" None
           env0 (fst built0) build0 (snd built0) H1).
Defined.

Lemma build_stages_of_type_complete_witness :
  (NoDup (map Stage.id (stages_of jc_build "transform" None)) /\
   (List.length (stages_of jc_build "transform" None) < recursion_limit)%nat /\
   build_stages_of_type jc_build "5min" "transform" None env0 build0
     = Ok (fst built0, snd built0)) /\
  (forall added, spec (snd built0) = spec build0 ++ added ->
                 NoDup (map Stage.id added)) /\
  (forall s,
     In s (stages_of jc_build "transform" None) ->
     Stage.mem s (spec (snd built0)) = false ->
     incl (Stage._input_set s) (available_columns (snd built0)) ->
     exists f, schedule (attrs (fst built0) (Stage.id s)) = Some f /\
               ~ In f (meta_schedule build0 :: subsumed build0)).
Proof.
  assert (H1 : NoDup (map Stage.id (stages_of jc_build "transform" None)))
    by nodup_concrete.
  assert (H2 : (List.length (stages_of jc_build "transform" None)
                < recursion_limit)%nat) by (vm_compute; lia).
  assert (H3 : build_stages_of_type jc_build "5min" "transform" None
                                    env0 build0
               = Ok (fst built0, snd built0)) by (vm_compute; reflexivity).
  split; [repeat split; assumption|].
  exact (build_stages_of_type_complete jc_build "5min" "transform" None
           env0 (fst built0) build0 (snd built0) H1 H2 H3).
Defined.

Lemma remove_stage_removes_witness :
  NoDup (od_keys job_spec0) /\
  od_keys (remove_stage job_spec0 stage_double) = od_keys job_spec0 /\
  (forall k, od_get String.eqb (remove_stage job_spec0 stage_double) k =
             option_map (filter (fun x => negb (same_stage x stage_double)))
                        (od_get String.eqb job_spec0 k)) /\
  (forall k l, od_get String.eqb (remove_stage job_spec0 stage_double) k
               = Some l ->
               Stage.mem stage_double l = false).
Proof.
  assert (H1 : NoDup (od_keys job_spec0)) by nodup_concrete.
  split; [exact H1|].
  exact (remove_stage_removes job_spec0 stage_double H1).
Defined.

End JobSpecWitnesses.

Section MergeWitnesses.
Import Examples MoreExamples.

Lemma merge_keeps_delivered_columns_witness :
  (normalize (inl frame_x_again) ["x"] = Ok frame_x_again /\
   empty frame_x_again = false /\ empty (df merge_x) = false /\
   index_equals frame_x_again (df merge_x) = true /\
   incl ["x"] (labels (df merge_x))) /\
  merge_dataframe merge_x (inl frame_x_again) ["x"] false = Ok merge_x /\
  DataMerge.execute merge_x (OFrame frame_x_again) ["x"] false = Ok merge_x.
Proof.
  assert (H1 : normalize (inl frame_x_again) ["x"] = Ok frame_x_again)
    by reflexivity.
  assert (H2 : empty frame_x_again = false) by reflexivity.
  assert (H3 : empty (df merge_x) = false) by reflexivity.
  assert (H4 : index_equals frame_x_again (df merge_x) = true)
    by (vm_compute; reflexivity).
  assert (H5 : incl ["x"] (labels (df merge_x))).
  { intros c [<-|[]]. left. reflexivity. }
  split; [repeat split; assumption|].
  exact (merge_keeps_delivered_columns merge_x (inl frame_x_again) ["x"]
                                       frame_x_again H1 H2 H3 H4 H5).
Defined.

Lemma merge_slice_assigns_columns_witness :
  (normalize (inl frame_z) ["z"] = Ok frame_z /\
   empty frame_z = false /\ empty (df merge_x) = false /\
   index_equals frame_z (df merge_x) = true /\
   (false = true \/ ~ incl ["z"] (labels (df merge_x))) /\
   NoDup (labels frame_z) /\
   merge_dataframe merge_x (inl frame_z) ["z"] false = Ok merged_xz) /\
  index (df merged_xz) = index (df merge_x) /\
  constants merged_xz = constants merge_x /\
  (forall c cells, In (c, cells) (columns frame_z) ->
                   column (df merged_xz) c = Some cells) /\
  (forall c, ~ In c (labels frame_z) ->
             column (df merged_xz) c = column (df merge_x) c).
Proof.
  assert (H1 : normalize (inl frame_z) ["z"] = Ok frame_z) by reflexivity.
  assert (H2 : empty frame_z = false) by reflexivity.
  assert (H3 : empty (df merge_x) = false) by reflexivity.
  assert (H4 : index_equals frame_z (df merge_x) = true)
    by (vm_compute; reflexivity).
  assert (H5 : false = true \/ ~ incl ["z"] (labels (df merge_x))).
  { right. intros H. destruct (H "z" (or_introl eq_refl)) as [E|[]].
    discriminate E. }
  assert (H6 : NoDup (labels frame_z)) by nodup_concrete.
  assert (H7 : merge_dataframe merge_x (inl frame_z) ["z"] false
               = Ok merged_xz) by (vm_compute; reflexivity).
  split; [repeat split; assumption|].
  exact (merge_slice_assigns_columns merge_x (inl frame_z) ["z"] false
                                     frame_z merged_xz H1 H2 H3 H4 H5 H6 H7).
Defined.

Lemma merge_replace_applies_constants_witness :
  (NoDup (od_keys (constants merge_k)) /\
   normalize (inl frame_x) ["x"] = Ok frame_x /\
   empty frame_x = false /\ empty (df merge_k) = true /\
   merge_dataframe merge_k (inl frame_x) ["x"] false = Ok merged_kx) /\
  index (df merged_kx) = index frame_x /\
  constants merged_kx = constants merge_k /\
  (forall k v, od_get String.eqb (constants merge_k) k = Some v ->
     exists cells, column (df merged_kx) k = Some cells /\
                   cells_of v (nrows frame_x) = Ok cells) /\
  (forall c, ~ In c (od_keys (constants merge_k)) ->
             column (df merged_kx) c = column frame_x c).
Proof.
  assert (H1 : NoDup (od_keys (constants merge_k))) by nodup_concrete.
  assert (H2 : normalize (inl frame_x) ["x"] = Ok frame_x) by reflexivity.
  assert (H3 : empty frame_x = false) by reflexivity.
  assert (H4 : empty (df merge_k) = true) by reflexivity.
  assert (H5 : merge_dataframe merge_k (inl frame_x) ["x"] false
               = Ok merged_kx) by (vm_compute; reflexivity).
  split; [repeat split; assumption|].
  exact (merge_replace_applies_constants merge_k (inl frame_x) ["x"] false
                                         frame_x merged_kx H1 H2 H3 H4 H5).
Defined.

Lemma merge_empty_object_adds_null_columns_witness :
  (normalize (inl frame_q) ["q"] = Ok frame_q /\ empty frame_q = true) /\
  exists self',
    merge_dataframe merge_x (inl frame_q) ["q"] false = Ok self' /\
    index (df self') = index (df merge_x) /\
    constants self' = constants merge_x /\
    (forall c, In c (labels (df merge_x)) ->
               column (df self') c = column (df merge_x) c) /\
    (forall c, In c ["q"] -> ~ In c (labels (df merge_x)) ->
               column (df self') c
               = Some (repeat SNone (nrows (df merge_x)))).
Proof.
  assert (H1 : normalize (inl frame_q) ["q"] = Ok frame_q) by reflexivity.
  assert (H2 : empty frame_q = true) by reflexivity.
  split; [split; assumption|].
  exact (merge_empty_object_adds_null_columns merge_x (inl frame_q) ["q"]
                                              false frame_q H1 H2).
Defined.

Lemma merge_unnamed_index_error_witness :
  (normalize (inl frame_unnamed) ["u"] = Ok frame_unnamed /\
   empty frame_unnamed = false /\ empty (df merge_x) = false /\
   index_equals frame_unnamed (df merge_x) = false /\
   get_index_names frame_unnamed = [] /\
   get_index_names (df merge_x) <> []) /\
  exists msg,
    merge_dataframe merge_x (inl frame_unnamed) ["u"] false =
      Err (Raise UnboundLocalError msg) /\
    DataMerge.execute merge_x (OFrame frame_unnamed) ["u"] false
      = Err (Raise UnboundLocalError msg).
Proof.
  assert (H1 : normalize (inl frame_unnamed) ["u"] = Ok frame_unnamed)
    by reflexivity.
  assert (H2 : empty frame_unnamed = false) by reflexivity.
  assert (H3 : empty (df merge_x) = false) by reflexivity.
  assert (H4 : index_equals frame_unnamed (df merge_x) = false)
    by (vm_compute; reflexivity).
  assert (H5 : get_index_names frame_unnamed = []) by reflexivity.
  assert (H6 : get_index_names (df merge_x) <> [])
    by (vm_compute; discriminate).
  split; [repeat split; assumption|].
  exact (merge_unnamed_index_error merge_x (inl frame_unnamed) ["u"] false
                                   frame_unnamed H1 H2 H3 H4 H5 H6).
Defined.

Lemma scalar_before_data_fills_every_row_witness :
  (NoDup (od_keys (constants (init None None))) /\
   nrows (df (init None None)) = 0%nat /\
   DataMerge.execute (init None None) (OPlain (PScalar (SInt 7))) ["seven"]
                     false = Ok merge_seven /\
   empty frame_w = false /\
   DataMerge.execute merge_seven (OFrame frame_w) ["temp"; "alarm"; "speed"]
                     false = Ok merge_seven_w) /\
  od_get String.eqb (constants merge_seven_w) "seven"
    = Some (PScalar (SInt 7)) /\
  column (df merge_seven_w) "seven" = Some (repeat (SInt 7) (nrows frame_w)) /\
  index (df merge_seven_w) = index frame_w.
Proof.
  assert (H1 : NoDup (od_keys (constants (init None None))))
    by apply NoDup_nil.
  assert (H2 : nrows (df (init None None)) = 0%nat) by reflexivity.
  assert (H3 : DataMerge.execute (init None None) (OPlain (PScalar (SInt 7)))
                                 ["seven"] false = Ok merge_seven)
    by (vm_compute; reflexivity).
  assert (H4 : empty frame_w = false) by reflexivity.
  assert (H5 : DataMerge.execute merge_seven (OFrame frame_w)
                                 ["temp"; "alarm"; "speed"] false
               = Ok merge_seven_w) by (vm_compute; reflexivity).
  split; [repeat split; assumption|].
  exact (scalar_before_data_fills_every_row
           (init None None) merge_seven merge_seven_w "seven" (SInt 7)
           frame_w ["temp"; "alarm"; "speed"] false H1 H2 H3 H4 H5).
Defined.

Lemma execute_stages_halts_only_on_empty_frame_witness :
  execute_stages [stage_seven; stage_strict] None None None None
    = Ok (df merge_seven, false) /\
  (false = false ->
   empty (df merge_seven) = true /\
   exists pre s post,
     [stage_seven; stage_strict] = pre ++ s :: post /\
     Stage._allow_empty_df s = Some false) /\
  ((forall s, In s [stage_seven; stage_strict] ->
              Stage._allow_empty_df s <> Some false) ->
   false = true).
Proof.
  assert (H1 : execute_stages [stage_seven; stage_strict] None None None None
               = Ok (df merge_seven, false)) by (vm_compute; reflexivity).
  split; [exact H1|].
  exact (execute_stages_halts_only_on_empty_frame
           [stage_seven; stage_strict] None None None None
           (df merge_seven) false H1).
Defined.

End MergeWitnesses.

Section WriterWitnesses.
Import Examples MoreExamples Db2DataWriter WriterSpec.

Lemma writer_without_items_makes_no_call_witness :
  (forall c, In c (labels frame_x) -> selection writer0 c = None) /\
  Db2DataWriter.execute writer0 (Some frame_x) (Some 0) (Some 10) = Ok [].
Proof.
  assert (H1 : forall c, In c (labels frame_x) -> selection writer0 c = None).
  { intros c [<-|[]]. reflexivity. }
  split; [exact H1|].
  exact (writer_without_items_makes_no_call writer0 frame_x (Some 0) (Some 10)
                                            H1).
Defined.

Lemma writer_single_index_raises_witness :
  (is_multi frame_single = false /\
   In "temp" (labels frame_single) /\ selection writer0 "temp" <> None) /\
  exists msg,
    Db2DataWriter.execute writer0 (Some frame_single) None None
      = Err (Raise TypeError msg) /\
    execute_trace writer0 (Some frame_single) None None
      = ([], Some (Raise TypeError msg)).
Proof.
  assert (H1 : is_multi frame_single = false) by reflexivity.
  assert (H2 : In "temp" (labels frame_single)) by (left; reflexivity).
  assert (H3 : selection writer0 "temp" <> None)
    by (vm_compute; discriminate).
  split; [repeat split; assumption|].
  exact (writer_single_index_raises writer0 frame_single None None "temp"
                                    H1 H2 H3).
Defined.

Lemma writer_batches_are_bounded_witness :
  (Db2DataWriter.execute writer0 (Some frame_w) (Some 0) (Some 10)
     = Ok calls_w /\
   In (DbInsert "T" rows_w) calls_w) /\
  (1 <= List.length rows_w <= MAX_NUMBER_OF_ROWS_FOR_SQL)%nat.
Proof.
  assert (H1 : Db2DataWriter.execute writer0 (Some frame_w) (Some 0) (Some 10)
               = Ok calls_w) by (vm_compute; reflexivity).
  assert (H2 : In (DbInsert "T" rows_w) calls_w)
    by (right; left; reflexivity).
  split; [split; assumption|].
  exact (writer_batches_are_bounded writer0 frame_w (Some 0) (Some 10)
                                    calls_w "T" rows_w H1 H2).
Defined.

Lemma writer_deletes_before_inserts_witness :
  Db2DataWriter.execute writer0 (Some frame_w) (Some 0) (Some 10)
    = Ok calls_w /\
  exists tables ins,
    calls_w = map (fun t => DbDelete t (Some 0) (Some 10)) tables ++ ins /\
    NoDup tables /\
    (forall t, In t tables <->
       exists item ty,
         In (item, (ty, t)) (_get_active_cols_properties writer0 frame_w)) /\
    (forall c, In c ins -> exists t rows, c = DbInsert t rows /\ In t tables).
Proof.
  assert (H1 : Db2DataWriter.execute writer0 (Some frame_w) (Some 0) (Some 10)
               = Ok calls_w) by (vm_compute; reflexivity).
  split; [exact H1|].
  exact (writer_deletes_before_inserts writer0 frame_w (Some 0) (Some 10)
                                       calls_w H1).
Defined.

Lemma writer_rows_match_insert_statement_witness :
  (parameter_markers (quoted (schema_name writer_site)) = 0%nat /\
   parameter_markers (quoted "T") = 0%nat /\
   (forall item x,
      In x (insert_dimensions (grains_metadata writer_site item)) ->
      parameter_markers (quoted x) = 0%nat) /\
   Db2DataWriter.execute writer_site (Some frame_site) None None
     = Ok calls_site /\
   In (DbInsert "T" rows_site) calls_site /\
   In (map Scalar [SStr "temp"; SStr "A"; SStr "north"; SNone;
                   SFloat (FNum 20 0); SNone; SNone]) rows_site) /\
  exists item ty sql_insert sql_delete,
    In (item, (ty, "T")) (_get_active_cols_properties writer_site frame_site) /\
    create_insert_statement quoted quoted quoted writer_site "T"
                            (grains_metadata writer_site item)
      = Ok sql_insert /\
    List.length (map Scalar [SStr "temp"; SStr "A"; SStr "north"; SNone;
                             SFloat (FNum 20 0); SNone; SNone])
      = parameter_markers sql_insert /\
    create_delete_statement quoted quoted writer_site "T" = Ok sql_delete /\
    parameter_markers sql_delete = 2%nat.
Proof.
  assert (H1 : parameter_markers (quoted (schema_name writer_site)) = 0%nat)
    by reflexivity.
  assert (H2 : parameter_markers (quoted "T") = 0%nat) by reflexivity.
  assert (H3 : forall item x,
             In x (insert_dimensions (grains_metadata writer_site item)) ->
             parameter_markers (quoted x) = 0%nat).
  { intros item x. simpl. destruct (String.eqb item "temp"); simpl;
      intros [<-|[<-|[]]]; reflexivity. }
  assert (H4 : Db2DataWriter.execute writer_site (Some frame_site) None None
               = Ok calls_site) by (vm_compute; reflexivity).
  assert (H5 : In (DbInsert "T" rows_site) calls_site)
    by (right; left; reflexivity).
  assert (H6 : In (map Scalar [SStr "temp"; SStr "A"; SStr "north"; SNone;
                               SFloat (FNum 20 0); SNone; SNone]) rows_site)
    by (left; reflexivity).
  split; [repeat split; assumption|].
  exact (writer_rows_match_insert_statement
           quoted quoted quoted writer_site frame_site None None calls_site
           "T" rows_site
           (map Scalar [SStr "temp"; SStr "A"; SStr "north"; SNone;
                        SFloat (FNum 20 0); SNone; SNone])
           H1 H2 H3 H4 H5 H6).
Defined.

End WriterWitnesses.
